(** * Process introspection on Windows: a model of [src/arch/windows/process_info.c]

    The C file is embedded function by function.  Calls into the operating
    system and into the C library are fields of an [OS] record that take and
    return an abstract [World]; the model keeps its own account of the
    process handles that are open and of the heap blocks that are live, so
    that "released on every exit path" is a statement about that account. *)

From Stdlib Require Import String.
From Stdlib Require Import ZArith List Bool Lia.
Import ListNotations.
Local Open Scope Z_scope.

(** ** Machine integers *)

Definition DWORD_of (x : Z) : Z := x mod 2 ^ 32.
Definition USHORT_of (x : Z) : Z := x mod 2 ^ 16.
(** [int] and [NTSTATUS]: 32 bits, two's complement. *)
Definition int_of (x : Z) : Z := (x + 2 ^ 31) mod 2 ^ 32 - 2 ^ 31.
Definition ULONG64_of (x : Z) : Z := x mod 2 ^ 64.

Definition NULL : Z := 0.
Definition sizeof_DWORD : Z := 4.

(** Constants of the Windows headers used by the file. *)
Definition ERROR_INVALID_PARAMETER : Z := 87.
Definition STILL_ACTIVE : Z := 259.
Definition PROCESS_QUERY_INFORMATION : Z := 0x0400.
Definition PROCESS_VM_READ : Z := 0x0010.

(** [const int STATUS_INFO_LENGTH_MISMATCH = 0xC0000004;]
    [const int STATUS_BUFFER_TOO_SMALL = 0xC0000023L;] *)
Definition STATUS_INFO_LENGTH_MISMATCH : Z := int_of 0xC0000004.
Definition STATUS_BUFFER_TOO_SMALL : Z := int_of 0xC0000023.

(** ** Structures read from the target process

    Only the fields the code uses are kept; the three layouts of the source
    (32 bit, native, 64 bit) differ in field widths, not in the fields. *)

Record UNICODE_STRING := {
  Length : Z;          (* USHORT, in bytes *)
  MaxLength : Z;
  Buffer : Z
}.

Record RTL_USER_PROCESS_PARAMETERS := {
  CurrentDirectoryPath : UNICODE_STRING;
  CommandLine : UNICODE_STRING;
  env : Z
}.

Record MEMORY_BASIC_INFORMATION := {
  BaseAddress : Z;
  RegionSize : Z
}.

Record SYSTEM_PROCESS_INFORMATION := {
  NextEntryOffset : Z; (* ULONG *)
  UniqueProcessId : Z  (* HANDLE *)
}.

(** A snapshot buffer as filled by NtQuerySystemInformation: the records it
    holds, each at its byte offset from the start of the buffer. *)
Definition snapshot := list (Z * SYSTEM_PROCESS_INFORMATION).

Inductive layout := Layout32 | LayoutNative | Layout64.

(** The two remote read primitives. *)
Inductive reader := ReadProcessMemory | NtWow64ReadVirtualMemory64.

Inductive ps__process_data_kind := KIND_CMDLINE | KIND_CWD | KIND_ENVIRON.

Inductive ps_error :=
| NoSuchProcess (pid : Z)
| AccessDenied
| NoMemory
| WindowsError
| PsError (msg : string).

(** ** The operating system *)

Record OS := {
  World : Type;
  (** build configuration: [#ifdef _WIN64], and the testing switch of
      ps-internal.h *)
  WIN64 : bool;
  PS__TESTING : bool;
  (** kernel32 / psapi *)
  OpenProcess : Z -> Z -> World -> Z * World;
  GetLastError : World -> Z;
  GetExitCodeProcess : Z -> World -> option Z * World;
  CloseHandle : Z -> World -> World;
  (** the identifiers EnumProcesses has to report, [None] when it fails *)
  live_pids : World -> option (list Z) * World;
  IsWow64Process : option Z -> World -> option bool * World;
  VirtualQueryEx : Z -> Z -> World -> option MEMORY_BASIC_INFORMATION * World;
  LoadLibrary : World -> Z * World;
  FreeLibrary : Z -> World -> World;
  GetProcAddress : string -> World -> bool * World;
  (** ntdll *)
  QueryWow64Information : Z -> World -> option Z * World;
  QueryBasicInformation : Z -> World -> option Z * World;
  QueryBasicInformation64 : Z -> World -> option Z * World;
  NtWow64QueryVirtualMemory64 :
    Z -> Z -> World -> option MEMORY_BASIC_INFORMATION * World;
  NtQuerySystemInformation : Z -> World -> (Z * Z * snapshot) * World;
  (** remote reads, into a structure of the given layout or into bytes *)
  read_PEB : layout -> Z -> Z -> World -> option Z * World;
  read_parameters :
    layout -> Z -> Z -> World -> option RTL_USER_PROCESS_PARAMETERS * World;
  read_bytes : reader -> Z -> Z -> Z -> World -> option (list Z) * World;
  (** a read that succeeds has copied the number of bytes asked for *)
  read_bytes_length :
    forall r h src n w bs w',
      read_bytes r h src n w = (Some bs, w') -> Z.of_nat (length bs) = n;
  (** C library *)
  malloc : Z -> World -> Z * World;
  free : Z -> World -> World
}.

(** Width of [SIZE_T] and of pointers in the build. *)
Definition ptr_bits (os : OS) : Z := if WIN64 os then 64 else 32.
Definition SIZE_T_of (os : OS) (x : Z) : Z := x mod 2 ^ ptr_bits os.

(** ** Program state *)

(** The function-level [static] variables of the file. *)
Record statics := {
  NtQueryInformationProcess_set : bool;
  NtWow64QueryInformationProcess64_set : bool;
  NtWow64ReadVirtualMemory64_set : bool;
  NtWow64QueryVirtualMemory64_set : bool;
  initialBufferSize : Z
}.

Definition statics0 : statics :=
  {| NtQueryInformationProcess_set := false;
     NtWow64QueryInformationProcess64_set := false;
     NtWow64ReadVirtualMemory64_set := false;
     NtWow64QueryVirtualMemory64_set := false;
     initialBufferSize := 0x4000 |}.

Section Model.

Context (os : OS).

Record state := {
  st_world : World os;
  st_handles : list Z;       (* process handles opened and not yet closed *)
  st_heap : list (Z * Z);    (* live heap blocks: address, size in bytes *)
  st_errors : list ps_error; (* errors raised, latest first *)
  st_statics : statics
}.

Definition set_world (w : World os) (s : state) : state :=
  {| st_world := w; st_handles := st_handles s; st_heap := st_heap s;
     st_errors := st_errors s; st_statics := st_statics s |}.
Definition set_handles (l : list Z) (s : state) : state :=
  {| st_world := st_world s; st_handles := l; st_heap := st_heap s;
     st_errors := st_errors s; st_statics := st_statics s |}.
Definition set_heap (l : list (Z * Z)) (s : state) : state :=
  {| st_world := st_world s; st_handles := st_handles s; st_heap := l;
     st_errors := st_errors s; st_statics := st_statics s |}.
Definition set_errors (l : list ps_error) (s : state) : state :=
  {| st_world := st_world s; st_handles := st_handles s; st_heap := st_heap s;
     st_errors := l; st_statics := st_statics s |}.
Definition set_statics (x : statics) (s : state) : state :=
  {| st_world := st_world s; st_handles := st_handles s; st_heap := st_heap s;
     st_errors := st_errors s; st_statics := x |}.

(** A run ends with a value and a state, or in behaviour the C standard
    leaves undefined (an access outside a block, a call through a null
    function pointer), or the model's loop budget is used up. *)
Inductive outcome (A : Type) :=
| Done (a : A) (s : state)
| Undefined
| OutOfFuel.
Arguments Done {A} a s.
Arguments Undefined {A}.
Arguments OutOfFuel {A}.

Definition M (A : Type) : Type := state -> outcome A.

Definition ret {A} (a : A) : M A := fun s => Done a s.
Definition bind {A B} (m : M A) (k : A -> M B) : M B :=
  fun s => match m s with
           | Done a s' => k a s'
           | Undefined => Undefined
           | OutOfFuel => OutOfFuel
           end.
Definition undefined {A} : M A := fun _ => Undefined.

Notation "x <- m ;; k" := (bind m (fun x => k))
  (at level 100, m at next level, right associativity).
Notation "m ;;; k" := (bind m (fun _ => k))
  (at level 100, right associativity).

(** An operating-system call that returns a value. *)
Definition sys {A} (f : World os -> A * World os) : M A :=
  fun s => let (a, w) := f (st_world s) in Done a (set_world w s).
(** An operating-system call without a result. *)
Definition sys_ (f : World os -> World os) : M unit :=
  fun s => Done tt (set_world (f (st_world s)) s).

Fixpoint remove_first (x : Z) (l : list Z) : list Z :=
  match l with
  | [] => []
  | y :: l' => if y =? x then l' else y :: remove_first x l'
  end.

Fixpoint remove_block (p : Z) (l : list (Z * Z)) : list (Z * Z) :=
  match l with
  | [] => []
  | b :: l' => if fst b =? p then l' else b :: remove_block p l'
  end.

(** [OpenProcess]: a handle that is not NULL is open from now on. *)
Definition open_process (access pid : Z) : M Z :=
  h <- sys (OpenProcess os access pid) ;;
  if h =? NULL then ret h
  else fun s => Done h (set_handles (h :: st_handles s) s).

Definition close_handle (h : Z) : M unit :=
  sys_ (CloseHandle os h) ;;;
  fun s => Done tt (set_handles (remove_first h (st_handles s)) s).

(** [malloc(n)] and [calloc(n, 1)]: the allocator decides on the address,
    NULL when it fails. *)
Definition c_malloc (n : Z) : M Z :=
  p <- sys (malloc os n) ;;
  if p =? NULL then ret p
  else fun s => Done p (set_heap ((p, n) :: st_heap s) s).

(** [free(p)]; [free(NULL)] does nothing. *)
Definition c_free (p : Z) : M unit :=
  if p =? NULL then ret tt
  else sys_ (free os p) ;;;
       fun s => Done tt (set_heap (remove_block p (st_heap s)) s).

(** Modelled from the spec: the error reporters [ps__no_such_process],
    [ps__access_denied], [ps__no_memory], [ps__set_error_from_windows_error]
    and [ps__set_error] are declared in common.h and defined outside
    process_info.c; each records the error kind of section 7 of the
    specification. *)
Definition raise (e : ps_error) : M unit :=
  fun s => Done tt (set_errors (e :: st_errors s) s).

Definition ps__no_such_process (pid : Z) : M unit := raise (NoSuchProcess pid).
Definition ps__access_denied : M unit := raise AccessDenied.
Definition ps__no_memory : M unit := raise NoMemory.
Definition ps__set_error_from_windows_error : M unit := raise WindowsError.
Definition ps__set_error (msg : string) : M unit := raise (PsError msg).

(** ** Process and PID utilities *)

(** [EnumProcesses(procArray, cb, &enumReturnSz)]: stores as many whole
    identifiers as fit into [cb] bytes and reports the bytes stored. *)
Definition EnumProcesses (cb : Z) : M (option (list Z * Z)) :=
  r <- sys (live_pids os) ;;
  match r with
  | None => ret None
  | Some pids =>
      let stored := firstn (Z.to_nat (cb / sizeof_DWORD)) pids in
      ret (Some (stored, sizeof_DWORD * Z.of_nat (length stored)))
  end.

(** The variables of the loop of [ps__get_pids] when it is left. *)
Record pids_loop := {
  procArray : Z;
  procArray_entries : list Z;
  procArraySz : Z;
  enumReturnSz : Z
}.

(** The [do ... while] loop of [ps__get_pids]; [None] is [return NULL]. *)
Fixpoint ps__get_pids_loop (fuel : nat) (procArray0 procArraySz0 : Z)
  : M (option pids_loop) :=
  match fuel with
  | O => fun _ => OutOfFuel
  | S fuel' =>
      let procArraySz1 := int_of (procArraySz0 + 1024) in
      c_free procArray0 ;;;
      let procArrayByteSz :=
        DWORD_of (SIZE_T_of os (SIZE_T_of os procArraySz1 * sizeof_DWORD)) in
      procArray1 <- c_malloc procArrayByteSz ;;
      if procArray1 =? NULL then
        ps__no_memory ;;; ret None
      else
        r <- EnumProcesses procArrayByteSz ;;
        match r with
        | None =>
            c_free procArray1 ;;;
            ps__set_error_from_windows_error ;;;
            ret None
        | Some (entries, enumReturnSz1) =>
            if enumReturnSz1
               =? SIZE_T_of os (SIZE_T_of os procArraySz1 * sizeof_DWORD)
            then ps__get_pids_loop fuel' procArray1 procArraySz1
            else ret (Some {| procArray := procArray1;
                              procArray_entries := entries;
                              procArraySz := procArraySz1;
                              enumReturnSz := enumReturnSz1 |})
        end
  end.

(** [ps__get_pids]: the array, its entries and [*numberOfReturnedPIDs]. *)
Definition ps__get_pids (fuel : nat) : M (option (Z * list Z * Z)) :=
  r <- ps__get_pids_loop fuel NULL 0 ;;
  match r with
  | None => ret None
  | Some l =>
      ret (Some (procArray l, procArray_entries l,
                 enumReturnSz l / sizeof_DWORD))
  end.

(** The [for] loop of [ps__pid_in_pids] over the first [n] entries. *)
Fixpoint pid_in_array (pid : Z) (proclist : list Z) (n : nat) : bool :=
  match n, proclist with
  | S n', x :: rest => if x =? pid then true else pid_in_array pid rest n'
  | _, _ => false
  end.

(** Return 1 if PID exists, 0 if not, -1 on error. *)
Definition ps__pid_in_pids (fuel : nat) (pid : Z) : M Z :=
  r <- ps__get_pids fuel ;;
  match r with
  | None => ret (-1)
  | Some (proclist, entries, numberOfReturnedPIDs) =>
      if pid_in_array pid entries (Z.to_nat numberOfReturnedPIDs)
      then c_free proclist ;;; ret 1
      else c_free proclist ;;; ret 0
  end.

Definition ps__assert_pid_exists (fuel : nat) (pid : Z) (err : string)
  : M Z :=
  if PS__TESTING os then
    r <- ps__pid_in_pids fuel pid ;;
    if r =? 0 then ps__set_error err ;;; ret 0 else ret 1
  else ret 1.

Definition ps__assert_pid_not_exists (fuel : nat) (pid : Z) (err : string)
  : M Z :=
  if PS__TESTING os then
    r <- ps__pid_in_pids fuel pid ;;
    if r =? 1 then ps__set_error err ;;; ret 0 else ret 1
  else ret 1.

(** Given a process HANDLE checks whether it's actually running.
    1: running, 0: not running, -1: WindowsError, -2: AssertionError. *)
Definition ps__is_phandle_running (fuel : nat) (hProcess pid : Z) : M Z :=
  if hProcess =? NULL then
    e <- sys (fun w => (GetLastError os w, w)) ;;
    if e =? ERROR_INVALID_PARAMETER then
      a <- ps__assert_pid_not_exists fuel pid
             "iphr: OpenProcess() -> ERROR_INVALID_PARAMETER" ;;
      if a =? 0 then ret (-2) else ret 0
    else ret (-1)
  else
    r <- sys (GetExitCodeProcess os hProcess) ;;
    match r with
    | Some processExitCode =>
        if processExitCode =? STILL_ACTIVE then
          a <- ps__assert_pid_exists fuel pid
                 "iphr: GetExitCodeProcess() -> STILL_ACTIVE" ;;
          if a =? 0 then close_handle hProcess ;;; ret (-2) else ret 1
        else
          (* We can't be sure so we look into pids. *)
          m <- ps__pid_in_pids fuel pid ;;
          if m =? 1 then ret 1
          else close_handle hProcess ;;; ret 0
    | None =>
        close_handle hProcess ;;;
        a <- ps__assert_pid_not_exists fuel pid "iphr: exit fun" ;;
        if a =? 0 then ret (-2) else ret (-1)
    end.

Definition ps__check_phandle (fuel : nat) (hProcess pid : Z) : M Z :=
  r <- ps__is_phandle_running fuel hProcess pid ;;
  if r =? 1 then ret hProcess
  else if r =? 0 then ps__no_such_process pid ;;; ret NULL
  else if r =? -1 then ps__set_error_from_windows_error ;;; ret NULL
  else ret NULL.

Definition ps__handle_from_pid_waccess (fuel : nat) (pid dwDesiredAccess : Z)
  : M Z :=
  if pid =? 0 then
    (* otherwise we'd get NoSuchProcess *)
    ps__access_denied ;;; ret NULL
  else
    hProcess <- open_process dwDesiredAccess pid ;;
    ps__check_phandle fuel hProcess pid.

Definition ps__handle_from_pid (fuel : nat) (pid : Z) : M Z :=
  let dwDesiredAccess := Z.lor PROCESS_QUERY_INFORMATION PROCESS_VM_READ in
  ps__handle_from_pid_waccess fuel pid dwDesiredAccess.

(** ** Bitness negotiation *)

Inductive BitnessMode :=
| Native
| TargetNarrowerThanCaller
| TargetWiderThanCaller.

(** The branch taken by [ps__get_process_data]: under [_WIN64] the test is
    [ppeb32 != NULL], otherwise it is [weAreWow64 && !theyAreWow64]. *)
Definition bitness_mode (win64 : bool) (ppeb32 : Z)
  (weAreWow64 theyAreWow64 : bool) : BitnessMode :=
  if win64 then
    if negb (ppeb32 =? NULL) then TargetNarrowerThanCaller else Native
  else
    if weAreWow64 && negb theyAreWow64 then TargetWiderThanCaller else Native.

(** The table of section 4.3 of the specification, row by row. *)
Definition table_4_3 (caller_wide caller_compat target_compat : bool)
  : BitnessMode :=
  match caller_wide, caller_compat, target_compat with
  | true, _, true => TargetNarrowerThanCaller
  | true, _, false => Native
  | false, true, false => TargetWiderThanCaller
  | false, _, _ => Native
  end.

Definition layout_of (m : BitnessMode) : layout :=
  match m with
  | Native => LayoutNative
  | TargetNarrowerThanCaller => Layout32
  | TargetWiderThanCaller => Layout64
  end.

(** A remote address as a field of the given layout holds it. *)
Definition address_of (l : layout) (x : Z) : Z :=
  match l with
  | Layout32 => DWORD_of x
  | LayoutNative => SIZE_T_of os x
  | Layout64 => ULONG64_of x
  end.

(** ** Region size probes *)

(** Given a pointer into a process's memory, figure out how much data can
    be read from it.  [None] is the return value -1. *)
Definition ps__get_process_region_size (hProcess src : Z) : M (option Z) :=
  r <- sys (VirtualQueryEx os hProcess src) ;;
  match r with
  | None => ps__set_error_from_windows_error ;;; ret None
  | Some info =>
      ret (Some (SIZE_T_of os
                   (SIZE_T_of os (RegionSize info)
                    - (src - SIZE_T_of os (BaseAddress info)))))
  end.

(** Look up a function of ntdll.dll once and keep it in a [static]. *)
Definition resolve (get : statics -> bool)
  (set : bool -> statics -> statics) (name : string) : M bool :=
  fun s =>
    if get (st_statics s) then Done true s
    else (ok <- sys (GetProcAddress os name) ;;
          fun s' => Done ok (set_statics (set ok (st_statics s')) s')) s.

Definition set_NtQueryInformationProcess (b : bool) (x : statics) :=
  {| NtQueryInformationProcess_set := b;
     NtWow64QueryInformationProcess64_set :=
       NtWow64QueryInformationProcess64_set x;
     NtWow64ReadVirtualMemory64_set := NtWow64ReadVirtualMemory64_set x;
     NtWow64QueryVirtualMemory64_set := NtWow64QueryVirtualMemory64_set x;
     initialBufferSize := initialBufferSize x |}.
Definition set_NtWow64QueryInformationProcess64 (b : bool) (x : statics) :=
  {| NtQueryInformationProcess_set := NtQueryInformationProcess_set x;
     NtWow64QueryInformationProcess64_set := b;
     NtWow64ReadVirtualMemory64_set := NtWow64ReadVirtualMemory64_set x;
     NtWow64QueryVirtualMemory64_set := NtWow64QueryVirtualMemory64_set x;
     initialBufferSize := initialBufferSize x |}.
Definition set_NtWow64ReadVirtualMemory64 (b : bool) (x : statics) :=
  {| NtQueryInformationProcess_set := NtQueryInformationProcess_set x;
     NtWow64QueryInformationProcess64_set :=
       NtWow64QueryInformationProcess64_set x;
     NtWow64ReadVirtualMemory64_set := b;
     NtWow64QueryVirtualMemory64_set := NtWow64QueryVirtualMemory64_set x;
     initialBufferSize := initialBufferSize x |}.
Definition set_NtWow64QueryVirtualMemory64 (b : bool) (x : statics) :=
  {| NtQueryInformationProcess_set := NtQueryInformationProcess_set x;
     NtWow64QueryInformationProcess64_set :=
       NtWow64QueryInformationProcess64_set x;
     NtWow64ReadVirtualMemory64_set := NtWow64ReadVirtualMemory64_set x;
     NtWow64QueryVirtualMemory64_set := b;
     initialBufferSize := initialBufferSize x |}.
Definition set_initialBufferSize (n : Z) (x : statics) :=
  {| NtQueryInformationProcess_set := NtQueryInformationProcess_set x;
     NtWow64QueryInformationProcess64_set :=
       NtWow64QueryInformationProcess64_set x;
     NtWow64ReadVirtualMemory64_set := NtWow64ReadVirtualMemory64_set x;
     NtWow64QueryVirtualMemory64_set := NtWow64QueryVirtualMemory64_set x;
     initialBufferSize := n |}.

(** A call through a [static] function pointer; calling it while it is
    still NULL is undefined. *)
Definition call_through {A} (get : statics -> bool) (m : M A) : M A :=
  fun s => if get (st_statics s) then m s else Undefined.

(** The 64 bit probe of a 32 bit build.  The offset of [src64] in its
    region is computed on the addresses cut to [DWORD32]. *)
Definition ps__get_process_region_size64 (hProcess src64 : Z)
  : M (option Z) :=
  ok <- resolve NtWow64QueryVirtualMemory64_set
          set_NtWow64QueryVirtualMemory64 "NtWow64QueryVirtualMemory64" ;;
  if negb ok then
    ps__set_error "NtWow64QueryVirtualMemory64 missing" ;;; ret None
  else
    r <- sys (NtWow64QueryVirtualMemory64 os hProcess src64) ;;
    match r with
    | None => ps__set_error_from_windows_error ;;; ret None
    | Some info64 =>
        ret (Some (ULONG64_of
                     (ULONG64_of (RegionSize info64)
                      - DWORD_of (DWORD_of src64
                                  - DWORD_of (BaseAddress info64)))))
    end.

(** ** Reading a field of another process *)

(** The places of [ps__get_process_data] that can fail. *)
Inductive step :=
| StepOpen          (* ps__handle_from_pid *)
| StepBitness       (* ProcessWow64Information / IsWow64Process *)
| StepResolve       (* a Wow64 function of ntdll.dll is missing *)
| StepBasicInfo     (* ProcessBasicInformation *)
| StepReadPeb
| StepReadParams
| StepProbe         (* region size *)
| StepAlloc         (* calloc *)
| StepCopy.         (* the final read *)

(** Local variables of [ps__get_process_data] once the field is located. *)
Record locals := {
  l_mode : BitnessMode;
  l_src : Z;
  l_src64 : Z;
  l_size : Z
}.

(** A locally owned buffer: its address and the bytes it holds. *)
Record buffer := { buf_addr : Z; buf_bytes : list Z }.
Definition null_buffer : buffer := {| buf_addr := NULL; buf_bytes := [] |}.

(** [goto error], with the value [buffer] has at the jump. *)
Definition goto_error {A} (at_step : step) (buffer : Z) : M (step * Z + A) :=
  ret (inl (at_step, buffer)).

Definition bindE {A B} (m : M (step * Z + A)) (k : A -> M (step * Z + B))
  : M (step * Z + B) :=
  x <- m ;;
  match x with
  | inl e => ret (inl e)
  | inr a => k a
  end.

Notation "x <-! m ;; k" := (bindE m (fun x => k))
  (at level 100, m at next level, right associativity).

(** The three [switch (kind)] blocks: start address and length. *)
Definition select_field (l : layout) (kind : ps__process_data_kind)
  (p : RTL_USER_PROCESS_PARAMETERS) : Z * Z :=
  match kind with
  | KIND_CMDLINE =>
      (address_of l (Buffer (CommandLine p)),
       USHORT_of (Length (CommandLine p)))
  | KIND_CWD =>
      (address_of l (Buffer (CurrentDirectoryPath p)),
       USHORT_of (Length (CurrentDirectoryPath p)))
  | KIND_ENVIRON => (address_of l (env p), 0)
  end.

(** Read the PEB at [ppeb], then the process parameters it points to. *)
Definition read_blocks (m : BitnessMode) (hProcess ppeb : Z)
  (kind : ps__process_data_kind) : M (step * Z + locals) :=
  let l := layout_of m in
  peb <- sys (read_PEB os l hProcess ppeb) ;;
  match peb with
  | None => ps__set_error_from_windows_error ;;; goto_error StepReadPeb NULL
  | Some ProcessParameters =>
      params <- sys (read_parameters os l hProcess
                       (address_of l ProcessParameters)) ;;
      match params with
      | None =>
          ps__set_error_from_windows_error ;;; goto_error StepReadParams NULL
      | Some procParameters =>
          let (src, size) := select_field l kind procParameters in
          ret (inr match m with
                   | TargetWiderThanCaller =>
                       {| l_mode := m; l_src := NULL; l_src64 := src;
                          l_size := size |}
                   | _ =>
                       {| l_mode := m; l_src := src; l_src64 := NULL;
                          l_size := size |}
                   end)
      end
  end.

(** Target process is of the same bitness as us. *)
Definition locate_native (hProcess : Z) (kind : ps__process_data_kind)
  : M (step * Z + locals) :=
  pbi <- call_through NtQueryInformationProcess_set
           (sys (QueryBasicInformation os hProcess)) ;;
  match pbi with
  | None => ps__set_error_from_windows_error ;;; goto_error StepBasicInfo NULL
  | Some PebBaseAddress =>
      read_blocks Native hProcess (address_of LayoutNative PebBaseAddress) kind
  end.

(** We are 32 bit running in WoW64 mode.  Target process is 64 bit. *)
Definition locate_wider (hProcess : Z) (kind : ps__process_data_kind)
  : M (step * Z + locals) :=
  ok <- resolve NtWow64QueryInformationProcess64_set
          set_NtWow64QueryInformationProcess64
          "NtWow64QueryInformationProcess64" ;;
  if negb ok then
    ps__set_error "NtWow64QueryInformationProcess64 missing" ;;;
    goto_error StepResolve NULL
  else
    pbi64 <- sys (QueryBasicInformation64 os hProcess) ;;
    match pbi64 with
    | None =>
        ps__set_error_from_windows_error ;;; goto_error StepBasicInfo NULL
    | Some PebBaseAddress =>
        ok <- resolve NtWow64ReadVirtualMemory64_set
                set_NtWow64ReadVirtualMemory64 "NtWow64ReadVirtualMemory64" ;;
        if negb ok then
          ps__set_error "NtWow64ReadVirtualMemory64 missing" ;;;
          goto_error StepResolve NULL
        else
          read_blocks TargetWiderThanCaller hProcess
            (address_of Layout64 PebBaseAddress) kind
    end.

(** Lines 487-671: fix the bitness mode and walk to the field. *)
Definition locate_field (hProcess : Z) (kind : ps__process_data_kind)
  : M (step * Z + locals) :=
  resolve NtQueryInformationProcess_set set_NtQueryInformationProcess
    "NtQueryInformationProcess" ;;;
  if WIN64 os then
    r <- call_through NtQueryInformationProcess_set
           (sys (QueryWow64Information os hProcess)) ;;
    match r with
    | None => ps__set_error_from_windows_error ;;; goto_error StepBitness NULL
    | Some ppeb32 =>
        match bitness_mode true ppeb32 false false with
        | TargetNarrowerThanCaller =>
            read_blocks TargetNarrowerThanCaller hProcess ppeb32 kind
        | _ => locate_native hProcess kind
        end
    end
  else
    we <- sys (IsWow64Process os None) ;;
    match we with
    | None => ps__set_error_from_windows_error ;;; goto_error StepBitness NULL
    | Some weAreWow64 =>
        they <- sys (IsWow64Process os (Some hProcess)) ;;
        match they with
        | None =>
            ps__set_error_from_windows_error ;;; goto_error StepBitness NULL
        | Some theyAreWow64 =>
            match bitness_mode false NULL weAreWow64 theyAreWow64 with
            | TargetWiderThanCaller => locate_wider hProcess kind
            | _ => locate_native hProcess kind
            end
        end
    end.

Definition with_size (l : locals) (size : Z) : locals :=
  {| l_mode := l_mode l; l_src := l_src l; l_src64 := l_src64 l;
     l_size := size |}.

(** Lines 673-687: the length of the environment block is probed. *)
Definition resolve_length (hProcess : Z) (kind : ps__process_data_kind)
  (l : locals) : M (step * Z + locals) :=
  match kind with
  | KIND_ENVIRON =>
      match l_mode l with
      | TargetWiderThanCaller =>
          r <- ps__get_process_region_size64 hProcess (l_src64 l) ;;
          match r with
          | None => goto_error StepProbe NULL
          | Some size64 => ret (inr (with_size l (SIZE_T_of os size64)))
          end
      | _ =>
          r <- ps__get_process_region_size hProcess (l_src l) ;;
          match r with
          | None => goto_error StepProbe NULL
          | Some size => ret (inr (with_size l size))
          end
      end
  | _ => ret (inr l)
  end.

(** Bytes written at the start of a zeroed block of [cap] bytes; there is
    no result when they do not fit. *)
Definition store_bytes (cap : Z) (bs : list Z) : option (list Z) :=
  if Z.of_nat (length bs) <=? cap
  then Some (bs ++ repeat 0 (Z.to_nat cap - length bs))
  else None.

(** Lines 689-711: allocate [size + 2] zeroed bytes and copy into them. *)
Definition copy_region (hProcess : Z) (l : locals)
  : M (step * Z + buffer) :=
  let cap := SIZE_T_of os (l_size l + 2) in
  buffer <- c_malloc cap ;;
  if buffer =? NULL then
    ps__no_memory ;;; goto_error StepAlloc NULL
  else
    r <- match l_mode l with
         | TargetWiderThanCaller =>
             call_through NtWow64ReadVirtualMemory64_set
               (sys (read_bytes os NtWow64ReadVirtualMemory64 hProcess
                       (l_src64 l) (l_size l)))
         | _ =>
             sys (read_bytes os ReadProcessMemory hProcess
                    (l_src l) (l_size l))
         end ;;
    match r with
    | None => ps__set_error_from_windows_error ;;; goto_error StepCopy buffer
    | Some bs =>
        match store_bytes cap bs with
        | None => undefined
        | Some bytes => ret (inr {| buf_addr := buffer; buf_bytes := bytes |})
        end
    end.

(** Lines 487-711 as one computation: walk, probe, copy. *)
Definition process_data_body (hProcess : Z) (kind : ps__process_data_kind)
  : M (step * Z + buffer * Z) :=
  l <-! locate_field hProcess kind ;;
  l <-! resolve_length hProcess kind l ;;
  b <-! copy_region hProcess l ;;
  ret (inr (b, l_size l)).

(** [ps__get_process_data], with the place it failed at next to the return
    value and the new values of [*pdata] and [*psize]. *)
Definition ps__get_process_data_steps (fuel : nat) (pid : Z)
  (kind : ps__process_data_kind) (pdata : buffer) (psize : Z)
  : M (Z * option step * buffer * Z) :=
  hProcess <- ps__handle_from_pid fuel (DWORD_of pid) ;;
  if hProcess =? NULL then ret (-1, Some StepOpen, pdata, psize)
  else
    r <- process_data_body hProcess kind ;;
    match r with
    | inr (buffer, size) =>
        close_handle hProcess ;;;
        ret (0, None, buffer, size)
    | inl (at_step, buffer) =>
        (* error: *)
        (if negb (hProcess =? NULL) then close_handle hProcess else ret tt) ;;;
        (if negb (buffer =? NULL) then c_free buffer else ret tt) ;;;
        ret (-1, Some at_step, pdata, psize)
    end.

(** On success 0 is returned.  On error the output parameter is not
    touched, -1 is returned, and an appropriate exception is set. *)
Definition ps__get_process_data (fuel : nat) (pid : Z)
  (kind : ps__process_data_kind) (pdata : buffer) (psize : Z)
  : M (Z * buffer * Z) :=
  r <- ps__get_process_data_steps fuel pid kind pdata psize ;;
  let '(code, _, pdata', psize') := r in
  ret (code, pdata', psize').

(** ** The working directory accessor *)

(** A byte buffer seen as an array of [WCHAR] (UTF-16, little endian). *)
Fixpoint wchars_of_bytes (bs : list Z) : list Z :=
  match bs with
  | lo :: hi :: rest => (lo + 256 * hi) :: wchars_of_bytes rest
  | _ => []
  end.

(** [wcslen]: the index of the first terminator; running off the end of
    the array has no defined result. *)
Fixpoint wcslen (data : list Z) : option nat :=
  match data with
  | [] => None
  | c :: rest => if c =? 0 then Some O else option_map S (wcslen rest)
  end.

Definition path_separator : Z := 92. (* L'\\' *)

Definition nonzero (c : Z) : Prop := c <> 0.

Fixpoint set_nth (i : nat) (x : Z) (l : list Z) : list Z :=
  match i, l with
  | _, [] => []
  | O, _ :: rest => x :: rest
  | S i', y :: rest => y :: set_nth i' x rest
  end.

(** [size = wcslen(data); if (data[size - 1] == L'\\') data[size - 1] = L'\0';]
    With [size = 0] the index [size - 1] is outside the array. *)
Definition trim_trailing_separator (data : list Z) : option (list Z) :=
  match wcslen data with
  | None => None
  | Some O => None
  | Some (S i) =>
      match nth_error data i with
      | None => None
      | Some c =>
          if c =? path_separator then Some (set_nth i 0 data) else Some data
      end
  end.

(** The text of a terminated wide string, as [ps__utf16_to_charsxp(data, -1)]
    reads it: the characters before the first terminator. *)
Definition wide_text (data : list Z) : option (list Z) :=
  option_map (fun n => firstn n data) (wcslen data).

(** [ps__get_cwd]: the text handed to R, [None] for [R_NilValue].
    [size] is not initialised in the source; its value is passed in. *)
Definition ps__get_cwd (fuel : nat) (pid : Z) (size0 : Z)
  : M (option (list Z)) :=
  r <- ps__get_process_data fuel pid KIND_CWD null_buffer size0 ;;
  let '(code, data, _) := r in
  if negb (code =? 0) then ret None
  else
    match trim_trailing_separator (wchars_of_bytes (buf_bytes data)) with
    | None => undefined
    | Some data' =>
        match wide_text data' with
        | None => undefined
        | Some text => ret (Some text)
        end
    end.

(** ** The environment accessor *)

(** The [while (ptr < end)] loop of [ps__get_environ]: [rest] is the array
    from [ptr] on, [left] is [end - ptr] and the result is [ptr - data] when
    the loop is left.  [end] is only compared with; reading [*ptr] outside
    the array has no defined result. *)
Fixpoint environ_scan (rest : list Z) (left : nat) (numzero : Z) (ptr : nat)
  : option nat :=
  match left with
  | O => Some ptr
  | S left' =>
      match rest with
      | [] => None
      | c :: rest' =>
          if negb (c =? 0) then environ_scan rest' left' 0 (S ptr)
          else if numzero + 1 =? 2 then Some ptr
               else environ_scan rest' left' (numzero + 1) (S ptr)
      end
  end.

(** [ps__get_environ]: the characters handed to [ps__utf16_to_strsxp], the
    first [ptr - data] of the buffer; [None] for [R_NilValue].  [end] is
    [data + size], [data] being a [WCHAR *] and [size] the byte count
    [ps__get_process_data] stored. *)
Definition ps__get_environ (fuel : nat) (pid : Z) (size0 : Z)
  : M (option (list Z)) :=
  r <- ps__get_process_data fuel pid KIND_ENVIRON null_buffer size0 ;;
  let '(code, data, size) := r in
  if negb (code =? 0) then ret None
  else
    let wdata := wchars_of_bytes (buf_bytes data) in
    match environ_scan wdata (Z.to_nat size) 0 O with
    | None => undefined
    | Some n => ret (Some (firstn n wdata))
    end.

(** ** The fallback scanner *)

Fixpoint record_at (snap : snapshot) (offset : Z)
  : option SYSTEM_PROCESS_INFORMATION :=
  match snap with
  | [] => None
  | (o, r) :: rest => if o =? offset then Some r else record_at rest offset
  end.

(** The query loop of [ps__get_proc_info]; [None] is [goto error] after a
    failed [malloc], with [buffer] NULL. *)
Fixpoint snapshot_query (fuel : nat) (buffer bufferSize : Z)
  : M (option (Z * Z * Z * snapshot)) :=
  match fuel with
  | O => fun _ => OutOfFuel
  | S fuel' =>
      r <- sys (NtQuerySystemInformation os bufferSize) ;;
      let '(status0, ReturnLength, snap) := r in
      let status := int_of status0 in
      let bufferSize1 := DWORD_of ReturnLength in
      if (status =? STATUS_BUFFER_TOO_SMALL)
         || (status =? STATUS_INFO_LENGTH_MISMATCH)
      then
        c_free buffer ;;;
        buffer1 <- c_malloc bufferSize1 ;;
        if buffer1 =? NULL then ps__no_memory ;;; ret None
        else snapshot_query fuel' buffer1 bufferSize1
      else ret (Some (buffer, status, bufferSize1, snap))
  end.

(** The records reached from offset [off] by following [NextEntryOffset]
    until it is 0, each with its offset. *)
Inductive chain (snap : snapshot)
  : Z -> list (Z * SYSTEM_PROCESS_INFORMATION) -> Prop :=
| chain_end off r :
    record_at snap off = Some r ->
    DWORD_of (NextEntryOffset r) = 0 ->
    chain snap off [(off, r)]
| chain_step off r rest :
    record_at snap off = Some r ->
    DWORD_of (NextEntryOffset r) <> 0 ->
    chain snap (off + DWORD_of (NextEntryOffset r)) rest ->
    chain snap off ((off, r) :: rest).

(** [(DWORD64)(process->UniqueProcessId) == (DWORD64) pid], and
    [process->UniqueProcessId == (HANDLE) pid] in a 32 bit build. *)
Definition same_pid (pid : Z) (r : SYSTEM_PROCESS_INFORMATION) : bool :=
  SIZE_T_of os (UniqueProcessId r) =? DWORD_of pid.

(** [PS__FIRST_PROCESS] / [PS__NEXT_PROCESS]: the [do ... while] walk over
    the chain, [process] being the byte offset of the current record. *)
Fixpoint find_process (fuel : nat) (snap : snapshot) (process pid : Z)
  : M (option (Z * SYSTEM_PROCESS_INFORMATION)) :=
  match fuel with
  | O => fun _ => OutOfFuel
  | S fuel' =>
      match record_at snap process with
      | None => undefined
      | Some r =>
          if same_pid pid r
          then ret (Some (process, r))
          else if DWORD_of (NextEntryOffset r) =? 0 then ret None
               else find_process fuel' snap
                      (process + DWORD_of (NextEntryOffset r)) pid
      end
  end.

(** What [*retBuffer] points to. *)
Record snapshot_buffer := { sb_addr : Z; sb_data : snapshot }.

(** The part of [ps__get_proc_info] after the label [error]. *)
Definition get_proc_info_error {A B} (hNtDll buffer : Z)
  (retProcess : A) (retBuffer : B) : M (Z * A * B) :=
  sys_ (FreeLibrary os hNtDll) ;;;
  (if negb (buffer =? NULL) then c_free buffer else ret tt) ;;;
  ret (0, retProcess, retBuffer).

(** The first part of [ps__get_proc_info], up to the end of the query loop:
    the library handle, and the buffer, status, size and contents the loop
    leaves, or [None] when an allocation failed ([buffer] is NULL then). *)
Definition snapshot_acquire (fuel : nat)
  : M (Z * option (Z * Z * Z * snapshot)) :=
  hNtDll <- sys (LoadLibrary os) ;;
  NtQuerySystemInformation_set <-
    sys (GetProcAddress os "NtQuerySystemInformation") ;;
  s0 <- (fun s => Done (st_statics s) s) ;;
  let bufferSize := initialBufferSize s0 in
  buffer <- c_malloc bufferSize ;;
  if buffer =? NULL then
    ps__no_memory ;;; ret (hNtDll, None)
  else if negb NtQuerySystemInformation_set then undefined
  else
    q <- snapshot_query fuel buffer bufferSize ;;
    ret (hNtDll, q).

(** On success return 1, else 0 with exception already set.  The result
    carries the new values of [*retProcess] (offset and record) and of
    [*retBuffer]. *)
Definition ps__get_proc_info (fuel : nat) (pid : Z)
  (retProcess : option (Z * SYSTEM_PROCESS_INFORMATION))
  (retBuffer : snapshot_buffer)
  : M (Z * option (Z * SYSTEM_PROCESS_INFORMATION) * snapshot_buffer) :=
  a <- snapshot_acquire fuel ;;
  let (hNtDll, q) := a in
  match q with
  | None => get_proc_info_error hNtDll NULL retProcess retBuffer
  | Some (buffer, status, bufferSize, snap) =>
      if negb (status =? 0) then
        ps__set_error "NtQuerySystemInformation() syscall failed" ;;;
        get_proc_info_error hNtDll buffer retProcess retBuffer
      else
        (if bufferSize <=? 0x20000 then
           fun s => Done tt (set_statics
                               (set_initialBufferSize bufferSize
                                  (st_statics s)) s)
         else ret tt) ;;;
        found <- find_process fuel snap 0 pid ;;
        match found with
        | Some process =>
            ret (1, Some process, {| sb_addr := buffer; sb_data := snap |})
        | None =>
            ps__no_such_process pid ;;;
            get_proc_info_error hNtDll buffer retProcess retBuffer
        end
  end.

End Model.

Arguments Done {os A} a s.
Arguments Undefined {os A}.
Arguments OutOfFuel {os A}.
Arguments st_world {os} s.
Arguments st_handles {os} s.
Arguments st_heap {os} s.
Arguments st_errors {os} s.
Arguments st_statics {os} s.
Arguments ret {os A} a s.
Arguments bind {os A B} m k s.
Arguments undefined {os A} s.
Arguments sys {os A} f s.
Arguments sys_ {os} f s.
Arguments raise {os} e s.

(** The value a run returned, if it returned. *)
Definition result_of {os A} (o : outcome os A) : option A :=
  match o with
  | Done a _ => Some a
  | _ => None
  end.

(** The handles, blocks and errors a run ended with. *)
Definition resources_of {os A} (o : outcome os A)
  : option (list Z * list (Z * Z) * list ps_error) :=
  match o with
  | Done _ s => Some (st_handles s, st_heap s, st_errors s)
  | _ => None
  end.

(** ** A simulated operating system

    A fixed machine to run the model on: one target process, a constant
    list of live identifiers, a bump allocator.  The world is the next
    address the allocator hands out. *)

Record sim := {
  sim_win64 : bool;
  sim_testing : bool;
  sim_pids : option (list Z);
  sim_handle : Z;                      (* what OpenProcess returns *)
  sim_last_error : Z;
  sim_exit_code : option Z;
  sim_we_wow64 : option bool;
  sim_they_wow64 : option bool;
  sim_ppeb32 : option Z;
  sim_peb_address : option Z;
  sim_peb : option Z;                  (* PEB.ProcessParameters *)
  sim_parameters : option RTL_USER_PROCESS_PARAMETERS;
  sim_memory : list (Z * list Z);      (* readable bytes of the target *)
  sim_region : option MEMORY_BASIC_INFORMATION;
  sim_ntdll : bool;                    (* GetProcAddress finds its symbols *)
  sim_malloc_limit : Z;                (* larger requests fail *)
  sim_snapshot_size : Z;
  sim_snapshot : snapshot
}.

Fixpoint bytes_at (mem : list (Z * list Z)) (src : Z) : option (list Z) :=
  match mem with
  | [] => None
  | (a, bs) :: rest => if a =? src then Some bs else bytes_at rest src
  end.

Definition sim_read_bytes (c : sim) (r : reader) (h src n : Z) (w : Z)
  : option (list Z) * Z :=
  match bytes_at (sim_memory c) src with
  | None => (None, w)
  | Some bs =>
      let got := firstn (Z.to_nat n) bs in
      if Z.of_nat (length got) =? n then (Some got, w) else (None, w)
  end.

Definition sim_read_bytes_length (c : sim) :
  forall r h src n w bs w',
    sim_read_bytes c r h src n w = (Some bs, w') -> Z.of_nat (length bs) = n.
Proof.
  intros r h src n w bs w'. unfold sim_read_bytes.
  destruct (bytes_at (sim_memory c) src) as [l|]; [|discriminate].
  destruct (Z.of_nat (length (firstn (Z.to_nat n) l)) =? n) eqn:E;
    [|discriminate].
  intros H. injection H as <- _. now apply Z.eqb_eq.
Qed.

Definition sim_os (c : sim) : OS :=
  {| World := Z;
     WIN64 := sim_win64 c;
     PS__TESTING := sim_testing c;
     OpenProcess := fun _ _ w => (sim_handle c, w);
     GetLastError := fun _ => sim_last_error c;
     GetExitCodeProcess := fun _ w => (sim_exit_code c, w);
     CloseHandle := fun _ w => w;
     live_pids := fun w => (sim_pids c, w);
     IsWow64Process := fun h w =>
       (match h with None => sim_we_wow64 c | Some _ => sim_they_wow64 c end,
        w);
     VirtualQueryEx := fun _ _ w => (sim_region c, w);
     LoadLibrary := fun w => (0x7FF0, w);
     FreeLibrary := fun _ w => w;
     GetProcAddress := fun _ w => (sim_ntdll c, w);
     QueryWow64Information := fun _ w => (sim_ppeb32 c, w);
     QueryBasicInformation := fun _ w => (sim_peb_address c, w);
     QueryBasicInformation64 := fun _ w => (sim_peb_address c, w);
     NtWow64QueryVirtualMemory64 := fun _ _ w => (sim_region c, w);
     NtQuerySystemInformation := fun size w =>
       if size <? sim_snapshot_size c
       then (0xC0000004, sim_snapshot_size c, [], w)
       else (0, sim_snapshot_size c, sim_snapshot c, w);
     read_PEB := fun _ _ _ w => (sim_peb c, w);
     read_parameters := fun _ _ _ w => (sim_parameters c, w);
     read_bytes := sim_read_bytes c;
     read_bytes_length := sim_read_bytes_length c;
     malloc := fun n w =>
       if n <=? sim_malloc_limit c then (w, w + n + 16) else (NULL, w);
     free := fun _ w => w |}.

Definition sim_state (c : sim) : state (sim_os c) :=
  {| st_world := 0x10000 : World (sim_os c);
     st_handles := [];
     st_heap := [];
     st_errors := [];
     st_statics := statics0 |}.

(** One target process, pid 1234, whose working directory is [C:\], whose
    command line is [ps] and whose environment block [A=1] lies 16 bytes
    into its region; the build, the flags, the identifiers, the exit code,
    the region and the allocator's limit vary. *)
Definition sim_machine (win64 : bool) (we they : option bool)
  (pids : option (list Z)) (exit_code : option Z)
  (region : option MEMORY_BASIC_INFORMATION) (malloc_limit : Z) : sim :=
  {| sim_win64 := win64;
     sim_testing := false;
     sim_pids := pids;
     sim_handle := 0x1F4;
     sim_last_error := 0;
     sim_exit_code := exit_code;
     sim_we_wow64 := we;
     sim_they_wow64 := they;
     sim_ppeb32 := Some NULL;
     sim_peb_address := Some 0x7000;
     sim_peb := Some 0x8000;
     sim_parameters :=
       Some {| CurrentDirectoryPath :=
                 {| Length := 6; MaxLength := 520; Buffer := 0x9000 |};
               CommandLine :=
                 {| Length := 4; MaxLength := 6; Buffer := 0x9400 |};
               env := 0xA010 |};
     sim_memory :=
       [(0x9000, [67; 0; 58; 0; 92; 0; 0; 0]);
        (0x9400, [112; 0; 115; 0; 0; 0]);
        (0xA010, [65; 0; 61; 0; 49; 0; 0; 0; 0; 0; 7; 7; 7; 7; 7; 7])];
     sim_region := region;
     sim_ntdll := true;
     sim_malloc_limit := malloc_limit;
     sim_snapshot_size := 0x5000;
     sim_snapshot :=
       [(0, {| NextEntryOffset := 0x100; UniqueProcessId := 0 |});
        (0x100, {| NextEntryOffset := 0x180; UniqueProcessId := 4 |});
        (0x280, {| NextEntryOffset := 0; UniqueProcessId := 1234 |})] |}.

(** A 64 bit build looking at a native process. *)
Definition sim_native : sim :=
  sim_machine true (Some false) (Some false) (Some [0; 4; 1234])
    (Some STILL_ACTIVE)
    (Some {| BaseAddress := 0xA000; RegionSize := 32 |}) 0x100000.

(** A 32 bit build under the compatibility layer looking at a 64 bit
    process whose environment lies in a region of 4 GiB and 32 bytes. *)
Definition sim_wow64 : sim :=
  sim_machine false (Some true) (Some false) (Some [0; 4; 1234])
    (Some STILL_ACTIVE)
    (Some {| BaseAddress := 0xA000; RegionSize := 2 ^ 32 + 32 |}) 0x100000.

(** The target has exited with code 0 and the allocator is exhausted, so
    that the membership test fails. *)
Definition sim_exited_no_memory : sim :=
  sim_machine true (Some false) (Some false) (Some [0; 4; 1234])
    (Some 0)
    (Some {| BaseAddress := 0xA000; RegionSize := 32 |}) (-1).

(** 2500 live identifiers. *)
Definition sim_crowded : sim :=
  sim_machine true (Some false) (Some false)
    (Some (map (fun i => 4 * Z.of_nat i) (seq 0 2500)))
    (Some STILL_ACTIVE)
    (Some {| BaseAddress := 0xA000; RegionSize := 32 |}) 0x100000.

(** The allocator has five bytes left. *)
Definition sim_small_heap : sim :=
  sim_machine true (Some false) (Some false) (Some [0; 4; 1234])
    (Some STILL_ACTIVE)
    (Some {| BaseAddress := 0xA000; RegionSize := 32 |}) 5.

(** The region is reported longer than what can be read of it. *)
Definition sim_long_region : sim :=
  sim_machine true (Some false) (Some false) (Some [0; 4; 1234])
    (Some STILL_ACTIVE)
    (Some {| BaseAddress := 0xA000; RegionSize := 64 |}) 0x100000.

(** A machine like [c] with another build switch, list of identifiers,
    answer of OpenProcess, last error, target memory, region and ntdll. *)
Definition sim_variant (c : sim) (testing : bool) (pids : option (list Z))
  (handle last_error : Z) (memory : list (Z * list Z))
  (region : option MEMORY_BASIC_INFORMATION) (ntdll : bool) : sim :=
  {| sim_win64 := sim_win64 c;
     sim_testing := testing;
     sim_pids := pids;
     sim_handle := handle;
     sim_last_error := last_error;
     sim_exit_code := sim_exit_code c;
     sim_we_wow64 := sim_we_wow64 c;
     sim_they_wow64 := sim_they_wow64 c;
     sim_ppeb32 := sim_ppeb32 c;
     sim_peb_address := sim_peb_address c;
     sim_peb := sim_peb c;
     sim_parameters := sim_parameters c;
     sim_memory := memory;
     sim_region := region;
     sim_ntdll := ntdll;
     sim_malloc_limit := sim_malloc_limit c;
     sim_snapshot_size := sim_snapshot_size c;
     sim_snapshot := sim_snapshot c |}.

(** OpenProcess fails with ERROR_INVALID_PARAMETER: the process is gone. *)
Definition sim_gone : sim :=
  sim_variant sim_native false (Some [0; 4]) NULL ERROR_INVALID_PARAMETER
    (sim_memory sim_native) (sim_region sim_native) true.

(** A testing build in which the target answers STILL_ACTIVE although the
    enumeration does not list it. *)
Definition sim_inconsistent : sim :=
  sim_variant sim_native true (Some [0; 4]) 0x1F4 0
    (sim_memory sim_native) (sim_region sim_native) true.

(** GetProcAddress finds nothing in ntdll.dll. *)
Definition sim_no_ntdll : sim :=
  sim_variant sim_native false (Some [0; 4; 1234]) 0x1F4 0
    (sim_memory sim_native) (sim_region sim_native) false.

(** The readable part of the environment's region, eight bytes, holds
    [A=1B] and no terminator. *)
Definition sim_unterminated : sim :=
  sim_variant sim_native false (Some [0; 4; 1234]) 0x1F4 0
    [(0x9000, [67; 0; 58; 0; 92; 0; 0; 0]);
     (0x9400, [112; 0; 115; 0; 0; 0]);
     (0xA010, [65; 0; 61; 0; 49; 0; 66; 0])]
    (Some {| BaseAddress := 0xA000; RegionSize := 24 |}) true.

(** The working directory of the target is the empty string. *)
Definition sim_empty_cwd : sim :=
  {| sim_win64 := true;
     sim_testing := false;
     sim_pids := Some [0; 4; 1234];
     sim_handle := 0x1F4;
     sim_last_error := 0;
     sim_exit_code := Some STILL_ACTIVE;
     sim_we_wow64 := Some false;
     sim_they_wow64 := Some false;
     sim_ppeb32 := Some NULL;
     sim_peb_address := Some 0x7000;
     sim_peb := Some 0x8000;
     sim_parameters :=
       Some {| CurrentDirectoryPath :=
                 {| Length := 0; MaxLength := 520; Buffer := 0x9000 |};
               CommandLine :=
                 {| Length := 4; MaxLength := 6; Buffer := 0x9400 |};
               env := 0xA010 |};
     sim_memory := sim_memory sim_native;
     sim_region := sim_region sim_native;
     sim_ntdll := true;
     sim_malloc_limit := 0x100000;
     sim_snapshot_size := 0x5000;
     sim_snapshot := sim_snapshot sim_native |}.

(** A machine like [c] on which the walk to the process parameters gets
    other answers. *)
Definition sim_walk (c : sim) (they : option bool)
  (ppeb32 peb_address peb : option Z)
  (parameters : option RTL_USER_PROCESS_PARAMETERS) : sim :=
  {| sim_win64 := sim_win64 c;
     sim_testing := sim_testing c;
     sim_pids := sim_pids c;
     sim_handle := sim_handle c;
     sim_last_error := sim_last_error c;
     sim_exit_code := sim_exit_code c;
     sim_we_wow64 := sim_we_wow64 c;
     sim_they_wow64 := they;
     sim_ppeb32 := ppeb32;
     sim_peb_address := peb_address;
     sim_peb := peb;
     sim_parameters := parameters;
     sim_memory := sim_memory c;
     sim_region := sim_region c;
     sim_ntdll := sim_ntdll c;
     sim_malloc_limit := sim_malloc_limit c;
     sim_snapshot_size := sim_snapshot_size c;
     sim_snapshot := sim_snapshot c |}.

(** The query for ProcessWow64Information is refused. *)
Definition sim_no_bitness : sim :=
  sim_walk sim_native (Some false) None (Some 0x7000) (Some 0x8000)
    (sim_parameters sim_native).

(** The query for ProcessBasicInformation is refused. *)
Definition sim_no_basic_information : sim :=
  sim_walk sim_native (Some false) (Some NULL) None (Some 0x8000)
    (sim_parameters sim_native).

(** The PEB of the target cannot be read. *)
Definition sim_unreadable_peb : sim :=
  sim_walk sim_native (Some false) (Some NULL) (Some 0x7000) None
    (sim_parameters sim_native).

(** The process parameters of the target cannot be read. *)
Definition sim_unreadable_parameters : sim :=
  sim_walk sim_native (Some false) (Some NULL) (Some 0x7000) (Some 0x8000)
    None.

(** The region of the environment block cannot be queried. *)
Definition sim_no_region : sim :=
  sim_machine true (Some false) (Some false) (Some [0; 4; 1234])
    (Some STILL_ACTIVE) None 0x100000.

(** A 32 bit build that is not told whether the target runs under the
    compatibility layer. *)
Definition sim_no_bitness32 : sim :=
  sim_walk sim_wow64 None (Some NULL) (Some 0x7000) (Some 0x8000)
    (sim_parameters sim_wow64).

(** A 32 bit build under the compatibility layer whose ntdll.dll has none
    of the Wow64 functions. *)
Definition sim_wow64_no_ntdll : sim :=
  sim_variant sim_wow64 false (Some [0; 4; 1234]) 0x1F4 0
    (sim_memory sim_wow64) (sim_region sim_wow64) false.

(** A 32 bit build under the compatibility layer looking at a 64 bit
    process whose PEB cannot be read. *)
Definition sim_wow64_unreadable_peb : sim :=
  sim_walk sim_wow64 (Some false) (Some NULL) (Some 0x7000) None
    (sim_parameters sim_wow64).

(** ** The steps of [ps__get_process_data], by the answers of the system

    What a call has done before one of its steps, told by the answers the
    system gave; [s] is the state the process handle was opened in. *)

Section Steps.

Context (os : OS).

(** The function the remote reads of a mode go through. *)
Definition reader_of (m : BitnessMode) : reader :=
  match m with
  | TargetWiderThanCaller => NtWow64ReadVirtualMemory64
  | _ => ReadProcessMemory
  end.

(** The local variables after the [switch (kind)] block of mode [m]. *)
Definition locals_of (m : BitnessMode) (src size : Z) : locals :=
  match m with
  | TargetWiderThanCaller =>
      {| l_mode := m; l_src := NULL; l_src64 := src; l_size := size |}
  | _ => {| l_mode := m; l_src := src; l_src64 := NULL; l_size := size |}
  end.

(** Lines 487-504 and 541-547: the bitness queries were answered and the
    branch of mode [m] is taken. *)
Inductive bitness_known (hProcess : Z) (s : state os)
  : BitnessMode -> Z -> state os -> Prop :=
| known_win64 s2 ppeb32 w :
    WIN64 os = true ->
    resolve os NtQueryInformationProcess_set set_NtQueryInformationProcess
      "NtQueryInformationProcess" s = Done true s2 ->
    QueryWow64Information os hProcess (st_world s2) = (Some ppeb32, w) ->
    bitness_known hProcess s (bitness_mode true ppeb32 false false) ppeb32
      (set_world os w s2)
| known_win32 ok s2 weAreWow64 w theyAreWow64 w' :
    WIN64 os = false ->
    resolve os NtQueryInformationProcess_set set_NtQueryInformationProcess
      "NtQueryInformationProcess" s = Done ok s2 ->
    IsWow64Process os None (st_world s2) = (Some weAreWow64, w) ->
    IsWow64Process os (Some hProcess) w = (Some theyAreWow64, w') ->
    bitness_known hProcess s
      (bitness_mode false NULL weAreWow64 theyAreWow64) NULL
      (set_world os w' s2).

(** The address of the PEB to read is known: [ppeb32] for a narrower
    target (line 504), the answer of the basic-information query otherwise
    (lines 629-636, and 553-586 for a wider target). *)
Inductive reaches_peb (hProcess : Z) (s : state os)
  : BitnessMode -> Z -> state os -> Prop :=
| peb_narrower ppeb32 sB :
    bitness_known hProcess s TargetNarrowerThanCaller ppeb32 sB ->
    reaches_peb hProcess s TargetNarrowerThanCaller ppeb32 sB
| peb_native ppeb32 sB PebBaseAddress w :
    bitness_known hProcess s Native ppeb32 sB ->
    NtQueryInformationProcess_set (st_statics sB) = true ->
    QueryBasicInformation os hProcess (st_world sB)
    = (Some PebBaseAddress, w) ->
    reaches_peb hProcess s Native (address_of os LayoutNative PebBaseAddress)
      (set_world os w sB)
| peb_wider ppeb32 sB s3 PebBaseAddress w s5 :
    bitness_known hProcess s TargetWiderThanCaller ppeb32 sB ->
    resolve os NtWow64QueryInformationProcess64_set
      set_NtWow64QueryInformationProcess64
      "NtWow64QueryInformationProcess64" sB = Done true s3 ->
    QueryBasicInformation64 os hProcess (st_world s3)
    = (Some PebBaseAddress, w) ->
    resolve os NtWow64ReadVirtualMemory64_set set_NtWow64ReadVirtualMemory64
      "NtWow64ReadVirtualMemory64" (set_world os w s3) = Done true s5 ->
    reaches_peb hProcess s TargetWiderThanCaller
      (address_of os Layout64 PebBaseAddress) s5.

(** The PEB and the process parameters were read: the field of [kind]
    starts at [src] and, for the command line and the working directory,
    is [size] bytes long. *)
Inductive reaches_field (hProcess : Z) (kind : ps__process_data_kind)
  (s : state os) : BitnessMode -> Z -> Z -> state os -> Prop :=
| field_located m ppeb sR ProcessParameters w procParameters w' :
    reaches_peb hProcess s m ppeb sR ->
    read_PEB os (layout_of m) hProcess ppeb (st_world sR)
    = (Some ProcessParameters, w) ->
    read_parameters os (layout_of m) hProcess
      (address_of os (layout_of m) ProcessParameters) w
    = (Some procParameters, w') ->
    reaches_field hProcess kind s m
      (fst (select_field os (layout_of m) kind procParameters))
      (snd (select_field os (layout_of m) kind procParameters))
      (set_world os w' sR).

(** Lines 673-687 are done: the number of bytes to copy is [size]. *)
Inductive length_resolved (hProcess : Z) (kind : ps__process_data_kind)
  (s : state os) : BitnessMode -> Z -> Z -> state os -> Prop :=
| length_known m src size sF :
    kind <> KIND_ENVIRON ->
    reaches_field hProcess kind s m src size sF ->
    length_resolved hProcess kind s m src size sF
| length_probed m src size0 sF size sP :
    kind = KIND_ENVIRON ->
    m <> TargetWiderThanCaller ->
    reaches_field hProcess kind s m src size0 sF ->
    ps__get_process_region_size os hProcess src sF = Done (Some size) sP ->
    length_resolved hProcess kind s m src size sP
| length_probed64 src size0 sF size64 sP :
    kind = KIND_ENVIRON ->
    reaches_field hProcess kind s TargetWiderThanCaller src size0 sF ->
    ps__get_process_region_size64 os hProcess src sF
    = Done (Some size64) sP ->
    length_resolved hProcess kind s TargetWiderThanCaller src
      (SIZE_T_of os size64) sP.

(** What can go wrong after the handle was opened. *)
Inductive failure :=
| BitnessQueryFails        (* ProcessWow64Information, IsWow64Process *)
| EntryPointMissing (name : string)
| BasicInformationFails    (* ProcessBasicInformation *)
| PebReadFails
| ParametersReadFails
| RegionQueryFails         (* VirtualQueryEx, NtWow64QueryVirtualMemory64 *)
| AllocationFails          (* calloc *)
| CopyFails.               (* the final read *)

(** [step_fails hProcess kind s f]: in the call that opened [hProcess] in
    state [s], every step before the one [f] names got its answer, and
    that step did not. *)
Inductive step_fails (hProcess : Z) (kind : ps__process_data_kind)
  (s : state os) : failure -> Prop :=
| fails_bitness64 s2 w :                                (* lines 495-502 *)
    WIN64 os = true ->
    resolve os NtQueryInformationProcess_set set_NtQueryInformationProcess
      "NtQueryInformationProcess" s = Done true s2 ->
    QueryWow64Information os hProcess (st_world s2) = (None, w) ->
    step_fails hProcess kind s BitnessQueryFails
| fails_bitness_self ok s2 w :                          (* line 541 *)
    WIN64 os = false ->
    resolve os NtQueryInformationProcess_set set_NtQueryInformationProcess
      "NtQueryInformationProcess" s = Done ok s2 ->
    IsWow64Process os None (st_world s2) = (None, w) ->
    step_fails hProcess kind s BitnessQueryFails
| fails_bitness_target ok s2 weAreWow64 w w' :          (* line 542 *)
    WIN64 os = false ->
    resolve os NtQueryInformationProcess_set set_NtQueryInformationProcess
      "NtQueryInformationProcess" s = Done ok s2 ->
    IsWow64Process os None (st_world s2) = (Some weAreWow64, w) ->
    IsWow64Process os (Some hProcess) w = (None, w') ->
    step_fails hProcess kind s BitnessQueryFails
| fails_basic ppeb32 sB w :                             (* lines 629-636 *)
    bitness_known hProcess s Native ppeb32 sB ->
    NtQueryInformationProcess_set (st_statics sB) = true ->
    QueryBasicInformation os hProcess (st_world sB) = (None, w) ->
    step_fails hProcess kind s BasicInformationFails
| fails_query64_missing ppeb32 sB s3 :                  (* lines 553-563 *)
    bitness_known hProcess s TargetWiderThanCaller ppeb32 sB ->
    resolve os NtWow64QueryInformationProcess64_set
      set_NtWow64QueryInformationProcess64
      "NtWow64QueryInformationProcess64" sB = Done false s3 ->
    step_fails hProcess kind s
      (EntryPointMissing "NtWow64QueryInformationProcess64")
| fails_basic64 ppeb32 sB s3 w :                        (* lines 565-573 *)
    bitness_known hProcess s TargetWiderThanCaller ppeb32 sB ->
    resolve os NtWow64QueryInformationProcess64_set
      set_NtWow64QueryInformationProcess64
      "NtWow64QueryInformationProcess64" sB = Done true s3 ->
    QueryBasicInformation64 os hProcess (st_world s3) = (None, w) ->
    step_fails hProcess kind s BasicInformationFails
| fails_read64_missing ppeb32 sB s3 PebBaseAddress w s5 : (* lines 576-586 *)
    bitness_known hProcess s TargetWiderThanCaller ppeb32 sB ->
    resolve os NtWow64QueryInformationProcess64_set
      set_NtWow64QueryInformationProcess64
      "NtWow64QueryInformationProcess64" sB = Done true s3 ->
    QueryBasicInformation64 os hProcess (st_world s3)
    = (Some PebBaseAddress, w) ->
    resolve os NtWow64ReadVirtualMemory64_set set_NtWow64ReadVirtualMemory64
      "NtWow64ReadVirtualMemory64" (set_world os w s3) = Done false s5 ->
    step_fails hProcess kind s
      (EntryPointMissing "NtWow64ReadVirtualMemory64")
| fails_peb m ppeb sR w :                    (* lines 510, 588 and 639 *)
    reaches_peb hProcess s m ppeb sR ->
    read_PEB os (layout_of m) hProcess ppeb (st_world sR) = (None, w) ->
    step_fails hProcess kind s PebReadFails
| fails_parameters m ppeb sR ProcessParameters w w' : (* 516, 598 and 649 *)
    reaches_peb hProcess s m ppeb sR ->
    read_PEB os (layout_of m) hProcess ppeb (st_world sR)
    = (Some ProcessParameters, w) ->
    read_parameters os (layout_of m) hProcess
      (address_of os (layout_of m) ProcessParameters) w = (None, w') ->
    step_fails hProcess kind s ParametersReadFails
| fails_region m src size0 sF w :                 (* lines 685 and 376 *)
    kind = KIND_ENVIRON ->
    m <> TargetWiderThanCaller ->
    reaches_field hProcess kind s m src size0 sF ->
    VirtualQueryEx os hProcess src (st_world sF) = (None, w) ->
    step_fails hProcess kind s RegionQueryFails
| fails_region64_missing src size0 sF s' :        (* lines 678 and 393-403 *)
    kind = KIND_ENVIRON ->
    reaches_field hProcess kind s TargetWiderThanCaller src size0 sF ->
    resolve os NtWow64QueryVirtualMemory64_set set_NtWow64QueryVirtualMemory64
      "NtWow64QueryVirtualMemory64" sF = Done false s' ->
    step_fails hProcess kind s
      (EntryPointMissing "NtWow64QueryVirtualMemory64")
| fails_region64 src size0 sF s' w :              (* lines 678 and 405-415 *)
    kind = KIND_ENVIRON ->
    reaches_field hProcess kind s TargetWiderThanCaller src size0 sF ->
    resolve os NtWow64QueryVirtualMemory64_set set_NtWow64QueryVirtualMemory64
      "NtWow64QueryVirtualMemory64" sF = Done true s' ->
    NtWow64QueryVirtualMemory64 os hProcess src (st_world s') = (None, w) ->
    step_fails hProcess kind s RegionQueryFails
| fails_alloc m src size sC w :                         (* lines 689-694 *)
    length_resolved hProcess kind s m src size sC ->
    malloc os (SIZE_T_of os (size + 2)) (st_world sC) = (NULL, w) ->
    step_fails hProcess kind s AllocationFails
| fails_copy m src size sC buffer w w' :                (* lines 696-711 *)
    length_resolved hProcess kind s m src size sC ->
    malloc os (SIZE_T_of os (size + 2)) (st_world sC) = (buffer, w) ->
    buffer <> NULL ->
    read_bytes os (reader_of m) hProcess src size w = (None, w') ->
    step_fails hProcess kind s CopyFails.

(** What a finished walk has met: a step that failed, or the field. *)
Definition walk_met (hProcess : Z) (kind : ps__process_data_kind)
  (s : state os) (r : step * Z + locals) (sJ : state os) : Prop :=
  (exists e f, r = inl e /\ step_fails hProcess kind s f)
  \/ exists m src size,
       r = inr (locals_of m src size)
       /\ reaches_field hProcess kind s m src size sJ.

(** The error each failure is reported with. *)
Definition error_of (f : failure) : ps_error :=
  match f with
  | EntryPointMissing name => PsError (String.append name " missing")
  | AllocationFails => NoMemory
  | _ => WindowsError
  end.

End Steps.

(** * Properties *)

(** ** Reasoning about runs *)

Section Runs.

Context {os : OS}.
Implicit Types s : state os.

Lemma bind_Done {A B} (m : M os A) (k : A -> M os B) s b s2 :
  bind m k s = Done b s2 ->
  exists a s1, m s = Done a s1 /\ k a s1 = Done b s2.
Proof. unfold bind. destruct (m s); try discriminate. eauto. Qed.

Lemma bind_eq {A B} (m : M os A) (k : A -> M os B) s a s1 :
  m s = Done a s1 -> bind m k s = k a s1.
Proof. unfold bind. now intros ->. Qed.

Lemma ret_Done {A} (a b : A) s s' : ret a s = Done b s' -> b = a /\ s' = s.
Proof. unfold ret. intros H; injection H; auto. Qed.

Lemma sys_Done {A} (f : World os -> A * World os) s a s' :
  sys f s = Done a s' ->
  exists w, f (st_world s) = (a, w) /\ s' = set_world os w s.
Proof.
  unfold sys. destruct (f (st_world s)). intros H; injection H as <- <-. eauto.
Qed.

Lemma sys_eq {A} (f : World os -> A * World os) s a w :
  f (st_world s) = (a, w) -> sys f s = Done a (set_world os w s).
Proof. unfold sys. now intros ->. Qed.

Lemma sys__Done (f : World os -> World os) s a s' :
  sys_ f s = Done a s' -> s' = set_world os (f (st_world s)) s.
Proof. unfold sys_. intros H; injection H; auto. Qed.

Lemma raise_Done e s a s' :
  raise e s = Done a s' -> s' = set_errors os (e :: st_errors s) s.
Proof. unfold raise. intros H; injection H; auto. Qed.

End Runs.

Ltac subst_eq E :=
  match type of E with
  | ?x = ?y => first [subst x | subst y | idtac]
  end.

(** Take a finished run apart along its binds and branches. *)
Ltac minv H :=
  lazymatch type of H with
  | bind _ _ _ = Done _ _ =>
      let a := fresh "a" in
      let s1 := fresh "s" in
      let H1 := fresh "H" in
      apply bind_Done in H; destruct H as (a & s1 & H1 & H); minv H1; minv H
  | ret _ _ = Done _ _ =>
      let E1 := fresh "E" in
      let E2 := fresh "E" in
      apply ret_Done in H; destruct H as [E1 E2]; subst_eq E2; subst_eq E1
  | sys _ _ = Done _ _ =>
      let w := fresh "w" in
      let E := fresh "E" in
      let E2 := fresh "E" in
      apply sys_Done in H; destruct H as (w & E & E2); subst_eq E2
  | sys_ _ _ = Done _ _ => apply sys__Done in H; subst_eq H
  | raise _ _ = Done _ _ => apply raise_Done in H; subst_eq H
  | ps__no_memory _ _ = Done _ _ => unfold ps__no_memory in H; minv H
  | ps__access_denied _ _ = Done _ _ => unfold ps__access_denied in H; minv H
  | ps__no_such_process _ _ _ = Done _ _ =>
      unfold ps__no_such_process in H; minv H
  | ps__set_error _ _ _ = Done _ _ => unfold ps__set_error in H; minv H
  | ps__set_error_from_windows_error _ _ = Done _ _ =>
      unfold ps__set_error_from_windows_error in H; minv H
  | goto_error _ _ _ _ = Done _ _ => unfold goto_error in H; minv H
  | bindE _ _ _ _ = Done _ _ => unfold bindE in H; minv H
  | call_through _ _ _ _ = Done _ _ => unfold call_through in H; minv H
  | resolve _ _ _ _ _ = Done _ _ => unfold resolve in H; minv H
  | undefined _ = Done _ _ => discriminate H
  | Undefined = Done _ _ => discriminate H
  | OutOfFuel = Done _ _ => discriminate H
  | Done _ _ = Done _ _ =>
      let E1 := fresh "E" in
      let E2 := fresh "E" in
      injection H as E1 E2; subst_eq E2; subst_eq E1
  | (if ?c then _ else _) _ = Done _ _ => destruct c eqn:?; minv H
  | (match ?x with _ => _ end) _ = Done _ _ => destruct x eqn:?; minv H
  | (if ?c then _ else _) = Done _ _ => destruct c eqn:?; minv H
  | (match ?x with _ => _ end) = Done _ _ => destruct x eqn:?; minv H
  | _ => idtac
  end.

(** ** C1: the bitness table *)

(** The mode recorded by the walk is the one selected by the flags the
    system reported in this very call. *)
Lemma locate_field_mode {os : OS} hProcess kind (s : state os) l s' :
  locate_field os hProcess kind s = Done (inr l) s' ->
  if WIN64 os then
    exists ppeb32 w w',
      QueryWow64Information os hProcess w = (Some ppeb32, w')
      /\ l_mode l = bitness_mode true ppeb32 false false
  else
    exists weAreWow64 theyAreWow64 w1 w1' w2 w2',
      IsWow64Process os None w1 = (Some weAreWow64, w1')
      /\ IsWow64Process os (Some hProcess) w2 = (Some theyAreWow64, w2')
      /\ l_mode l = bitness_mode false NULL weAreWow64 theyAreWow64.
Proof.
  unfold locate_field, locate_native, locate_wider, read_blocks.
  intros H. apply bind_Done in H. destruct H as (ok & s1 & _ & H).
  destruct (WIN64 os).
  - apply bind_Done in H. destruct H as (r & s2 & Hq & H).
    destruct r as [ppeb32|]; [|minv H; discriminate].
    minv Hq. exists ppeb32. do 2 eexists. split; [eassumption|].
    destruct (bitness_mode true ppeb32 false false) eqn:Em;
      minv H; try discriminate;
      match goal with
      | E : inr _ = inr _ |- _ =>
          injection E as ->;
          first [ reflexivity
                | exfalso; unfold bitness_mode in Em;
                  destruct (negb (ppeb32 =? NULL)); discriminate ]
      end.
  - apply bind_Done in H. destruct H as (r & s2 & Hwe & H).
    destruct r as [we|]; [|minv H; discriminate].
    apply bind_Done in H. destruct H as (r & s3 & Hthey & H).
    destruct r as [they|]; [|minv H; discriminate].
    minv Hwe. minv Hthey. exists we, they. do 4 eexists.
    split; [eassumption|]. split; [eassumption|].
    destruct (bitness_mode false NULL we they) eqn:Em;
      minv H; try discriminate;
      match goal with
      | E : inr _ = inr _ |- _ =>
          injection E as ->;
          first [ reflexivity
                | exfalso; unfold bitness_mode in Em;
                  destruct (we && negb they); discriminate ]
      end.
Qed.

(** C1. The mode [ps__get_process_data] branches on is given by the caller
    width and the two compatibility-layer flags alone and agrees with the
    table of section 4.3 in all combinations: a wide caller gets
    TargetNarrowerThanCaller exactly when [ppeb32] is not NULL and Native
    otherwise; a narrow caller gets TargetWiderThanCaller exactly when
    [weAreWow64 && !theyAreWow64] and Native otherwise.  The mode a call
    works with is this function of the flags the system reported to it. *)
Theorem bitness_mode_matches_table :
  forall (win64 : bool) (ppeb32 : Z) (weAreWow64 theyAreWow64 : bool),
    bitness_mode win64 ppeb32 weAreWow64 theyAreWow64
    = table_4_3 win64 weAreWow64
        (if win64 then negb (ppeb32 =? NULL) else theyAreWow64)
    /\ (bitness_mode true ppeb32 weAreWow64 theyAreWow64
        = TargetNarrowerThanCaller <-> ppeb32 <> NULL)
    /\ (bitness_mode true ppeb32 weAreWow64 theyAreWow64 = Native
        <-> ppeb32 = NULL)
    /\ (bitness_mode false ppeb32 weAreWow64 theyAreWow64
        = TargetWiderThanCaller
        <-> weAreWow64 = true /\ theyAreWow64 = false)
    /\ (bitness_mode false ppeb32 weAreWow64 theyAreWow64 = Native
        <-> ~ (weAreWow64 = true /\ theyAreWow64 = false))
    /\ forall (os : OS) hProcess kind (s : state os) l s',
        locate_field os hProcess kind s = Done (inr l) s' ->
        if WIN64 os then
          exists ppeb32 w w',
            QueryWow64Information os hProcess w = (Some ppeb32, w')
            /\ l_mode l = bitness_mode true ppeb32 false false
        else
          exists weAreWow64 theyAreWow64 w1 w1' w2 w2',
            IsWow64Process os None w1 = (Some weAreWow64, w1')
            /\ IsWow64Process os (Some hProcess) w2
               = (Some theyAreWow64, w2')
            /\ l_mode l = bitness_mode false NULL weAreWow64 theyAreWow64.
Proof.
  intros win64 ppeb32 we they.
  split; [|split; [|split; [|split; [|split]]]].
  - unfold bitness_mode, table_4_3.
    destruct win64; [destruct (ppeb32 =? NULL)|destruct we, they];
      reflexivity.
  - unfold bitness_mode. destruct (Z.eqb_spec ppeb32 NULL) as [E|E]; cbn;
      split; intros H; try discriminate; try reflexivity; congruence.
  - unfold bitness_mode. destruct (Z.eqb_spec ppeb32 NULL) as [E|E]; cbn;
      split; intros H; try discriminate; try reflexivity; congruence.
  - unfold bitness_mode. destruct we, they; cbn; split; intros H;
      try discriminate; try (now split); now destruct H.
  - unfold bitness_mode. destruct we, they; cbn; split; intros H;
      try discriminate; try reflexivity;
      try (intros [F1 F2]; discriminate);
      exfalso; apply H; now split.
  - intros os hProcess kind s l s'. apply locate_field_mode.
Qed.

Lemma bitness_mode_matches_table_witness :
  (exists ppeb32 w w',
      QueryWow64Information (sim_os sim_native) 0x1F4 w = (Some ppeb32, w')
      /\ Native = bitness_mode true ppeb32 false false)
  /\ (exists weAreWow64 theyAreWow64 w1 w1' w2 w2',
         IsWow64Process (sim_os sim_wow64) None w1 = (Some weAreWow64, w1')
         /\ IsWow64Process (sim_os sim_wow64) (Some 0x1F4) w2
            = (Some theyAreWow64, w2')
         /\ TargetWiderThanCaller
            = bitness_mode false NULL weAreWow64 theyAreWow64).
Proof.
  split.
  - refine (proj2 (proj2 (proj2 (proj2 (proj2
              (bitness_mode_matches_table true NULL false false)))))
              (sim_os sim_native) 0x1F4 KIND_CWD (sim_state sim_native)
              {| l_mode := Native; l_src := 0x9000; l_src64 := NULL;
                 l_size := 6 |}
              (set_statics (sim_os sim_native)
                 (set_NtQueryInformationProcess true statics0)
                 (sim_state sim_native))
              _).
    reflexivity.
  - refine (proj2 (proj2 (proj2 (proj2 (proj2
              (bitness_mode_matches_table false NULL true false)))))
              (sim_os sim_wow64) 0x1F4 KIND_ENVIRON (sim_state sim_wow64)
              {| l_mode := TargetWiderThanCaller; l_src := NULL;
                 l_src64 := 0xA010; l_size := 0 |}
              (set_statics (sim_os sim_wow64)
                 (set_NtWow64ReadVirtualMemory64 true
                    (set_NtWow64QueryInformationProcess64 true
                       (set_NtQueryInformationProcess true statics0)))
                 (sim_state sim_wow64))
              _).
    reflexivity.
Defined.

(** ** Machine integers *)

Section Words.

Context {os : OS}.

Lemma ptr_bits_cases : ptr_bits os = 32 \/ ptr_bits os = 64.
Proof. unfold ptr_bits. destruct (WIN64 os); auto. Qed.

Lemma SIZE_T_of_range x : 0 <= SIZE_T_of os x < 2 ^ ptr_bits os.
Proof.
  unfold SIZE_T_of. apply Z.mod_pos_bound.
  destruct ptr_bits_cases as [-> | ->]; reflexivity.
Qed.

Lemma SIZE_T_of_small x : 0 <= x < 2 ^ 32 -> SIZE_T_of os x = x.
Proof.
  intros Hx. unfold SIZE_T_of. apply Z.mod_small.
  destruct ptr_bits_cases as [-> | ->]; lia.
Qed.

End Words.

(** ** Handles and heap blocks across the PID utilities *)

Section Resources.

Context {os : OS}.
Implicit Types s : state os.

Lemma c_malloc_Done n s p s' :
  c_malloc os n s = Done p s' ->
  st_handles s' = st_handles s /\
  (p = NULL /\ st_heap s' = st_heap s
   \/ p <> NULL /\ st_heap s' = (p, n) :: st_heap s).
Proof.
  unfold c_malloc. intros H. minv H; (split; [reflexivity|]).
  - left. split; [now apply Z.eqb_eq|reflexivity].
  - right. split; [now apply Z.eqb_neq|reflexivity].
Qed.

Lemma c_free_Done p s a s' :
  c_free os p s = Done a s' ->
  st_handles s' = st_handles s /\
  st_heap s' = if p =? NULL then st_heap s else remove_block p (st_heap s).
Proof.
  unfold c_free. intros H. destruct (p =? NULL); minv H; auto.
Qed.

Lemma close_handle_Done h s a s' :
  close_handle os h s = Done a s' ->
  st_handles s' = remove_first h (st_handles s) /\ st_heap s' = st_heap s.
Proof. unfold close_handle. intros H. minv H. auto. Qed.

Lemma close_handle_eq h s :
  close_handle os h s
  = Done tt (set_handles os (remove_first h (st_handles s))
               (set_world os (CloseHandle os h (st_world s)) s)).
Proof. reflexivity. Qed.

Lemma remove_block_head p n l : remove_block p ((p, n) :: l) = l.
Proof. simpl. now rewrite Z.eqb_refl. Qed.

Lemma remove_first_head h l : remove_first h (h :: l) = l.
Proof. simpl. now rewrite Z.eqb_refl. Qed.

(** The loop of [ps__get_pids] owns at most one block at a time: the one
    it entered with is released, the one it leaves with is new. *)
Lemma get_pids_loop_resources fuel :
  forall p sz s r s' base,
    ps__get_pids_loop os fuel p sz s = Done r s' ->
    (p = NULL /\ st_heap s = base
     \/ exists n, p <> NULL /\ st_heap s = (p, n) :: base) ->
    st_handles s' = st_handles s /\
    match r with
    | None => st_heap s' = base
    | Some l =>
        procArray l <> NULL /\
        exists n, st_heap s' = (procArray l, n) :: base
    end.
Proof.
  induction fuel as [|fuel IH]; intros p sz s r s' base H Hp; [discriminate|].
  cbn [ps__get_pids_loop] in H.
  apply bind_Done in H. destruct H as (u & s1 & Hfree & H).
  apply c_free_Done in Hfree. destruct Hfree as [Hh1 Hp1].
  assert (Hbase : st_heap s1 = base).
  { rewrite Hp1. destruct Hp as [[-> Hb]|(n & Hn & Hb)].
    - exact Hb.
    - apply Z.eqb_neq in Hn. rewrite Hn, Hb. apply remove_block_head. }
  clear Hp Hp1.
  apply bind_Done in H. destruct H as (p1 & s2 & Hm & H).
  apply c_malloc_Done in Hm. destruct Hm as [Hh2 Hm].
  destruct (p1 =? NULL) eqn:Ep1.
  - apply Z.eqb_eq in Ep1. destruct Hm as [[_ Hm]|[Hm _]]; [|contradiction].
    minv H. cbn. split; congruence.
  - apply Z.eqb_neq in Ep1. destruct Hm as [[Hm _]|[_ Hm]]; [contradiction|].
    apply bind_Done in H. destruct H as (r1 & s3 & He & H).
    assert (Hs3 : st_handles s3 = st_handles s2 /\ st_heap s3 = st_heap s2).
    { unfold EnumProcesses in He. minv He; auto. }
    destruct Hs3 as [Hh3 Hp3].
    destruct r1 as [[entries ret1]|].
    + match type of H with
      | (if ?c then _ else _) _ = _ => destruct c
      end.
      * apply (IH _ _ _ _ _ base) in H.
        -- destruct H as [Hh4 H]. split; [congruence|exact H].
        -- right. eexists. split; [exact Ep1|]. rewrite Hp3, Hm, Hbase.
           reflexivity.
      * minv H. cbn. split; [congruence|]. split; [exact Ep1|].
        eexists. rewrite Hp3, Hm, Hbase. reflexivity.
    + apply bind_Done in H. destruct H as (u2 & s4 & Hfree & H).
      apply c_free_Done in Hfree. destruct Hfree as [Hh4 Hp4].
      minv H. cbn. split; [congruence|].
      rewrite Hp4. apply Z.eqb_neq in Ep1. rewrite Ep1, Hp3, Hm.
      rewrite remove_block_head. exact Hbase.
Qed.

Lemma get_pids_resources fuel s r s' :
  ps__get_pids os fuel s = Done r s' ->
  st_handles s' = st_handles s /\
  match r with
  | None => st_heap s' = st_heap s
  | Some (p, _, _) => p <> NULL /\ exists n, st_heap s' = (p, n) :: st_heap s
  end.
Proof.
  unfold ps__get_pids. intros H.
  apply bind_Done in H. destruct H as (r1 & s1 & Hl & H).
  apply (get_pids_loop_resources _ _ _ _ _ _ (st_heap s)) in Hl;
    [|left; split; reflexivity].
  destruct Hl as [Hh Hl]. destruct r1; minv H; auto.
Qed.

Lemma pid_in_pids_resources fuel pid s r s' :
  ps__pid_in_pids os fuel pid s = Done r s' ->
  st_handles s' = st_handles s /\ st_heap s' = st_heap s.
Proof.
  unfold ps__pid_in_pids. intros H.
  apply bind_Done in H. destruct H as (r1 & s1 & Hg & H).
  apply get_pids_resources in Hg. destruct Hg as [Hh Hg].
  destruct r1 as [[[p entries] n]|].
  - destruct Hg as [Hp (k & Hg)].
    assert (Hf : forall v s2, bind (c_free os p) (fun _ => ret v) s1 = Done r s2 ->
                 st_handles s2 = st_handles s /\ st_heap s2 = st_heap s).
    { intros v s2 Hv. apply bind_Done in Hv.
      destruct Hv as (u & s3 & Hfree & Hv). apply c_free_Done in Hfree.
      destruct Hfree as [Hh3 Hp3]. minv Hv. split; [congruence|].
      rewrite Hp3. apply Z.eqb_neq in Hp. rewrite Hp, Hg.
      apply remove_block_head. }
    destruct (pid_in_array pid entries (Z.to_nat n)); eapply Hf; exact H.
  - minv H. auto.
Qed.
End Resources.

Section Guard.

Context {os : OS}.
Implicit Types s : state os.

Lemma assert_pid_exists_resources fuel pid err s r s' :
  ps__assert_pid_exists os fuel pid err s = Done r s' ->
  st_handles s' = st_handles s /\ st_heap s' = st_heap s.
Proof.
  unfold ps__assert_pid_exists. intros H.
  destruct (PS__TESTING os); [|minv H; auto].
  apply bind_Done in H. destruct H as (m & s1 & Hm & H).
  apply pid_in_pids_resources in Hm. minv H; auto.
Qed.

Lemma assert_pid_not_exists_resources fuel pid err s r s' :
  ps__assert_pid_not_exists os fuel pid err s = Done r s' ->
  st_handles s' = st_handles s /\ st_heap s' = st_heap s.
Proof.
  unfold ps__assert_pid_not_exists. intros H.
  destruct (PS__TESTING os); [|minv H; auto].
  apply bind_Done in H. destruct H as (m & s1 & Hm & H).
  apply pid_in_pids_resources in Hm. minv H; auto.
Qed.

(** Every answer other than "running" has released the handle. *)
Lemma is_phandle_running_resources fuel hProcess pid s r s' :
  ps__is_phandle_running os fuel hProcess pid s = Done r s' ->
  st_heap s' = st_heap s /\
  (hProcess = NULL -> r <> 1 /\ st_handles s' = st_handles s) /\
  (hProcess <> NULL ->
   (r = 1 -> st_handles s' = st_handles s) /\
   (r <> 1 -> st_handles s' = remove_first hProcess (st_handles s))).
Proof.
  unfold ps__is_phandle_running. intros H.
  destruct (Z.eqb_spec hProcess NULL) as [E|E].
  - apply bind_Done in H. destruct H as (e & s1 & He & H). minv He.
    injection E0 as <- <-.
    destruct (GetLastError os (st_world s) =? ERROR_INVALID_PARAMETER).
    + apply bind_Done in H. destruct H as (a & s2 & Ha & H).
      apply assert_pid_not_exists_resources in Ha. destruct Ha as [Hh Hp].
      cbn in Hh, Hp.
      split; [|split; [|contradiction]].
      * minv H; congruence.
      * intros _. minv H; (split; [discriminate|congruence]).
    + minv H. cbn. split; [reflexivity|].
      split; [|contradiction]. intros _. split; [discriminate|reflexivity].
  - apply bind_Done in H. destruct H as (x & s1 & Hx & H). minv Hx.
    assert (Hclose : forall (k : M os Z) v s2,
      bind (close_handle os hProcess) (fun _ => k) s2 = Done v s' ->
      (forall s3 s4 v', k s3 = Done v' s4 ->
         st_handles s4 = st_handles s3 /\ st_heap s4 = st_heap s3) ->
      st_handles s' = remove_first hProcess (st_handles s2)
      /\ st_heap s' = st_heap s2).
    { intros k v s2 Hk Hf. apply bind_Done in Hk.
      destruct Hk as (u & s3 & Hc & Hk). apply close_handle_Done in Hc.
      apply Hf in Hk. destruct Hc, Hk. split; congruence. }
    destruct x as [code|].
    + destruct (code =? STILL_ACTIVE).
      * apply bind_Done in H. destruct H as (a & s2 & Ha & H).
        apply assert_pid_exists_resources in Ha. destruct Ha as [Hh Hp].
        cbn in Hh, Hp.
        destruct (a =? 0).
        -- pose proof H as H0.
           apply Hclose in H; [|intros s3 s4 v' Hr; minv Hr; auto].
           destruct H as [H1 H2].
           split; [congruence|]. split; [contradiction|]. intros _.
           apply bind_Done in H0. destruct H0 as (u & s3 & _ & Hr). minv Hr.
           split; [discriminate|]. intros _. congruence.
        -- minv H. split; [congruence|]. split; [contradiction|]. intros _.
           split; [congruence|]. intros F. now elim F.
      * apply bind_Done in H. destruct H as (m & s2 & Hm & H).
        apply pid_in_pids_resources in Hm. destruct Hm as [Hh Hp].
        cbn in Hh, Hp.
        destruct (Z.eqb_spec m 1) as [Em|Em].
        -- minv H. split; [congruence|]. split; [contradiction|]. intros _.
           split; [congruence|]. intros F. now elim F.
        -- pose proof H as H0.
           apply Hclose in H; [|intros s3 s4 v' Hr; minv Hr; auto].
           destruct H as [H1 H2].
           split; [congruence|]. split; [contradiction|]. intros _.
           apply bind_Done in H0. destruct H0 as (u & s3 & _ & Hr). minv Hr.
           split; [discriminate|]. intros _. congruence.
    + pose proof H as H0.
      apply Hclose in H.
      * destruct H as [H1 H2]. cbn in H1, H2.
        split; [exact H2|]. split; [contradiction|]. intros _.
        apply bind_Done in H0. destruct H0 as (u & s3 & _ & Hr).
        apply bind_Done in Hr. destruct Hr as (a & s4 & _ & Hr).
        split; [|intros _; exact H1].
        minv Hr; discriminate.
      * intros s3 s4 v' Hr. apply bind_Done in Hr.
        destruct Hr as (a & s5 & Ha & Hr).
        apply assert_pid_not_exists_resources in Ha. destruct Ha.
        minv Hr; auto.
Qed.

Lemma check_phandle_resources fuel hProcess pid s h s' :
  ps__check_phandle os fuel hProcess pid s = Done h s' ->
  st_heap s' = st_heap s /\
  (h = NULL \/ h = hProcess) /\
  (hProcess = NULL -> h = NULL /\ st_handles s' = st_handles s) /\
  (hProcess <> NULL ->
   (h <> NULL -> st_handles s' = st_handles s) /\
   (h = NULL -> st_handles s' = remove_first hProcess (st_handles s))).
Proof.
  unfold ps__check_phandle. intros H.
  apply bind_Done in H. destruct H as (r & s1 & Hr & H).
  apply is_phandle_running_resources in Hr.
  destruct Hr as (Hp & Hnull & Hopen).
  destruct (Z.eqb_spec r 1) as [E1|E1].
  - minv H. split; [exact Hp|]. split; [now right|]. split.
    + intros E. destruct (Hnull E) as [F _]. now elim F.
    + intros E. destruct (Hopen E) as [Hk _]. split; [auto|].
      intros F. contradiction.
  - assert (Hs : st_handles s' = st_handles s1 /\ st_heap s' = st_heap s1
                 /\ h = NULL).
    { minv H; auto. }
    destruct Hs as (Hh & Hp' & ->).
    split; [congruence|]. split; [now left|]. split.
    + intros E. destruct (Hnull E) as [_ Hk]. split; [reflexivity|congruence].
    + intros E. destruct (Hopen E) as [_ Hk]. split.
      * intros F. now elim F.
      * intros _. rewrite Hh. auto.
Qed.

(** An open that succeeds adds the handle it returns; one that fails
    leaves the set of open handles as it was. *)
Lemma handle_from_pid_waccess_resources fuel pid access s h s' :
  ps__handle_from_pid_waccess os fuel pid access s = Done h s' ->
  st_heap s' = st_heap s /\
  (h = NULL -> st_handles s' = st_handles s) /\
  (h <> NULL -> st_handles s' = h :: st_handles s).
Proof.
  unfold ps__handle_from_pid_waccess. intros H.
  destruct (pid =? 0).
  - minv H. cbn. split; [reflexivity|]. split; [reflexivity|].
    intros F. now elim F.
  - apply bind_Done in H. destruct H as (h0 & s1 & Ho & H).
    apply check_phandle_resources in H.
    destruct H as (Hp & Hcase & Hnull & Hopen).
    unfold open_process in Ho. apply bind_Done in Ho.
    destruct Ho as (h1 & s2 & Hsys & Ho). minv Hsys.
    minv Ho.
    + apply Z.eqb_eq in Heqb. destruct (Hnull Heqb) as [-> Hk]. cbn in *.
      split; [exact Hp|]. split; [auto|]. intros F. now elim F.
    + apply Z.eqb_neq in Heqb. cbn in *. destruct (Hopen Heqb) as [Hk1 Hk2].
      split; [exact Hp|]. split.
      * intros ->. rewrite (Hk2 eq_refl). apply remove_first_head.
      * intros Hn. destruct Hcase as [-> | ->]; [contradiction|]. auto.
Qed.

Lemma handle_from_pid_resources fuel pid s h s' :
  ps__handle_from_pid os fuel pid s = Done h s' ->
  st_heap s' = st_heap s /\
  (h = NULL -> st_handles s' = st_handles s) /\
  (h <> NULL -> st_handles s' = h :: st_handles s).
Proof. apply handle_from_pid_waccess_resources. Qed.

End Guard.

(** ** C5: the probe-and-grow loop *)

Section Registry.

Context {os : OS}.
Implicit Types s : state os.

Lemma c_free_run p s :
  exists s1,
    c_free os p s = Done tt s1
    /\ st_heap s1
       = (if p =? NULL then st_heap s else remove_block p (st_heap s)).
Proof.
  unfold c_free. destruct (p =? NULL); eexists; split; reflexivity.
Qed.

Lemma c_malloc_run n s :
  exists p s1,
    c_malloc os n s = Done p s1
    /\ p = fst (malloc os n (st_world s))
    /\ st_heap s1 = (if p =? NULL then st_heap s else (p, n) :: st_heap s).
Proof.
  unfold c_malloc, bind, sys.
  destruct (malloc os n (st_world s)) as [p w].
  destruct (p =? NULL) eqn:E; exists p; eexists;
    (split; [reflexivity|]); cbn; rewrite E; auto.
Qed.

Lemma EnumProcesses_run cb s :
  exists r s1,
    EnumProcesses os cb s = Done r s1
    /\ st_heap s1 = st_heap s
    /\ match fst (live_pids os (st_world s)) with
       | None => r = None
       | Some pids =>
           r = Some (firstn (Z.to_nat (cb / sizeof_DWORD)) pids,
                     sizeof_DWORD
                     * Z.of_nat
                         (length
                            (firstn (Z.to_nat (cb / sizeof_DWORD)) pids)))
       end.
Proof.
  unfold EnumProcesses, bind, sys.
  destruct (live_pids os (st_world s)) as [[pids|] w];
    eexists; eexists; (split; [reflexivity|]); cbn; auto.
Qed.

Lemma capacity_no_wrap c :
  0 <= c < 2 ^ 30 ->
  int_of c = c
  /\ SIZE_T_of os (SIZE_T_of os c * sizeof_DWORD) = 4 * c
  /\ DWORD_of (SIZE_T_of os (SIZE_T_of os c * sizeof_DWORD)) = 4 * c.
Proof.
  intros Hc. unfold sizeof_DWORD.
  rewrite (SIZE_T_of_small c) by lia.
  rewrite (SIZE_T_of_small (c * 4)) by lia.
  unfold int_of, DWORD_of.
  rewrite (Z.mod_small (c + 2 ^ 31)) by lia.
  rewrite (Z.mod_small (c * 4)) by lia. lia.
Qed.

Section Bounded.

(** The system never has more than [N] live identifiers. *)
Variable N : Z.
Hypothesis N_nonneg : 0 <= N.
Hypothesis N_small : N + 1024 < 2 ^ 30.
Hypothesis live_pids_bounded :
  forall w pids w',
    live_pids os w = (Some pids, w') -> Z.of_nat (length pids) <= N.

Lemma get_pids_loop_converges fuel :
  forall j p s base,
    0 <= j <= N / 1024 ->
    N / 1024 - j < Z.of_nat fuel ->
    (p = NULL /\ st_heap s = base
     \/ exists n, p <> NULL /\ st_heap s = (p, n) :: base) ->
    exists r s',
      ps__get_pids_loop os fuel p (1024 * j) s = Done r s'
      /\ match r with
         | None => st_heap s' = base
         | Some l =>
             procArray l <> NULL
             /\ (exists k, j < k <= N / 1024 + 1
                           /\ procArraySz l = 1024 * k)
             /\ enumReturnSz l
                = sizeof_DWORD * Z.of_nat (length (procArray_entries l))
             /\ Z.of_nat (length (procArray_entries l)) < procArraySz l
             /\ st_heap s'
                = (procArray l, sizeof_DWORD * procArraySz l) :: base
         end
      /\ ((forall n w, fst (malloc os n w) <> NULL) ->
          (forall w, fst (live_pids os w) <> None) -> r <> None).
Proof using N_nonneg N_small live_pids_bounded.
  induction fuel as [|fuel IH]; intros j p s base Hj Hfuel Hp; [lia|].
  cbn [ps__get_pids_loop].
  assert (Hc : 0 <= 1024 * j + 1024 < 2 ^ 30).
  { assert (1024 * (N / 1024) <= N) by (apply Z.mul_div_le; lia). lia. }
  destruct (capacity_no_wrap _ Hc) as (Hint & Hsz & Hdw).
  rewrite Hint, Hdw, Hsz.
  destruct (c_free_run p s) as (s1 & Hfree & Hheap1).
  rewrite (bind_eq _ _ _ _ _ Hfree).
  assert (Hbase : st_heap s1 = base).
  { rewrite Hheap1. destruct Hp as [[-> Hb]|(n & Hn & Hb)]; [exact Hb|].
    apply Z.eqb_neq in Hn. rewrite Hn, Hb. apply remove_block_head. }
  destruct (c_malloc_run (4 * (1024 * j + 1024)) s1) as (p1 & s2 & Hm & Ep1 & Hheap2).
  rewrite (bind_eq _ _ _ _ _ Hm).
  destruct (p1 =? NULL) eqn:E1.
  { apply Z.eqb_eq in E1.
    eexists. eexists. split; [reflexivity|]. cbn. split; [congruence|].
    intros Hmalloc _. exfalso.
    apply (Hmalloc (4 * (1024 * j + 1024)) (st_world s1)). congruence. }
  assert (Hp1 : p1 <> NULL) by (now apply Z.eqb_neq).
  destruct (EnumProcesses_run (4 * (1024 * j + 1024)) s2)
    as (r1 & s3 & He & Hheap3 & Hr1).
  rewrite (bind_eq _ _ _ _ _ He).
  destruct (live_pids os (st_world s2)) as [[pids|] w] eqn:Hlive;
    cbn [fst] in Hr1; subst r1.
  - pose proof (live_pids_bounded _ _ _ Hlive) as Hlen.
    replace (4 * (1024 * j + 1024) / sizeof_DWORD) with (1024 * j + 1024)
      by (unfold sizeof_DWORD; apply Z.div_unique_exact; lia).
    set (stored := firstn (Z.to_nat (1024 * j + 1024)) pids).
    assert (Hstored : Z.of_nat (length stored)
                      = Z.min (1024 * j + 1024) (Z.of_nat (length pids))).
    { unfold stored. rewrite length_firstn. lia. }
    destruct (Z.eqb_spec (sizeof_DWORD * Z.of_nat (length stored))
                (4 * (1024 * j + 1024))) as [Efull|Efull].
    + unfold sizeof_DWORD in Efull.
      assert (Hj' : 0 <= j + 1 <= N / 1024).
      { split; [lia|]. apply Z.div_le_lower_bound; lia. }
      destruct (IH (j + 1) p1 s3 base Hj') as (r & s' & Hrun & Hr & Hok).
      * lia.
      * right. eexists. split; [exact Hp1|].
        rewrite Hheap3, Hheap2, Hbase. reflexivity.
      * replace (1024 * j + 1024) with (1024 * (j + 1)) by lia.
        exists r, s'. split; [exact Hrun|]. split; [|exact Hok].
        destruct r as [l|]; [|exact Hr].
        destruct Hr as (Hp' & (k & Hk & Ek) & Hr).
        split; [exact Hp'|]. split; [|exact Hr].
        exists k. split; [lia|exact Ek].
    + eexists. eexists. split; [reflexivity|].
      cbn [procArray procArray_entries procArraySz enumReturnSz].
      split; [|discriminate].
      split; [exact Hp1|]. split.
      * exists (j + 1). split; lia.
      * split; [reflexivity|]. unfold sizeof_DWORD in *. split; [lia|].
        rewrite Hheap3, Hheap2, Hbase. reflexivity.
  - destruct (c_free_run p1 s3) as (s4 & Hfree4 & Hheap4).
    rewrite (bind_eq _ _ _ _ _ Hfree4).
    eexists. eexists. split; [reflexivity|]. cbn. split.
    + rewrite Hheap4, E1, Hheap3, Hheap2, remove_block_head. exact Hbase.
    + intros _ Hlive'. exfalso. apply (Hlive' (st_world s2)).
      now rewrite Hlive.
Qed.

End Bounded.

End Registry.



(** On that machine three rounds are needed and enough: 2500 identifiers
    come back in a block of 3072 slots. *)
Example get_pids_crowded :
  option_map (fun r => match r with
                       | Some (_, entries, n) => Some (length entries, n)
                       | None => None
                       end)
    (result_of (ps__get_pids (sim_os sim_crowded) 3 (sim_state sim_crowded)))
  = Some (Some (2500%nat, 2500))
  /\ option_map (fun r => snd (fst r))
       (resources_of
          (ps__get_pids (sim_os sim_crowded) 3 (sim_state sim_crowded)))
     = Some [(0x10000 + 4096 + 16 + 8192 + 16, sizeof_DWORD * 3072)]
  /\ result_of (ps__get_pids (sim_os sim_crowded) 2 (sim_state sim_crowded))
     = None.
Proof. repeat split; vm_compute; reflexivity. Qed.

(** ** Enough budget: the guard returns *)

Section GuardReturns.

Context {os : OS}.
Implicit Types s : state os.

Variable N : Z.
Hypothesis N_nonneg : 0 <= N.
Hypothesis N_small : N + 1024 < 2 ^ 30.
Hypothesis live_pids_bounded :
  forall w pids w',
    live_pids os w = (Some pids, w') -> Z.of_nat (length pids) <= N.

Variable fuel : nat.
Hypothesis enough : N / 1024 < Z.of_nat fuel.

Lemma pid_in_pids_returns pid s :
  exists r s', ps__pid_in_pids os fuel pid s = Done r s'.
Proof using N_nonneg N_small live_pids_bounded enough.
  destruct (get_pids_loop_converges N N_nonneg N_small live_pids_bounded
              fuel 0 NULL s (st_heap s))
    as (r & s1 & Hrun & _).
  - split; [lia|]. apply Z.div_pos; lia.
  - lia.
  - left. split; reflexivity.
  - change (1024 * 0) with 0 in Hrun.
    assert (Hg : exists g, ps__get_pids os fuel s = Done g s1).
    { unfold ps__get_pids. rewrite (bind_eq _ _ _ _ _ Hrun).
      destruct r; eexists; reflexivity. }
    destruct Hg as (g & Hg).
    unfold ps__pid_in_pids. rewrite (bind_eq _ _ _ _ _ Hg).
    destruct g as [[[p entries] n]|].
    + destruct (c_free_run p s1) as (s2 & Hf & _).
      destruct (pid_in_array pid entries (Z.to_nat n));
        rewrite (bind_eq _ _ _ _ _ Hf); eexists; eexists; reflexivity.
    + eexists. eexists. reflexivity.
Qed.

Lemma assert_pid_exists_returns pid err s :
  exists r s', ps__assert_pid_exists os fuel pid err s = Done r s'.
Proof using N_nonneg N_small live_pids_bounded enough.
  unfold ps__assert_pid_exists. destruct (PS__TESTING os).
  - destruct (pid_in_pids_returns pid s) as (r & s1 & H).
    rewrite (bind_eq _ _ _ _ _ H).
    destruct (r =? 0); eexists; eexists; reflexivity.
  - eexists. eexists. reflexivity.
Qed.

Lemma assert_pid_not_exists_returns pid err s :
  exists r s', ps__assert_pid_not_exists os fuel pid err s = Done r s'.
Proof using N_nonneg N_small live_pids_bounded enough.
  unfold ps__assert_pid_not_exists. destruct (PS__TESTING os).
  - destruct (pid_in_pids_returns pid s) as (r & s1 & H).
    rewrite (bind_eq _ _ _ _ _ H).
    destruct (r =? 1); eexists; eexists; reflexivity.
  - eexists. eexists. reflexivity.
Qed.

Lemma is_phandle_running_returns hProcess pid s :
  exists r s', ps__is_phandle_running os fuel hProcess pid s = Done r s'.
Proof using N_nonneg N_small live_pids_bounded enough.
  unfold ps__is_phandle_running. destruct (hProcess =? NULL).
  - unfold bind at 1, sys.
    destruct (GetLastError os (st_world s) =? ERROR_INVALID_PARAMETER).
    + destruct (assert_pid_not_exists_returns pid
                  "iphr: OpenProcess() -> ERROR_INVALID_PARAMETER"
                  (set_world os (st_world s) s)) as (a & s1 & H).
      rewrite (bind_eq _ _ _ _ _ H).
      destruct (a =? 0); eexists; eexists; reflexivity.
    + eexists. eexists. reflexivity.
  - unfold bind at 1, sys.
    destruct (GetExitCodeProcess os hProcess (st_world s)) as [[code|] w].
    + destruct (code =? STILL_ACTIVE).
      * destruct (assert_pid_exists_returns pid
                    "iphr: GetExitCodeProcess() -> STILL_ACTIVE"
                    (set_world os w s)) as (a & s1 & H).
        rewrite (bind_eq _ _ _ _ _ H).
        destruct (a =? 0); eexists; eexists; reflexivity.
      * destruct (pid_in_pids_returns pid (set_world os w s))
          as (m & s1 & H).
        rewrite (bind_eq _ _ _ _ _ H).
        destruct (m =? 1); eexists; eexists; reflexivity.
    + rewrite (bind_eq _ _ _ _ _ (close_handle_eq hProcess _)).
      match goal with
      | |- context [bind (ps__assert_pid_not_exists os fuel pid ?e) _ ?st] =>
          destruct (assert_pid_not_exists_returns pid e st) as (a & s1 & H)
      end.
      rewrite (bind_eq _ _ _ _ _ H).
      destruct (a =? 0); eexists; eexists; reflexivity.
Qed.

Lemma handle_from_pid_returns pid s :
  exists h s', ps__handle_from_pid os fuel pid s = Done h s'.
Proof using N_nonneg N_small live_pids_bounded enough.
  unfold ps__handle_from_pid, ps__handle_from_pid_waccess.
  destruct (pid =? 0); [eexists; eexists; reflexivity|].
  assert (Ho : exists h s1,
             open_process os
               (Z.lor PROCESS_QUERY_INFORMATION PROCESS_VM_READ) pid s
             = Done h s1).
  { unfold open_process, bind, sys.
    destruct (OpenProcess os _ pid (st_world s)) as [h w].
    destruct (h =? NULL); eexists; eexists; reflexivity. }
  destruct Ho as (h & s1 & Ho). rewrite (bind_eq _ _ _ _ _ Ho).
  unfold ps__check_phandle.
  destruct (is_phandle_running_returns h pid s1) as (r & s2 & Hr).
  rewrite (bind_eq _ _ _ _ _ Hr).
  destruct (r =? 1); [eexists; eexists; reflexivity|].
  destruct (r =? 0); [eexists; eexists; reflexivity|].
  destruct (r =? -1); eexists; eexists; reflexivity.
Qed.

End GuardReturns.

(** ** The walk, the probe and the copy *)

Section Reader.

Context {os : OS}.
Implicit Types s : state os.

(** Locating the field opens and allocates nothing, and leaves a length
    taken from the parameters structure it read. *)
Lemma locate_field_resources hProcess kind s r s' :
  locate_field os hProcess kind s = Done r s' ->
  st_handles s' = st_handles s /\ st_heap s' = st_heap s /\
  (forall e buf, r = inl (e, buf) -> buf = NULL) /\
  (forall l, r = inr l ->
     exists lay a w w' p,
       read_parameters os lay hProcess a w = (Some p, w')
       /\ l_size l = snd (select_field os lay kind p)).
Proof.
  unfold locate_field, locate_native, locate_wider, read_blocks.
  intros H.
  minv H; cbn; (split; [reflexivity|]); (split; [reflexivity|]);
    (split; [intros e' buf' Hr; congruence|]);
    intros l' Hl; try discriminate;
    match goal with
    | E : select_field _ ?lay _ ?p = _,
      R : read_parameters _ ?lay _ ?a ?w = (Some ?p, ?w') |- _ =>
        exists lay, a, w, w', p; split; [exact R|];
        rewrite E; injection Hl as <-; reflexivity
    end.
Qed.

Lemma select_field_known lay kind p :
  kind <> KIND_ENVIRON -> 0 <= snd (select_field os lay kind p) < 2 ^ 16.
Proof.
  intros Hk. destruct kind; [| |contradiction]; cbn;
    apply Z.mod_pos_bound; reflexivity.
Qed.

(** The probe opens and allocates nothing; for the two fields of known
    length it does nothing at all. *)
Lemma resolve_length_resources hProcess kind l s r s' :
  resolve_length os hProcess kind l s = Done r s' ->
  st_handles s' = st_handles s /\ st_heap s' = st_heap s /\
  (forall e buf, r = inl (e, buf) -> buf = NULL) /\
  (kind <> KIND_ENVIRON -> r = inr l /\ s' = s).
Proof.
  unfold resolve_length, ps__get_process_region_size,
    ps__get_process_region_size64.
  intros H.
  destruct kind;
    minv H; cbn; (split; [reflexivity|]); (split; [reflexivity|]);
    (split; [intros e' buf' Hr; congruence|]);
    intros Hk; try (now elim Hk); try (split; congruence).
Qed.

(** The length of the environment is what one of the two probes
    returned, the 64 bit one cut to [SIZE_T]. *)
Lemma probe_of_resolve_length hProcess l s l' s' :
  resolve_length os hProcess KIND_ENVIRON l s = Done (inr l') s' ->
  (exists src,
      ps__get_process_region_size os hProcess src s
      = Done (Some (l_size l')) s')
  \/ (exists src64 size64,
         ps__get_process_region_size64 os hProcess src64 s
         = Done (Some size64) s'
         /\ l_size l' = SIZE_T_of os size64).
Proof.
  unfold resolve_length. intros H.
  destruct (l_mode l);
    apply bind_Done in H; destruct H as (r & s1 & Hp & H);
    (destruct r as [size|]; [|minv H; discriminate]);
    apply ret_Done in H; destruct H as [E ->]; injection E as ->;
    cbn [with_size l_size]; eauto.
Qed.

Lemma store_bytes_fits size bs bytes :
  Z.of_nat (length bs) = size ->
  store_bytes (SIZE_T_of os (size + 2)) bs = Some bytes ->
  SIZE_T_of os (size + 2) = size + 2 /\ bytes = bs ++ [0; 0].
Proof.
  intros Hlen. unfold store_bytes.
  destruct (Z.leb_spec (Z.of_nat (length bs)) (SIZE_T_of os (size + 2)))
    as [Hle|]; [|discriminate].
  intros H. injection H as <-.
  assert (Hcap : SIZE_T_of os (size + 2) = size + 2).
  { pose proof (@SIZE_T_of_range os (size + 2)) as Hr. unfold SIZE_T_of in *.
    assert (Hpow : 2 ^ 32 <= 2 ^ ptr_bits os)
      by (destruct (@ptr_bits_cases os) as [-> | ->]; lia).
    destruct (Z_lt_ge_dec (size + 2) (2 ^ ptr_bits os)) as [Hlt|Hge].
    - apply Z.mod_small. lia.
    - exfalso.
      assert (Hm : (size + 2) mod 2 ^ ptr_bits os
                   = size + 2 - 2 ^ ptr_bits os).
      { symmetry. apply Z.mod_unique_pos with (q := 1); lia. }
      lia. }
  split; [exact Hcap|]. rewrite Hcap.
  replace (Z.to_nat (size + 2) - length bs)%nat with 2%nat by lia.
  reflexivity.
Qed.

(** The copy leaves the handles alone and owns at most the block it
    allocated; when it succeeds that block has [size + 2] bytes, the
    [size] bytes read followed by two zero bytes. *)
Lemma copy_region_resources hProcess l s r s' :
  copy_region os hProcess l s = Done r s' ->
  st_handles s' = st_handles s /\
  match r with
  | inl (_, buf) =>
      buf = NULL /\ st_heap s' = st_heap s
      \/ buf <> NULL /\ exists n, st_heap s' = (buf, n) :: st_heap s
  | inr b =>
      buf_addr b <> NULL /\
      st_heap s' = (buf_addr b, l_size l + 2) :: st_heap s /\
      exists bs,
        (exists rd src w w',
            read_bytes os rd hProcess src (l_size l) w = (Some bs, w')) /\
        Z.of_nat (length bs) = l_size l /\
        buf_bytes b = bs ++ [0; 0]
  end.
Proof.
  unfold copy_region. intros H.
  apply bind_Done in H. destruct H as (buf & s1 & Hm & H).
  apply c_malloc_Done in Hm. destruct Hm as [Hh1 Hm].
  destruct (Z.eqb_spec buf NULL) as [Eb|Eb].
  - destruct Hm as [[_ Hm]|[Hm _]]; [|contradiction].
    minv H. cbn. split; [congruence|]. left. split; [reflexivity|congruence].
  - destruct Hm as [[Hm _]|[_ Hm]]; [contradiction|].
    apply bind_Done in H. destruct H as (rb & s2 & Hr & H).
    assert (Hread : st_handles s2 = st_handles s1 /\ st_heap s2 = st_heap s1
      /\ forall bs, rb = Some bs ->
           exists rd src w w',
             read_bytes os rd hProcess src (l_size l) w = (Some bs, w')).
    { destruct (l_mode l); minv Hr; cbn; (split; [reflexivity|]);
        (split; [reflexivity|]); intros bs ->; eauto. }
    destruct Hread as (Hh2 & Hp2 & Hbs).
    destruct rb as [bs|].
    + destruct (Hbs bs eq_refl) as (rd & src & w & w' & Hrd).
      pose proof (read_bytes_length os _ _ _ _ _ _ _ Hrd) as Hlen.
      destruct (store_bytes (SIZE_T_of os (l_size l + 2)) bs) as [bytes|]
        eqn:Hst; [|discriminate].
      destruct (store_bytes_fits _ _ _ Hlen Hst) as [Hcap ->].
      minv H. cbn. split; [congruence|]. split; [exact Eb|].
      split; [rewrite Hp2, Hm, Hcap; reflexivity|].
      exists bs. split; [eauto|]. split; [exact Hlen|reflexivity].
    + minv H. cbn. split; [congruence|]. right. split; [exact Eb|].
      eexists. rewrite Hp2, Hm. reflexivity.
Qed.

(** When [size + 2] does not fit [SIZE_T] the block allocated is too small
    for the bytes asked for, and no run of the copy ends in success. *)
Lemma copy_region_no_room hProcess l s r s' :
  2 ^ ptr_bits os <= l_size l + 2 ->
  copy_region os hProcess l s = Done r s' ->
  exists e, r = inl e.
Proof.
  intros Hwrap H. destruct r as [e|b]; [eauto|exfalso].
  unfold copy_region in H.
  apply bind_Done in H. destruct H as (buf & s1 & _ & H).
  destruct (buf =? NULL); [minv H; discriminate|].
  apply bind_Done in H. destruct H as (rb & s2 & Hr & H).
  destruct rb as [bs|]; [|minv H; discriminate].
  assert (Hlen : Z.of_nat (length bs) = l_size l).
  { destruct (l_mode l); minv Hr;
      eapply read_bytes_length; eassumption. }
  destruct (store_bytes (SIZE_T_of os (l_size l + 2)) bs) as [bytes|] eqn:Hst;
    [|discriminate].
  destruct (store_bytes_fits _ _ _ Hlen Hst) as [Hcap _].
  pose proof (@SIZE_T_of_range os (l_size l + 2)). lia.
Qed.

Lemma process_data_body_resources hProcess kind s r s' :
  process_data_body os hProcess kind s = Done r s' ->
  st_handles s' = st_handles s /\
  match r with
  | inl (_, buf) =>
      buf = NULL /\ st_heap s' = st_heap s
      \/ buf <> NULL /\ exists n, st_heap s' = (buf, n) :: st_heap s
  | inr (b, size) =>
      buf_addr b <> NULL /\
      st_heap s' = (buf_addr b, size + 2) :: st_heap s /\
      (kind <> KIND_ENVIRON ->
       exists lay a w w' p,
         read_parameters os lay hProcess a w = (Some p, w')
         /\ size = snd (select_field os lay kind p)) /\
      (kind = KIND_ENVIRON ->
       (exists src s0 s1,
           ps__get_process_region_size os hProcess src s0
           = Done (Some size) s1)
       \/ (exists src64 size64 s0 s1,
              ps__get_process_region_size64 os hProcess src64 s0
              = Done (Some size64) s1
              /\ size = SIZE_T_of os size64)) /\
      exists bs,
        (exists rd src w w',
            read_bytes os rd hProcess src size w = (Some bs, w')) /\
        Z.of_nat (length bs) = size /\
        buf_bytes b = bs ++ [0; 0]
  end.
Proof.
  unfold process_data_body, bindE. intros H.
  apply bind_Done in H. destruct H as (r1 & s1 & H1 & H).
  apply locate_field_resources in H1. destruct H1 as (Hh1 & Hp1 & Hn1 & Hs1).
  destruct r1 as [[e buf]|l1].
  { minv H. split; [congruence|]. left. split; [eauto|congruence]. }
  apply bind_Done in H. destruct H as (r2 & s2 & H2 & H).
  pose proof H2 as H2'.
  apply resolve_length_resources in H2.
  destruct H2 as (Hh2 & Hp2 & Hn2 & Hk2).
  destruct r2 as [[e buf]|l2].
  { minv H. split; [congruence|]. left. split; [eauto|congruence]. }
  apply bind_Done in H. destruct H as (r3 & s3 & H3 & H).
  apply copy_region_resources in H3. destruct H3 as [Hh3 H3].
  destruct r3 as [[e buf]|b].
  - minv H. split; [congruence|].
    destruct H3 as [[-> H3]|[Hb (n & H3)]].
    + left. split; [reflexivity|congruence].
    + right. split; [exact Hb|]. exists n. congruence.
  - minv H. split; [congruence|].
    destruct H3 as (Hb & Hheap & Hbs).
    split; [exact Hb|]. split; [congruence|].
    split; [|split; [|exact Hbs]].
    + intros Hk. destruct (Hk2 Hk) as [El _]. injection El as ->.
      exact (Hs1 l1 eq_refl).
    + intros ->. apply probe_of_resolve_length in H2'.
      destruct H2' as [(src & Hp)|(src64 & size64 & Hp & E)].
      * left. eauto.
      * right. exists src64, size64. eauto.
Qed.

End Reader.

(** ** Runs that use no loop budget *)

Section Budget.

Context {os : OS}.
Implicit Types s : state os.

Lemma bind_OutOfFuel {A B} (m : M os A) (k : A -> M os B) s :
  bind m k s = OutOfFuel ->
  m s = OutOfFuel \/ exists a s1, m s = Done a s1 /\ k a s1 = OutOfFuel.
Proof. unfold bind. destruct (m s); try discriminate; eauto. Qed.

Lemma sys_returns {A} (f : World os -> A * World os) s :
  sys f s <> OutOfFuel.
Proof. unfold sys. destruct (f (st_world s)). discriminate. Qed.

End Budget.

Ltac mfuel H :=
  lazymatch type of H with
  | bind _ _ _ = OutOfFuel =>
      let a := fresh "a" in
      let s1 := fresh "s" in
      apply bind_OutOfFuel in H; destruct H as [H | (a & s1 & _ & H)];
      mfuel H
  | sys _ _ = OutOfFuel => exfalso; exact (sys_returns _ _ H)
  | bindE _ _ _ _ = OutOfFuel => unfold bindE in H; mfuel H
  | call_through _ _ _ _ = OutOfFuel => unfold call_through in H; mfuel H
  | resolve _ _ _ _ _ = OutOfFuel => unfold resolve in H; mfuel H
  | c_malloc _ _ _ = OutOfFuel => unfold c_malloc in H; mfuel H
  | c_free _ _ _ = OutOfFuel => unfold c_free in H; mfuel H
  | close_handle _ _ _ = OutOfFuel => unfold close_handle in H; mfuel H
  | (if ?c then _ else _) _ = OutOfFuel => destruct c; mfuel H
  | (match ?x with _ => _ end) _ = OutOfFuel => destruct x; mfuel H
  | (if ?c then _ else _) = OutOfFuel => destruct c; mfuel H
  | (match ?x with _ => _ end) = OutOfFuel => destruct x; mfuel H
  | _ => try discriminate H
  end.

Section ProcessData.

Context {os : OS}.
Implicit Types s : state os.

Lemma process_data_body_returns hProcess kind s :
  process_data_body os hProcess kind s <> OutOfFuel.
Proof.
  unfold process_data_body, locate_field, locate_native, locate_wider,
    read_blocks, resolve_length, ps__get_process_region_size,
    ps__get_process_region_size64, copy_region.
  intros H. mfuel H.
Qed.

Lemma get_process_data_steps_unfold fuel pid kind pdata psize s :
  ps__get_process_data_steps os fuel pid kind pdata psize s
  = bind (ps__handle_from_pid os fuel (DWORD_of pid)) (fun hProcess =>
      if hProcess =? NULL then ret (-1, Some StepOpen, pdata, psize)
      else
        bind (process_data_body os hProcess kind) (fun r =>
          match r with
          | inr (buffer, size) =>
              bind (close_handle os hProcess) (fun _ =>
              ret (0, None, buffer, size))
          | inl (at_step, buffer) =>
              bind (if negb (hProcess =? NULL)
                    then close_handle os hProcess else ret tt) (fun _ =>
              bind (if negb (buffer =? NULL)
                    then c_free os buffer else ret tt) (fun _ =>
              ret (-1, Some at_step, pdata, psize)))
          end)) s.
Proof. reflexivity. Qed.

(** What a finished call of [ps__get_process_data] has done. *)
Lemma get_process_data_steps_spec fuel pid kind pdata psize s
  code failed pdata' psize' s' :
  ps__get_process_data_steps os fuel pid kind pdata psize s
  = Done (code, failed, pdata', psize') s' ->
  st_handles s' = st_handles s /\
  match failed with
  | Some _ =>
      code = -1 /\ st_heap s' = st_heap s /\ pdata' = pdata /\ psize' = psize
  | None =>
      code = 0 /\ buf_addr pdata' <> NULL /\
      st_heap s' = (buf_addr pdata', psize' + 2) :: st_heap s /\
      (kind <> KIND_ENVIRON ->
       exists lay h a w w' p,
         read_parameters os lay h a w = (Some p, w')
         /\ psize' = snd (select_field os lay kind p)) /\
      (kind = KIND_ENVIRON ->
       (exists h src s0 s1,
           ps__get_process_region_size os h src s0 = Done (Some psize') s1)
       \/ (exists h src64 size64 s0 s1,
              ps__get_process_region_size64 os h src64 s0
              = Done (Some size64) s1
              /\ psize' = SIZE_T_of os size64)) /\
      exists bs,
        (exists rd h src w w',
            read_bytes os rd h src psize' w = (Some bs, w')) /\
        Z.of_nat (length bs) = psize' /\
        buf_bytes pdata' = bs ++ [0; 0]
  end.
Proof.
  rewrite get_process_data_steps_unfold. intros H.
  apply bind_Done in H. destruct H as (h & s1 & Ho & H).
  apply handle_from_pid_resources in Ho. destruct Ho as (Hp1 & Hnull & Hopen).
  destruct (Z.eqb_spec h NULL) as [Eh|Eh].
  - apply ret_Done in H. destruct H as [E ->]. injection E as -> -> -> ->.
    split; [auto|]. repeat split; auto.
  - specialize (Hopen Eh). clear Hnull.
    apply bind_Done in H. destruct H as (r & s2 & Hb & H).
    apply process_data_body_resources in Hb. destruct Hb as [Hh2 Hb].
    destruct r as [[e buf]|[b size]].
    + apply bind_Done in H. destruct H as (u1 & s3 & Hc & H).
      cbn [negb] in Hc.
      apply close_handle_Done in Hc. destruct Hc as [Hh3 Hp3].
      apply bind_Done in H. destruct H as (u2 & s4 & Hf & H).
      apply ret_Done in H. destruct H as [E ->]. injection E as -> -> -> ->.
      assert (Hs4 : st_handles s4 = st_handles s3 /\ st_heap s4 = st_heap s).
      { destruct Hb as [[-> Hb]|[Hn (n & Hb)]].
        - cbn in Hf. minv Hf. split; [reflexivity|congruence].
        - apply Z.eqb_neq in Hn. rewrite Hn in Hf. cbn [negb] in Hf.
          apply c_free_Done in Hf. destruct Hf as [Hh4 Hp4].
          split; [exact Hh4|]. rewrite Hp4, Hn, Hp3, Hb, remove_block_head.
          exact Hp1. }
      destruct Hs4 as [Hh4 Hp4].
      split.
      * rewrite Hh4, Hh3, Hh2, Hopen. apply remove_first_head.
      * repeat split; auto.
    + apply bind_Done in H. destruct H as (u1 & s3 & Hc & H).
      apply close_handle_Done in Hc. destruct Hc as [Hh3 Hp3].
      apply ret_Done in H. destruct H as [E ->]. injection E as -> -> -> ->.
      destruct Hb
        as (Hb & Hheap & Hk & He & bs & (rd & src & w & w' & Hrd) & Hbs).
      split.
      * rewrite Hh3, Hh2, Hopen. apply remove_first_head.
      * split; [reflexivity|]. split; [exact Hb|].
        split; [congruence|]. split; [|split].
        -- intros Hkind. destruct (Hk Hkind) as (lay & a & w1 & w1' & p & Hp).
           exists lay, h, a, w1, w1', p. exact Hp.
        -- intros Hkind.
           destruct (He Hkind)
             as [(src0 & s0 & s0' & Hp)
                |(src64 & size64 & s0 & s0' & Hp)].
           ++ left. exists h, src0, s0, s0'. exact Hp.
           ++ right. exists h, src64, size64, s0, s0'. exact Hp.
        -- exists bs. split; [|exact Hbs]. eauto 6.
Qed.

Lemma get_process_data_steps_out_of_fuel fuel pid kind pdata psize s :
  ps__get_process_data_steps os fuel pid kind pdata psize s = OutOfFuel ->
  ps__handle_from_pid os fuel (DWORD_of pid) s = OutOfFuel.
Proof.
  rewrite get_process_data_steps_unfold. intros H.
  apply bind_OutOfFuel in H. destruct H as [H|(h & s1 & _ & H)]; [exact H|].
  exfalso. destruct (h =? NULL); [discriminate|].
  apply bind_OutOfFuel in H. destruct H as [H|(r & s2 & _ & H)].
  - exact (process_data_body_returns _ _ _ H).
  - destruct r as [[e buf]|[b size]]; mfuel H.
Qed.

Lemma get_process_data_of_steps fuel pid kind pdata psize s :
  ps__get_process_data os fuel pid kind pdata psize s
  = match ps__get_process_data_steps os fuel pid kind pdata psize s with
    | Done (code, _, pdata', psize') s' => Done (code, pdata', psize') s'
    | Undefined => Undefined
    | OutOfFuel => OutOfFuel
    end.
Proof.
  unfold ps__get_process_data, bind.
  destruct (ps__get_process_data_steps os fuel pid kind pdata psize s)
    as [[[[code failed] pdata'] psize'] s'| |]; reflexivity.
Qed.

End ProcessData.

(** ** C2 and C3: a step that fails, and the buffer of a call that succeeds *)

Section StepRuns.

Context {os : OS}.
Implicit Types s : state os.

Lemma call_through_eq {A} (get : statics -> bool) (m : M os A) s a s' :
  get (st_statics s) = true -> m s = Done a s' ->
  call_through os get m s = Done a s'.
Proof. unfold call_through. now intros ->. Qed.

(** A lookup leaves everything but the world and its static alone, and
    its answer is the value of the static afterwards. *)
Lemma resolve_Done get set name s ok s2 :
  (forall b x, get (set b x) = b) ->
  resolve os get set name s = Done ok s2 ->
  get (st_statics s2) = ok /\
  st_errors s2 = st_errors s /\
  (st_statics s2 = st_statics s
   \/ st_statics s2 = set ok (st_statics s)).
Proof.
  intros Hgs. unfold resolve.
  destruct (get (st_statics s)) eqn:Hg.
  - intros H. injection H as <- <-. auto.
  - intros H. apply bind_Done in H. destruct H as (b & s1 & H1 & H).
    apply sys_Done in H1. destruct H1 as (w & _ & ->).
    injection H as <- <-. cbn. rewrite Hgs. auto.
Qed.

Lemma resolve_NtQueryInformationProcess s ok s2 :
  resolve os NtQueryInformationProcess_set set_NtQueryInformationProcess
    "NtQueryInformationProcess" s = Done ok s2 ->
  NtQueryInformationProcess_set (st_statics s2) = ok /\
  st_errors s2 = st_errors s.
Proof.
  intros H. apply resolve_Done in H; [|reflexivity].
  destruct H as (H1 & H2 & _). auto.
Qed.

Lemma bitness_known_run hProcess kind s m ppeb32 sB :
  bitness_known os hProcess s m ppeb32 sB ->
  st_errors sB = st_errors s /\
  locate_field os hProcess kind s
  = match m with
    | TargetNarrowerThanCaller =>
        read_blocks os TargetNarrowerThanCaller hProcess ppeb32 kind sB
    | Native => locate_native os hProcess kind sB
    | TargetWiderThanCaller => locate_wider os hProcess kind sB
    end.
Proof.
  destruct 1 as [s2 ppeb32 w Hwin Hres Hq
                |ok s2 we w they w' Hwin Hres Hwe Hthey].
  - destruct (resolve_NtQueryInformationProcess _ _ _ Hres) as [Hset He].
    split; [exact He|].
    unfold locate_field. rewrite (bind_eq _ _ _ _ _ Hres), Hwin.
    cbv beta iota.
    rewrite (bind_eq _ _ _ _ _
               (call_through_eq _ _ _ _ _ Hset (sys_eq _ _ _ _ Hq))).
    unfold bitness_mode. destruct (negb (ppeb32 =? NULL)); reflexivity.
  - destruct (resolve_NtQueryInformationProcess _ _ _ Hres) as [_ He].
    split; [exact He|].
    unfold locate_field. rewrite (bind_eq _ _ _ _ _ Hres), Hwin.
    cbv beta iota.
    rewrite (bind_eq _ _ _ _ _ (sys_eq _ _ _ _ Hwe)).
    rewrite (bind_eq _ _ _ _ _
               (sys_eq (IsWow64Process os (Some hProcess))
                  (set_world os w s2) _ _ Hthey)).
    unfold bitness_mode. destruct (we && negb they); reflexivity.
Qed.

Lemma reaches_peb_run hProcess kind s m ppeb sR :
  reaches_peb os hProcess s m ppeb sR ->
  st_errors sR = st_errors s /\
  (m = TargetWiderThanCaller ->
   NtWow64ReadVirtualMemory64_set (st_statics sR) = true) /\
  locate_field os hProcess kind s = read_blocks os m hProcess ppeb kind sR.
Proof.
  destruct 1 as [ppeb32 sB Hb
                |ppeb32 sB pba w Hb Hset Hq
                |ppeb32 sB s3 pba w s5 Hb Hr1 Hq Hr2].
  - destruct (bitness_known_run _ kind _ _ _ _ Hb) as [He Hl].
    split; [exact He|]. split; [discriminate|exact Hl].
  - destruct (bitness_known_run _ kind _ _ _ _ Hb) as [He Hl].
    split; [exact He|]. split; [discriminate|].
    rewrite Hl. unfold locate_native.
    rewrite (bind_eq _ _ _ _ _
               (call_through_eq _ _ _ _ _ Hset (sys_eq _ _ _ _ Hq))).
    reflexivity.
  - destruct (bitness_known_run _ kind _ _ _ _ Hb) as [He Hl].
    pose proof Hr1 as Hr1'. apply resolve_Done in Hr1'; [|reflexivity].
    pose proof Hr2 as Hr2'. apply resolve_Done in Hr2'; [|reflexivity].
    destruct Hr1' as (_ & He1 & _). destruct Hr2' as (Hs2 & He2 & _).
    split; [rewrite He2; cbn; congruence|]. split; [intros _; exact Hs2|].
    rewrite Hl. unfold locate_wider.
    rewrite (bind_eq _ _ _ _ _ Hr1). cbn [negb].
    rewrite (bind_eq _ _ _ _ _ (sys_eq _ _ _ _ Hq)).
    rewrite (bind_eq _ _ _ _ _ Hr2). reflexivity.
Qed.

Lemma reaches_field_run hProcess kind s m src size sF :
  reaches_field os hProcess kind s m src size sF ->
  st_errors sF = st_errors s /\
  (m = TargetWiderThanCaller ->
   NtWow64ReadVirtualMemory64_set (st_statics sF) = true) /\
  locate_field os hProcess kind s = Done (inr (locals_of m src size)) sF.
Proof.
  destruct 1 as [m ppeb sR pp w p w' Hr Hpeb Hp].
  destruct (reaches_peb_run _ kind _ _ _ _ Hr) as (He & Hs & Hl).
  split; [exact He|]. split; [exact Hs|].
  rewrite Hl. unfold read_blocks.
  rewrite (bind_eq _ _ _ _ _ (sys_eq _ _ _ _ Hpeb)).
  rewrite (bind_eq _ _ _ _ _
             (sys_eq (read_parameters os (layout_of m) hProcess
                        (address_of os (layout_of m) pp))
                (set_world os w sR) _ _ Hp)).
  destruct (select_field os (layout_of m) kind p) as [src size].
  destruct m; reflexivity.
Qed.

Lemma region_size_Some hProcess src s size s' :
  ps__get_process_region_size os hProcess src s = Done (Some size) s' ->
  st_errors s' = st_errors s /\ st_statics s' = st_statics s.
Proof.
  unfold ps__get_process_region_size. intros H.
  apply bind_Done in H. destruct H as (r & s1 & H1 & H).
  apply sys_Done in H1. destruct H1 as (w & _ & ->).
  destruct r as [info|].
  - apply ret_Done in H. destruct H as [_ ->]. auto.
  - apply bind_Done in H. destruct H as (u & s2 & _ & H).
    apply ret_Done in H. destruct H as [H _]. discriminate.
Qed.

Lemma region_size64_Some hProcess src s size s' :
  ps__get_process_region_size64 os hProcess src s = Done (Some size) s' ->
  st_errors s' = st_errors s /\
  (NtWow64ReadVirtualMemory64_set (st_statics s) = true ->
   NtWow64ReadVirtualMemory64_set (st_statics s') = true).
Proof.
  unfold ps__get_process_region_size64. intros H.
  apply bind_Done in H. destruct H as (ok & s1 & H1 & H).
  apply resolve_Done in H1; [|reflexivity].
  destruct H1 as (_ & He1 & Hst).
  destruct ok; cbn [negb] in H.
  - apply bind_Done in H. destruct H as (r & s2 & H2 & H).
    apply sys_Done in H2. destruct H2 as (w & _ & ->).
    destruct r as [info|].
    + apply ret_Done in H. destruct H as [_ ->]. cbn.
      split; [exact He1|]. destruct Hst as [-> | ->]; auto.
    + apply bind_Done in H. destruct H as (u & s3 & _ & H).
      apply ret_Done in H. destruct H as [H _]. discriminate.
  - apply bind_Done in H. destruct H as (u & s3 & _ & H).
    apply ret_Done in H. destruct H as [H _]. discriminate.
Qed.

Lemma region_size_fails hProcess src s w :
  VirtualQueryEx os hProcess src (st_world s) = (None, w) ->
  ps__get_process_region_size os hProcess src s
  = Done None (set_errors os (WindowsError :: st_errors s) (set_world os w s)).
Proof.
  intros H. unfold ps__get_process_region_size.
  rewrite (bind_eq _ _ _ _ _ (sys_eq _ _ _ _ H)). reflexivity.
Qed.

Lemma region_size64_missing hProcess src s s' :
  resolve os NtWow64QueryVirtualMemory64_set set_NtWow64QueryVirtualMemory64
    "NtWow64QueryVirtualMemory64" s = Done false s' ->
  ps__get_process_region_size64 os hProcess src s
  = Done None
      (set_errors os
         (PsError "NtWow64QueryVirtualMemory64 missing" :: st_errors s') s').
Proof.
  intros H. unfold ps__get_process_region_size64.
  rewrite (bind_eq _ _ _ _ _ H). reflexivity.
Qed.

Lemma region_size64_fails hProcess src s s' w :
  resolve os NtWow64QueryVirtualMemory64_set set_NtWow64QueryVirtualMemory64
    "NtWow64QueryVirtualMemory64" s = Done true s' ->
  NtWow64QueryVirtualMemory64 os hProcess src (st_world s') = (None, w) ->
  ps__get_process_region_size64 os hProcess src s
  = Done None
      (set_errors os (WindowsError :: st_errors s') (set_world os w s')).
Proof.
  intros H Hq. unfold ps__get_process_region_size64.
  rewrite (bind_eq _ _ _ _ _ H). cbn [negb].
  rewrite (bind_eq _ _ _ _ _ (sys_eq _ _ _ _ Hq)). reflexivity.
Qed.

Lemma c_malloc_fails n s w :
  malloc os n (st_world s) = (NULL, w) ->
  c_malloc os n s = Done NULL (set_world os w s).
Proof.
  intros H. unfold c_malloc. rewrite (bind_eq _ _ _ _ _ (sys_eq _ _ _ _ H)).
  reflexivity.
Qed.

Lemma c_malloc_succeeds n s p w :
  malloc os n (st_world s) = (p, w) -> p <> NULL ->
  c_malloc os n s
  = Done p (set_heap os ((p, n) :: st_heap s) (set_world os w s)).
Proof.
  intros H Hp. apply Z.eqb_neq in Hp. unfold c_malloc.
  rewrite (bind_eq _ _ _ _ _ (sys_eq _ _ _ _ H)), Hp. reflexivity.
Qed.

Lemma with_size_locals_of m src size0 size :
  with_size (locals_of m src size0) size = locals_of m src size.
Proof. destruct m; reflexivity. Qed.

Lemma length_resolved_run hProcess kind s m src size sC :
  length_resolved os hProcess kind s m src size sC ->
  st_errors sC = st_errors s /\
  (m = TargetWiderThanCaller ->
   NtWow64ReadVirtualMemory64_set (st_statics sC) = true) /\
  exists l0 sF,
    locate_field os hProcess kind s = Done (inr l0) sF /\
    resolve_length os hProcess kind l0 sF
    = Done (inr (locals_of m src size)) sC.
Proof.
  destruct 1 as [m src size sF Hk Hf
                |m src size0 sF size sP Hk Hm Hf Hp
                |src size0 sF size64 sP Hk Hf Hp].
  - destruct (reaches_field_run _ _ _ _ _ _ _ Hf) as (He & Hs & Hl).
    split; [exact He|]. split; [exact Hs|].
    exists (locals_of m src size), sF. split; [exact Hl|].
    unfold resolve_length. destruct kind; try reflexivity. now elim Hk.
  - destruct (reaches_field_run _ _ _ _ _ _ _ Hf) as (He & Hs & Hl).
    destruct (region_size_Some _ _ _ _ _ Hp) as [Hep Hsp].
    split; [congruence|]. split; [intros F; now elim Hm|].
    exists (locals_of m src size0), sF. split; [exact Hl|].
    unfold resolve_length. rewrite Hk.
    destruct m; try (now elim Hm); cbn [locals_of l_mode l_src];
      rewrite (bind_eq _ _ _ _ _ Hp); reflexivity.
  - destruct (reaches_field_run _ _ _ _ _ _ _ Hf) as (He & Hs & Hl).
    destruct (region_size64_Some _ _ _ _ _ Hp) as [Hep Hsp].
    split; [congruence|]. split; [intros _; exact (Hsp (Hs eq_refl))|].
    exists (locals_of TargetWiderThanCaller src size0), sF.
    split; [exact Hl|].
    unfold resolve_length. rewrite Hk. cbn [locals_of l_mode l_src64].
    rewrite (bind_eq _ _ _ _ _ Hp). reflexivity.
Qed.

Lemma body_fails_in_walk hProcess kind s e sJ :
  locate_field os hProcess kind s = Done (inl e) sJ ->
  process_data_body os hProcess kind s = Done (inl e) sJ.
Proof.
  intros H. unfold process_data_body, bindE.
  rewrite (bind_eq _ _ _ _ _ H). reflexivity.
Qed.

Lemma body_fails_in_probe hProcess kind s l sF e sJ :
  locate_field os hProcess kind s = Done (inr l) sF ->
  resolve_length os hProcess kind l sF = Done (inl e) sJ ->
  process_data_body os hProcess kind s = Done (inl e) sJ.
Proof.
  intros H1 H2. unfold process_data_body, bindE.
  rewrite (bind_eq _ _ _ _ _ H1). cbv beta iota.
  rewrite (bind_eq _ _ _ _ _ H2). reflexivity.
Qed.

Lemma body_fails_in_copy hProcess kind s l0 sF l sC e sJ :
  locate_field os hProcess kind s = Done (inr l0) sF ->
  resolve_length os hProcess kind l0 sF = Done (inr l) sC ->
  copy_region os hProcess l sC = Done (inl e) sJ ->
  process_data_body os hProcess kind s = Done (inl e) sJ.
Proof.
  intros H1 H2 H3. unfold process_data_body, bindE.
  rewrite (bind_eq _ _ _ _ _ H1). cbv beta iota.
  rewrite (bind_eq _ _ _ _ _ H2). cbv beta iota.
  rewrite (bind_eq _ _ _ _ _ H3). reflexivity.
Qed.

(** The step that fails raises its error and jumps to [error:]. *)
Lemma step_fails_body hProcess kind s f :
  step_fails os hProcess kind s f ->
  exists st buf sJ,
    process_data_body os hProcess kind s = Done (inl (st, buf)) sJ /\
    st_errors sJ = error_of f :: st_errors s.
Proof.
  destruct 1 as [s2 w Hwin Hres Hq
                |ok s2 w Hwin Hres Hq
                |ok s2 we w w' Hwin Hres Hwe Hthey
                |ppeb32 sB w Hb Hset Hq
                |ppeb32 sB s3 Hb Hr1
                |ppeb32 sB s3 w Hb Hr1 Hq
                |ppeb32 sB s3 pba w s5 Hb Hr1 Hq Hr2
                |m ppeb sR w Hr Hpeb
                |m ppeb sR pp w w' Hr Hpeb Hp
                |m src size0 sF w Hk Hm Hf Hq
                |src size0 sF s' Hk Hf Hr
                |src size0 sF s' w Hk Hf Hr Hq
                |m src size sC w Hl Hm
                |m src size sC buffer w w' Hl Hm Hb Hrd].
  - (* ProcessWow64Information *)
    destruct (resolve_NtQueryInformationProcess _ _ _ Hres) as [Hset He].
    exists StepBitness, NULL. eexists. split.
    + apply body_fails_in_walk. unfold locate_field.
      rewrite (bind_eq _ _ _ _ _ Hres), Hwin. cbv beta iota.
      rewrite (bind_eq _ _ _ _ _
                 (call_through_eq _ _ _ _ _ Hset (sys_eq _ _ _ _ Hq))).
      reflexivity.
    + cbn. now rewrite He.
  - (* IsWow64Process on ourselves *)
    destruct (resolve_NtQueryInformationProcess _ _ _ Hres) as [_ He].
    exists StepBitness, NULL. eexists. split.
    + apply body_fails_in_walk. unfold locate_field.
      rewrite (bind_eq _ _ _ _ _ Hres), Hwin. cbv beta iota.
      rewrite (bind_eq _ _ _ _ _ (sys_eq _ _ _ _ Hq)).
      reflexivity.
    + cbn. now rewrite He.
  - (* IsWow64Process on the target *)
    destruct (resolve_NtQueryInformationProcess _ _ _ Hres) as [_ He].
    exists StepBitness, NULL. eexists. split.
    + apply body_fails_in_walk. unfold locate_field.
      rewrite (bind_eq _ _ _ _ _ Hres), Hwin. cbv beta iota.
      rewrite (bind_eq _ _ _ _ _ (sys_eq _ _ _ _ Hwe)).
      rewrite (bind_eq _ _ _ _ _
                 (sys_eq (IsWow64Process os (Some hProcess))
                    (set_world os w s2) _ _ Hthey)).
      reflexivity.
    + cbn. now rewrite He.
  - (* ProcessBasicInformation *)
    destruct (bitness_known_run _ kind _ _ _ _ Hb) as [He Hl].
    exists StepBasicInfo, NULL. eexists. split.
    + apply body_fails_in_walk. rewrite Hl. unfold locate_native.
      rewrite (bind_eq _ _ _ _ _
                 (call_through_eq _ _ _ _ _ Hset (sys_eq _ _ _ _ Hq))).
      reflexivity.
    + cbn. now rewrite He.
  - (* NtWow64QueryInformationProcess64 missing *)
    destruct (bitness_known_run _ kind _ _ _ _ Hb) as [He Hl].
    pose proof Hr1 as Hr1'. apply resolve_Done in Hr1'; [|reflexivity].
    destruct Hr1' as (_ & He1 & _).
    exists StepResolve, NULL. eexists. split.
    + apply body_fails_in_walk. rewrite Hl. unfold locate_wider.
      rewrite (bind_eq _ _ _ _ _ Hr1). reflexivity.
    + cbn. now rewrite He1, He.
  - (* ProcessBasicInformation, 64 bit target *)
    destruct (bitness_known_run _ kind _ _ _ _ Hb) as [He Hl].
    pose proof Hr1 as Hr1'. apply resolve_Done in Hr1'; [|reflexivity].
    destruct Hr1' as (_ & He1 & _).
    exists StepBasicInfo, NULL. eexists. split.
    + apply body_fails_in_walk. rewrite Hl. unfold locate_wider.
      rewrite (bind_eq _ _ _ _ _ Hr1). cbn [negb].
      rewrite (bind_eq _ _ _ _ _ (sys_eq _ _ _ _ Hq)). reflexivity.
    + cbn. now rewrite He1, He.
  - (* NtWow64ReadVirtualMemory64 missing *)
    destruct (bitness_known_run _ kind _ _ _ _ Hb) as [He Hl].
    pose proof Hr1 as Hr1'. apply resolve_Done in Hr1'; [|reflexivity].
    destruct Hr1' as (_ & He1 & _).
    pose proof Hr2 as Hr2'. apply resolve_Done in Hr2'; [|reflexivity].
    destruct Hr2' as (_ & He2 & _).
    exists StepResolve, NULL. eexists. split.
    + apply body_fails_in_walk. rewrite Hl. unfold locate_wider.
      rewrite (bind_eq _ _ _ _ _ Hr1). cbn [negb].
      rewrite (bind_eq _ _ _ _ _ (sys_eq _ _ _ _ Hq)).
      rewrite (bind_eq _ _ _ _ _ Hr2). reflexivity.
    + cbn. rewrite He2. cbn. now rewrite He1, He.
  - (* the PEB *)
    destruct (reaches_peb_run _ kind _ _ _ _ Hr) as (He & _ & Hl).
    exists StepReadPeb, NULL. eexists. split.
    + apply body_fails_in_walk. rewrite Hl. unfold read_blocks.
      rewrite (bind_eq _ _ _ _ _ (sys_eq _ _ _ _ Hpeb)). reflexivity.
    + cbn. now rewrite He.
  - (* the process parameters *)
    destruct (reaches_peb_run _ kind _ _ _ _ Hr) as (He & _ & Hl).
    exists StepReadParams, NULL. eexists. split.
    + apply body_fails_in_walk. rewrite Hl. unfold read_blocks.
      rewrite (bind_eq _ _ _ _ _ (sys_eq _ _ _ _ Hpeb)).
      rewrite (bind_eq _ _ _ _ _
                 (sys_eq (read_parameters os (layout_of m) hProcess
                            (address_of os (layout_of m) pp))
                    (set_world os w sR) _ _ Hp)).
      reflexivity.
    + cbn. now rewrite He.
  - (* VirtualQueryEx *)
    destruct (reaches_field_run _ _ _ _ _ _ _ Hf) as (He & _ & Hl).
    exists StepProbe, NULL. eexists. split.
    + apply (body_fails_in_probe _ _ _ _ _ _ _ Hl).
      unfold resolve_length. rewrite Hk.
      destruct m; try (now elim Hm); cbn [locals_of l_mode l_src];
        rewrite (bind_eq _ _ _ _ _ (region_size_fails _ _ _ _ Hq));
        reflexivity.
    + cbn. now rewrite He.
  - (* NtWow64QueryVirtualMemory64 missing *)
    destruct (reaches_field_run _ _ _ _ _ _ _ Hf) as (He & _ & Hl).
    pose proof Hr as Hr'. apply resolve_Done in Hr'; [|reflexivity].
    destruct Hr' as (_ & He1 & _).
    exists StepProbe, NULL. eexists. split.
    + apply (body_fails_in_probe _ _ _ _ _ _ _ Hl).
      unfold resolve_length. rewrite Hk. cbn [locals_of l_mode l_src64].
      rewrite (bind_eq _ _ _ _ _ (region_size64_missing _ _ _ _ Hr)).
      reflexivity.
    + cbn. now rewrite He1, He.
  - (* NtWow64QueryVirtualMemory64 *)
    destruct (reaches_field_run _ _ _ _ _ _ _ Hf) as (He & _ & Hl).
    pose proof Hr as Hr'. apply resolve_Done in Hr'; [|reflexivity].
    destruct Hr' as (_ & He1 & _).
    exists StepProbe, NULL. eexists. split.
    + apply (body_fails_in_probe _ _ _ _ _ _ _ Hl).
      unfold resolve_length. rewrite Hk. cbn [locals_of l_mode l_src64].
      rewrite (bind_eq _ _ _ _ _ (region_size64_fails _ _ _ _ _ Hr Hq)).
      reflexivity.
    + cbn. now rewrite He1, He.
  - (* calloc *)
    destruct (length_resolved_run _ _ _ _ _ _ _ Hl)
      as (He & _ & l0 & sF & Hl0 & Hl1).
    exists StepAlloc, NULL. eexists. split.
    + apply (body_fails_in_copy _ _ _ _ _ _ _ _ _ Hl0 Hl1).
      unfold copy_region.
      replace (l_size (locals_of m src size)) with size
        by (destruct m; reflexivity).
      rewrite (bind_eq _ _ _ _ _ (c_malloc_fails _ _ _ Hm)).
      reflexivity.
    + cbn. now rewrite He.
  - (* the final read *)
    destruct (length_resolved_run _ _ _ _ _ _ _ Hl)
      as (He & Hs & l0 & sF & Hl0 & Hl1).
    pose proof (c_malloc_succeeds _ _ _ _ Hm Hb) as Hc.
    apply Z.eqb_neq in Hb.
    exists StepCopy, buffer. eexists. split.
    + apply (body_fails_in_copy _ _ _ _ _ _ _ _ _ Hl0 Hl1).
      unfold copy_region.
      replace (l_size (locals_of m src size)) with size
        by (destruct m; reflexivity).
      rewrite (bind_eq _ _ _ _ _ Hc), Hb.
      destruct m; cbn [locals_of l_mode l_src l_src64 reader_of] in *.
      * rewrite (bind_eq _ _ _ _ _
                   (sys_eq (read_bytes os ReadProcessMemory hProcess src size)
                      (set_heap os _ (set_world os w sC)) _ _ Hrd)).
        reflexivity.
      * rewrite (bind_eq _ _ _ _ _
                   (sys_eq (read_bytes os ReadProcessMemory hProcess src size)
                      (set_heap os _ (set_world os w sC)) _ _ Hrd)).
        reflexivity.
      * rewrite (bind_eq _ _ _ _ _
                   (call_through_eq _ _
                      (set_heap os _ (set_world os w sC)) _ _ (Hs eq_refl)
                      (sys_eq (read_bytes os NtWow64ReadVirtualMemory64
                                 hProcess src size)
                         (set_heap os _ (set_world os w sC)) _ _ Hrd))).
        reflexivity.
    + cbn. now rewrite He.
Qed.

End StepRuns.

Section StepFails.

Context {os : OS}.
Implicit Types s : state os.

(** From [error:] on: the handle is closed, the buffer is freed, -1 is
    returned, and no error is added. *)
Lemma get_process_data_jump_to_error fuel pid kind pdata psize s h s1
      at_step buf sJ :
  ps__handle_from_pid os fuel (DWORD_of pid) s = Done h s1 ->
  h <> NULL ->
  process_data_body os h kind s1 = Done (inl (at_step, buf)) sJ ->
  exists s',
    ps__get_process_data_steps os fuel pid kind pdata psize s
    = Done (-1, Some at_step, pdata, psize) s' /\
    st_errors s' = st_errors sJ.
Proof.
  intros Ho Hh Hb. rewrite get_process_data_steps_unfold.
  rewrite (bind_eq _ _ _ _ _ Ho). apply Z.eqb_neq in Hh. rewrite Hh.
  rewrite (bind_eq _ _ _ _ _ Hb). cbn [negb].
  unfold close_handle, c_free, bind, sys_, ret.
  destruct (buf =? NULL); cbn [negb]; eexists; split; reflexivity.
Qed.

(** A step that fails after the open. *)
Lemma get_process_data_step_fails fuel pid kind pdata psize s h s1 f :
  ps__handle_from_pid os fuel (DWORD_of pid) s = Done h s1 ->
  h <> NULL ->
  step_fails os h kind s1 f ->
  exists s',
    ps__get_process_data os fuel pid kind pdata psize s
    = Done (-1, pdata, psize) s' /\
    st_handles s' = st_handles s /\
    st_heap s' = st_heap s /\
    st_errors s' = error_of f :: st_errors s1.
Proof.
  intros Ho Hh Hf.
  destruct (step_fails_body _ _ _ _ Hf) as (st & buf & sJ & Hb & He).
  destruct (get_process_data_jump_to_error fuel pid kind pdata psize
              _ _ _ _ _ _ Ho Hh Hb) as (s' & Hs & He').
  exists s'. split.
  - rewrite get_process_data_of_steps, Hs. reflexivity.
  - apply get_process_data_steps_spec in Hs.
    destruct Hs as (Hhs & _ & Hheap & _).
    split; [exact Hhs|]. split; [exact Hheap|]. congruence.
Qed.

(** The open that fails. *)
Lemma get_process_data_after_failed_open fuel pid kind pdata psize s s1 :
  ps__handle_from_pid os fuel (DWORD_of pid) s = Done NULL s1 ->
  ps__get_process_data os fuel pid kind pdata psize s
  = Done (-1, pdata, psize) s1.
Proof.
  intros Ho. rewrite get_process_data_of_steps, get_process_data_steps_unfold.
  rewrite (bind_eq _ _ _ _ _ Ho). reflexivity.
Qed.

(** The two ways a call can end. *)
Lemma get_process_data_codes fuel pid kind pdata psize s
      code pdata' psize' s' :
  ps__get_process_data os fuel pid kind pdata psize s
  = Done (code, pdata', psize') s' ->
  st_handles s' = st_handles s /\
  (code = -1 /\ st_heap s' = st_heap s /\ pdata' = pdata /\ psize' = psize
   \/ code = 0 /\
      st_heap s' = (buf_addr pdata', psize' + 2) :: st_heap s).
Proof.
  intros H. rewrite get_process_data_of_steps in H.
  destruct (ps__get_process_data_steps os fuel pid kind pdata psize s)
    as [[[[code1 failed] pdata1] psize1] s1| |] eqn:Hs; try discriminate.
  injection H as -> -> -> ->.
  apply get_process_data_steps_spec in Hs. destruct Hs as [Hh Hs].
  split; [exact Hh|]. destruct failed as [e|].
  - left. exact Hs.
  - right. destruct Hs as (Hc & _ & Hheap & _). auto.
Qed.

Lemma get_process_data_out_of_fuel fuel pid kind pdata psize s :
  ps__get_process_data os fuel pid kind pdata psize s = OutOfFuel ->
  ps__handle_from_pid os fuel (DWORD_of pid) s = OutOfFuel.
Proof.
  intros H. apply get_process_data_steps_out_of_fuel with kind pdata psize.
  rewrite get_process_data_of_steps in H.
  destruct (ps__get_process_data_steps os fuel pid kind pdata psize s)
    as [[[[code1 failed] pdata1] psize1] s1| |]; [discriminate.. |reflexivity].
Qed.

End StepFails.

Section StepsOfRuns.

Context {os : OS}.
Implicit Types s : state os.

Lemma call_through_Done {A} (get : statics -> bool) (m : M os A) s a s' :
  call_through os get m s = Done a s' ->
  get (st_statics s) = true /\ m s = Done a s'.
Proof.
  unfold call_through. destruct (get (st_statics s)); [auto|discriminate].
Qed.

Lemma raise_goto_Done {A} e at_step buf s (r : step * Z + A) s' :
  bind (raise e) (fun _ => goto_error os at_step buf) s = Done r s' ->
  r = inl (at_step, buf).
Proof. intros H. injection H as <- _. reflexivity. Qed.

Lemma read_blocks_met hProcess kind s m ppeb sR r sJ :
  reaches_peb os hProcess s m ppeb sR ->
  read_blocks os m hProcess ppeb kind sR = Done r sJ ->
  walk_met os hProcess kind s r sJ.
Proof.
  intros Hr H. unfold read_blocks in H.
  apply bind_Done in H. destruct H as (peb & s1 & H1 & H).
  apply sys_Done in H1. destruct H1 as (w & Hpeb & ->).
  destruct peb as [pp|].
  - apply bind_Done in H. destruct H as (params & s2 & H2 & H).
    apply sys_Done in H2. destruct H2 as (w' & Hp & ->).
    cbn [st_world set_world] in Hp.
    destruct params as [p|].
    + right.
      pose proof (field_located os hProcess kind s m ppeb sR pp w p w'
                    Hr Hpeb Hp) as Hf.
      destruct (select_field os (layout_of m) kind p) as [src size].
      exists m, src, size. cbn [fst snd] in Hf.
      apply ret_Done in H. destruct H as [-> ->].
      split; [destruct m; reflexivity|exact Hf].
    + left. apply raise_goto_Done in H. subst r.
      eexists. exists ParametersReadFails. split; [reflexivity|].
      exact (fails_parameters os hProcess kind s m ppeb sR pp w w'
               Hr Hpeb Hp).
  - left. apply raise_goto_Done in H. subst r.
    eexists. exists PebReadFails. split; [reflexivity|].
    exact (fails_peb os hProcess kind s m ppeb sR w Hr Hpeb).
Qed.

Lemma locate_native_met hProcess kind s ppeb32 sB r sJ :
  bitness_known os hProcess s Native ppeb32 sB ->
  locate_native os hProcess kind sB = Done r sJ ->
  walk_met os hProcess kind s r sJ.
Proof.
  intros Hb H. unfold locate_native in H.
  apply bind_Done in H. destruct H as (pbi & s1 & H1 & H).
  apply call_through_Done in H1. destruct H1 as [Hset H1].
  apply sys_Done in H1. destruct H1 as (w & Hq & ->).
  destruct pbi as [pba|].
  - apply read_blocks_met with (2 := H).
    exact (peb_native os hProcess s ppeb32 sB pba w Hb Hset Hq).
  - left. apply raise_goto_Done in H. subst r.
    eexists. exists BasicInformationFails. split; [reflexivity|].
    exact (fails_basic os hProcess kind s ppeb32 sB w Hb Hset Hq).
Qed.

Lemma locate_wider_met hProcess kind s ppeb32 sB r sJ :
  bitness_known os hProcess s TargetWiderThanCaller ppeb32 sB ->
  locate_wider os hProcess kind sB = Done r sJ ->
  walk_met os hProcess kind s r sJ.
Proof.
  intros Hb H. unfold locate_wider in H.
  apply bind_Done in H. destruct H as (ok & s3 & Hr1 & H).
  destruct ok; cbn [negb] in H.
  - apply bind_Done in H. destruct H as (pbi & s4 & H4 & H).
    apply sys_Done in H4. destruct H4 as (w & Hq & ->).
    destruct pbi as [pba|].
    + apply bind_Done in H. destruct H as (ok & s5 & Hr2 & H).
      destruct ok; cbn [negb] in H.
      * apply read_blocks_met with (2 := H).
        exact (peb_wider os hProcess s ppeb32 sB s3 pba w s5 Hb Hr1 Hq Hr2).
      * left. apply raise_goto_Done in H. subst r.
        eexists. exists (EntryPointMissing "NtWow64ReadVirtualMemory64").
        split; [reflexivity|].
        exact (fails_read64_missing os hProcess kind s ppeb32 sB s3 pba w s5
                 Hb Hr1 Hq Hr2).
    + left. apply raise_goto_Done in H. subst r.
      eexists. exists BasicInformationFails. split; [reflexivity|].
      exact (fails_basic64 os hProcess kind s ppeb32 sB s3 w Hb Hr1 Hq).
  - left. apply raise_goto_Done in H. subst r.
    eexists. exists (EntryPointMissing "NtWow64QueryInformationProcess64").
    split; [reflexivity|].
    exact (fails_query64_missing os hProcess kind s ppeb32 sB s3 Hb Hr1).
Qed.

Lemma locate_field_met hProcess kind s r sJ :
  locate_field os hProcess kind s = Done r sJ ->
  walk_met os hProcess kind s r sJ.
Proof.
  intros H. unfold locate_field in H.
  apply bind_Done in H. destruct H as (ok & s2 & Hres & H).
  destruct (WIN64 os) eqn:Hwin.
  - apply bind_Done in H. destruct H as (q & s3 & H3 & H).
    apply call_through_Done in H3. destruct H3 as [Hset H3].
    apply sys_Done in H3. destruct H3 as (w & Hq & ->).
    assert (ok = true) as ->.
    { destruct (resolve_NtQueryInformationProcess _ _ _ Hres) as [E _].
      congruence. }
    destruct q as [ppeb32|].
    + pose proof (known_win64 os hProcess s s2 ppeb32 w Hwin Hres Hq) as Hb.
      destruct (bitness_mode true ppeb32 false false) eqn:Em.
      * exact (locate_native_met _ _ _ _ _ _ _ Hb H).
      * apply read_blocks_met with (2 := H). now apply peb_narrower.
      * unfold bitness_mode in Em.
        destruct (negb (ppeb32 =? NULL)); discriminate.
    + left. apply raise_goto_Done in H. subst r.
      eexists. exists BitnessQueryFails. split; [reflexivity|].
      exact (fails_bitness64 os hProcess kind s s2 w Hwin Hres Hq).
  - apply bind_Done in H. destruct H as (we & s3 & H3 & H).
    apply sys_Done in H3. destruct H3 as (w & Hwe & ->).
    destruct we as [we|].
    + apply bind_Done in H. destruct H as (they & s4 & H4 & H).
      apply sys_Done in H4. destruct H4 as (w' & Hthey & ->).
      cbn [st_world set_world] in Hthey.
      destruct they as [they|].
      * pose proof (known_win32 os hProcess s ok s2 we w they w'
                      Hwin Hres Hwe Hthey) as Hb.
        destruct (bitness_mode false NULL we they) eqn:Em.
        -- exact (locate_native_met _ _ _ _ _ _ _ Hb H).
        -- unfold bitness_mode in Em.
           destruct (we && negb they); discriminate.
        -- exact (locate_wider_met _ _ _ _ _ _ _ Hb H).
      * left. apply raise_goto_Done in H. subst r.
        eexists. exists BitnessQueryFails. split; [reflexivity|].
        exact (fails_bitness_target os hProcess kind s ok s2 we w w'
                 Hwin Hres Hwe Hthey).
    + left. apply raise_goto_Done in H. subst r.
      eexists. exists BitnessQueryFails. split; [reflexivity|].
      exact (fails_bitness_self os hProcess kind s ok s2 w Hwin Hres Hwe).
Qed.

Lemma region_size_None hProcess src s s' :
  ps__get_process_region_size os hProcess src s = Done None s' ->
  exists w, VirtualQueryEx os hProcess src (st_world s) = (None, w).
Proof.
  unfold ps__get_process_region_size. intros H.
  apply bind_Done in H. destruct H as (r & s1 & H1 & H).
  apply sys_Done in H1. destruct H1 as (w & Hq & ->).
  destruct r as [info|]; [|eauto].
  apply ret_Done in H. destruct H as [H _]. discriminate.
Qed.

Lemma region_size64_None hProcess src s s' :
  ps__get_process_region_size64 os hProcess src s = Done None s' ->
  (exists s2,
      resolve os NtWow64QueryVirtualMemory64_set
        set_NtWow64QueryVirtualMemory64 "NtWow64QueryVirtualMemory64" s
      = Done false s2)
  \/ exists s2 w,
       resolve os NtWow64QueryVirtualMemory64_set
         set_NtWow64QueryVirtualMemory64 "NtWow64QueryVirtualMemory64" s
       = Done true s2
       /\ NtWow64QueryVirtualMemory64 os hProcess src (st_world s2)
          = (None, w).
Proof.
  unfold ps__get_process_region_size64. intros H.
  apply bind_Done in H. destruct H as (ok & s2 & Hr & H).
  destruct ok; cbn [negb] in H; [|eauto].
  apply bind_Done in H. destruct H as (r & s3 & H3 & H).
  apply sys_Done in H3. destruct H3 as (w & Hq & ->).
  destruct r as [info|]; [|eauto].
  apply ret_Done in H. destruct H as [H _]. discriminate.
Qed.

Lemma resolve_length_met hProcess kind s m src size0 sF r sJ :
  reaches_field os hProcess kind s m src size0 sF ->
  resolve_length os hProcess kind (locals_of m src size0) sF = Done r sJ ->
  (exists e f, r = inl e /\ step_fails os hProcess kind s f)
  \/ exists size,
       r = inr (locals_of m src size)
       /\ length_resolved os hProcess kind s m src size sJ.
Proof.
  intros Hf H. unfold resolve_length in H.
  destruct kind eqn:Hk.
  1,2: apply ret_Done in H; destruct H as [-> ->]; right; exists size0;
       (split; [reflexivity|]); apply length_known; [discriminate|exact Hf].
  assert (Hcases :
            (m <> TargetWiderThanCaller /\
             exists p s1,
               ps__get_process_region_size os hProcess src sF = Done p s1 /\
               match p with
               | None => ret (inl (StepProbe, NULL)) s1
               | Some size => ret (inr (locals_of m src size)) s1
               end = Done r sJ)
            \/ (m = TargetWiderThanCaller /\
                exists p s1,
                  ps__get_process_region_size64 os hProcess src sF
                  = Done p s1 /\
                  match p with
                  | None => ret (inl (StepProbe, NULL)) s1
                  | Some size64 =>
                      ret (inr (locals_of m src (SIZE_T_of os size64))) s1
                  end = Done r sJ)).
  { destruct m; cbn [locals_of l_mode l_src l_src64] in H;
      apply bind_Done in H; destruct H as (p & s1 & Hp & H).
    - left. split; [discriminate|]. exists p, s1. split; [exact Hp|].
      destruct p; exact H.
    - left. split; [discriminate|]. exists p, s1. split; [exact Hp|].
      destruct p; exact H.
    - right. split; [reflexivity|]. exists p, s1. split; [exact Hp|].
      destruct p; exact H. }
  destruct Hcases as [(Hm & p & s1 & Hp & Hret)|(-> & p & s1 & Hp & Hret)].
  - destruct p as [size|]; apply ret_Done in Hret; destruct Hret as [-> ->].
    + right. exists size. split; [reflexivity|].
      exact (length_probed os hProcess KIND_ENVIRON s m src size0 sF size s1
               eq_refl Hm Hf Hp).
    + left. destruct (region_size_None _ _ _ _ Hp) as (w & Hq).
      eexists. exists RegionQueryFails. split; [reflexivity|].
      exact (fails_region os hProcess KIND_ENVIRON s m src size0 sF w
               eq_refl Hm Hf Hq).
  - destruct p as [size64|]; apply ret_Done in Hret; destruct Hret as [-> ->].
    + right. exists (SIZE_T_of os size64). split; [reflexivity|].
      exact (length_probed64 os hProcess KIND_ENVIRON s src size0 sF size64 s1
               eq_refl Hf Hp).
    + left.
      destruct (region_size64_None _ _ _ _ Hp) as [(s2 & Hr)|(s2 & w & Hr & Hq)].
      * eexists. exists (EntryPointMissing "NtWow64QueryVirtualMemory64").
        split; [reflexivity|].
        exact (fails_region64_missing os hProcess KIND_ENVIRON s src size0 sF
                 s2 eq_refl Hf Hr).
      * eexists. exists RegionQueryFails. split; [reflexivity|].
        exact (fails_region64 os hProcess KIND_ENVIRON s src size0 sF s2 w
                 eq_refl Hf Hr Hq).
Qed.

Lemma l_size_locals_of m src size : l_size (locals_of m src size) = size.
Proof. destruct m; reflexivity. Qed.

Lemma copy_region_met hProcess kind s m src size sC r sJ :
  length_resolved os hProcess kind s m src size sC ->
  copy_region os hProcess (locals_of m src size) sC = Done r sJ ->
  (exists e f, r = inl e /\ step_fails os hProcess kind s f)
  \/ exists b w bs w',
       r = inr b
       /\ malloc os (SIZE_T_of os (size + 2)) (st_world sC) = (buf_addr b, w)
       /\ buf_addr b <> NULL
       /\ read_bytes os (reader_of m) hProcess src size w = (Some bs, w').
Proof.
  intros Hl H. unfold copy_region in H.
  rewrite l_size_locals_of in H.
  apply bind_Done in H. destruct H as (buffer & s1 & Hc & H).
  unfold c_malloc in Hc.
  apply bind_Done in Hc. destruct Hc as (p & s2 & Hm & Hc).
  apply sys_Done in Hm. destruct Hm as (w & Hm & ->).
  destruct (Z.eqb_spec p NULL) as [Ep|Ep].
  - apply ret_Done in Hc. destruct Hc as [-> ->]. subst p.
    cbn [Z.eqb NULL] in H. left. apply raise_goto_Done in H. subst r.
    eexists. exists AllocationFails. split; [reflexivity|].
    exact (fails_alloc os hProcess kind s m src size sC w Hl Hm).
  - injection Hc as <- <-.
    apply Z.eqb_neq in Ep. rewrite Ep in H. apply Z.eqb_neq in Ep.
    apply bind_Done in H. destruct H as (rd & s3 & Hrd & H).
    assert (Hread : exists w',
               read_bytes os (reader_of m) hProcess src size w = (rd, w')).
    { destruct m; cbn [locals_of l_mode l_src l_src64 reader_of] in *.
      - apply sys_Done in Hrd. destruct Hrd as (w' & Hrd & _). eauto.
      - apply sys_Done in Hrd. destruct Hrd as (w' & Hrd & _). eauto.
      - apply call_through_Done in Hrd. destruct Hrd as [_ Hrd].
        apply sys_Done in Hrd. destruct Hrd as (w' & Hrd & _). eauto. }
    destruct Hread as (w' & Hread).
    destruct rd as [bs|].
    + right.
      destruct (store_bytes (SIZE_T_of os (size + 2)) bs) as [bytes|];
        [|discriminate].
      apply ret_Done in H. destruct H as [-> _].
      eexists. exists w, bs, w'. split; [reflexivity|].
      cbn [buf_addr]. auto.
    + left. apply raise_goto_Done in H. subst r.
      eexists. exists CopyFails. split; [reflexivity|].
      exact (fails_copy os hProcess kind s m src size sC p w w'
               Hl Hm Ep Hread).
Qed.

(** A walk that jumped to [error:] met a step that failed; one that went
    through got an answer at every step. *)
Lemma process_data_body_met hProcess kind s r sJ :
  process_data_body os hProcess kind s = Done r sJ ->
  match r with
  | inl _ => exists f, step_fails os hProcess kind s f
  | inr (b, size) =>
      exists m src sC w bs w',
        length_resolved os hProcess kind s m src size sC
        /\ malloc os (SIZE_T_of os (size + 2)) (st_world sC)
           = (buf_addr b, w)
        /\ buf_addr b <> NULL
        /\ read_bytes os (reader_of m) hProcess src size w = (Some bs, w')
  end.
Proof.
  intros H. unfold process_data_body, bindE in H.
  apply bind_Done in H. destruct H as (r1 & s1 & H1 & H).
  apply locate_field_met in H1.
  destruct H1 as [(e & f & -> & Hf)|(m & src & size0 & -> & Hf)].
  { apply ret_Done in H. destruct H as [-> _]. eauto. }
  apply bind_Done in H. destruct H as (r2 & s2 & H2 & H).
  apply (resolve_length_met _ _ _ _ _ _ _ _ _ Hf) in H2.
  destruct H2 as [(e & f & -> & Hf2)|(size & -> & Hl)].
  { apply ret_Done in H. destruct H as [-> _]. eauto. }
  apply bind_Done in H. destruct H as (r3 & s3 & H3 & H).
  apply (copy_region_met _ _ _ _ _ _ _ _ _ Hl) in H3.
  destruct H3 as [(e & f & -> & Hf3)|(b & w & bs & w' & -> & Hm & Hb & Hrd)].
  { apply ret_Done in H. destruct H as [-> _]. eauto. }
  apply ret_Done in H. destruct H as [-> _].
  rewrite l_size_locals_of. exists m, src, s2, w, bs, w'. auto.
Qed.

(** After an open that succeeded: -1 comes from a step that failed, 0 from
    a call in which every step got its answer. *)
Lemma get_process_data_met fuel pid kind pdata psize s h s1
      code pdata' psize' s' :
  ps__handle_from_pid os fuel (DWORD_of pid) s = Done h s1 ->
  h <> NULL ->
  ps__get_process_data os fuel pid kind pdata psize s
  = Done (code, pdata', psize') s' ->
  (code = -1 -> exists f, step_fails os h kind s1 f) /\
  (code = 0 ->
   exists m src sC w bs w',
     length_resolved os h kind s1 m src psize' sC
     /\ malloc os (SIZE_T_of os (psize' + 2)) (st_world sC)
        = (buf_addr pdata', w)
     /\ buf_addr pdata' <> NULL
     /\ read_bytes os (reader_of m) h src psize' w = (Some bs, w')).
Proof.
  intros Ho Hh H.
  rewrite get_process_data_of_steps, get_process_data_steps_unfold in H.
  rewrite (bind_eq _ _ _ _ _ Ho) in H.
  apply Z.eqb_neq in Hh. rewrite Hh in H.
  destruct (bind (process_data_body os h kind) _ s1)
    as [[[[code1 failed] pdata1] psize1] s2| |] eqn:Hs; try discriminate.
  injection H as -> -> -> ->.
  apply bind_Done in Hs. destruct Hs as (r & sJ & Hb & Hs).
  apply process_data_body_met in Hb.
  destruct r as [[at_step buf]|[b size]].
  - apply bind_Done in Hs. destruct Hs as (u1 & s3 & _ & Hs).
    apply bind_Done in Hs. destruct Hs as (u2 & s4 & _ & Hs).
    apply ret_Done in Hs. destruct Hs as [E _]. injection E as -> _ _ _.
    split; [intros _; exact Hb|discriminate].
  - apply bind_Done in Hs. destruct Hs as (u1 & s3 & _ & Hs).
    apply ret_Done in Hs. destruct Hs as [E _]. injection E as -> _ -> ->.
    split; [discriminate|intros _; exact Hb].
Qed.

End StepsOfRuns.

(** C2. Whatever step of [ps__get_process_data] fails, the call returns -1
    with the process handle closed, the buffer freed and [*pdata] and
    [*psize] as they were.  The open fails when [ps__handle_from_pid]
    returns NULL.  After it a step fails ([step_fails]) when the system
    refuses the bitness query, the basic-information query, the read of
    the PEB, the read of the process parameters, the region query, the
    allocation or the final copy, or lacks an entry point the call looks
    up and tests, every step before that one having got its answer.  A
    finished call returns -1 or 0, and [*pdata] and [*psize] are written
    on the path that returns 0 only; after an open that succeeded, -1 is
    returned only when one of these steps failed, and 0 only when the
    length was resolved, the buffer allocated and the copy done.  The
    call can run out of loop budget only inside the open, and does not
    when the budget covers the live identifiers. *)
Theorem get_process_data_failure_releases :
  forall (os : OS) fuel pid kind pdata psize (s : state os),
    (forall h s1,
        ps__handle_from_pid os fuel (DWORD_of pid) s = Done h s1 ->
        (h = NULL ->
         ps__get_process_data os fuel pid kind pdata psize s
         = Done (-1, pdata, psize) s1
         /\ st_handles s1 = st_handles s /\ st_heap s1 = st_heap s) /\
        (h <> NULL ->
         st_handles s1 = h :: st_handles s /\
         (forall f,
             step_fails os h kind s1 f ->
             exists s',
               ps__get_process_data os fuel pid kind pdata psize s
               = Done (-1, pdata, psize) s'
               /\ st_handles s' = st_handles s
               /\ st_heap s' = st_heap s) /\
         (forall code pdata' psize' s',
             ps__get_process_data os fuel pid kind pdata psize s
             = Done (code, pdata', psize') s' ->
             (code = -1 -> exists f, step_fails os h kind s1 f) /\
             (code = 0 ->
              exists m src sC w bs w',
                length_resolved os h kind s1 m src psize' sC
                /\ malloc os (SIZE_T_of os (psize' + 2)) (st_world sC)
                   = (buf_addr pdata', w)
                /\ buf_addr pdata' <> NULL
                /\ read_bytes os (reader_of m) h src psize' w
                   = (Some bs, w')))))
    /\ (forall code pdata' psize' s',
           ps__get_process_data os fuel pid kind pdata psize s
           = Done (code, pdata', psize') s' ->
           st_handles s' = st_handles s /\
           (code = -1 /\ st_heap s' = st_heap s /\
            pdata' = pdata /\ psize' = psize
            \/ code = 0 /\
               st_heap s' = (buf_addr pdata', psize' + 2) :: st_heap s))
    /\ (ps__get_process_data os fuel pid kind pdata psize s = OutOfFuel
        -> ps__handle_from_pid os fuel (DWORD_of pid) s = OutOfFuel)
    /\ forall N,
        0 <= N ->
        N + 1024 < 2 ^ 30 ->
        (forall w pids w',
            live_pids os w = (Some pids, w') ->
            Z.of_nat (length pids) <= N) ->
        N / 1024 < Z.of_nat fuel ->
        ps__get_process_data os fuel pid kind pdata psize s <> OutOfFuel.
Proof.
  intros os fuel pid kind pdata psize s. split; [|split; [|split]].
  - intros h s1 Ho.
    pose proof (handle_from_pid_resources _ _ _ _ _ Ho) as (Hp & Hn & Hh).
    split.
    + intros ->. split; [|auto].
      now apply get_process_data_after_failed_open.
    + intros Hne. split; [auto|]. split.
      * intros f Hf.
        destruct (get_process_data_step_fails fuel pid kind pdata psize
                    _ _ _ _ Ho Hne Hf) as (s' & Hr & Hhs & Hheap & _).
        exists s'. auto.
      * intros code pdata' psize' s'.
        exact (get_process_data_met fuel pid kind pdata psize _ _ _
                 code pdata' psize' s' Ho Hne).
  - intros code pdata' psize' s'. apply get_process_data_codes.
  - apply get_process_data_out_of_fuel.
  - intros N HN HN' Hb Hfuel H.
    apply get_process_data_out_of_fuel in H.
    destruct (handle_from_pid_returns N HN HN' Hb fuel Hfuel (DWORD_of pid) s)
      as (h & s' & Hr).
    congruence.
Qed.

Lemma get_process_data_failure_releases_witness :
  (exists s',
      ps__get_process_data (sim_os sim_unreadable_peb) 1 1234 KIND_CWD
        null_buffer 0 (sim_state sim_unreadable_peb)
      = Done (-1, null_buffer, 0) s'
      /\ st_handles s' = st_handles (sim_state sim_unreadable_peb)
      /\ st_heap s' = st_heap (sim_state sim_unreadable_peb))
  /\ ps__get_process_data (sim_os sim_small_heap) 1 1234 KIND_CWD
       null_buffer 0 (sim_state sim_small_heap)
     <> OutOfFuel.
Proof.
  split.
  - pose (c := sim_unreadable_peb).
    pose (s1 := set_handles (sim_os c) [0x1F4] (sim_state c)).
    pose (s2 := set_statics (sim_os c)
                  (set_NtQueryInformationProcess true statics0)
                  (set_world (sim_os c) (0x10000 : World (sim_os c)) s1)).
    refine (proj1 (proj2 (proj2 (proj1 (get_process_data_failure_releases
                                          (sim_os c) 1 1234 KIND_CWD
                                          null_buffer 0 (sim_state c))
                                   0x1F4 s1 _) _))
              PebReadFails _).
    + reflexivity.
    + discriminate.
    + refine (fails_peb (sim_os c) 0x1F4 KIND_CWD s1 Native
                (address_of (sim_os c) LayoutNative 0x7000)
                (set_world (sim_os c) (0x10000 : World (sim_os c))
                   (set_world (sim_os c) (0x10000 : World (sim_os c)) s2))
                (0x10000 : World (sim_os c)) _ _).
      * refine (peb_native (sim_os c) 0x1F4 s1 NULL
                  (set_world (sim_os c) (0x10000 : World (sim_os c)) s2)
                  0x7000 (0x10000 : World (sim_os c)) _ _ _).
        -- exact (known_win64 (sim_os c) 0x1F4 s1 s2 NULL
                    (0x10000 : World (sim_os c))
                    eq_refl eq_refl eq_refl).
        -- reflexivity.
        -- reflexivity.
      * reflexivity.
  - refine (proj2 (proj2 (proj2 (get_process_data_failure_releases
                                   (sim_os sim_small_heap) 1 1234 KIND_CWD
                                   null_buffer 0 (sim_state sim_small_heap))))
              3 _ _ _ _).
    + discriminate.
    + reflexivity.
    + intros w pids w' H.
      assert (E : Some [0; 4; 1234] = Some pids) by exact (f_equal fst H).
      injection E as <-. discriminate.
    + reflexivity.
Defined.

(** The query for ProcessWow64Information is refused. *)
Example get_process_data_bitness_fails :
  result_of
    (ps__get_process_data (sim_os sim_no_bitness) 1 1234 KIND_CMDLINE
       null_buffer 0 (sim_state sim_no_bitness))
  = Some (-1, null_buffer, 0)
  /\ resources_of
       (ps__get_process_data (sim_os sim_no_bitness) 1 1234 KIND_CMDLINE
          null_buffer 0 (sim_state sim_no_bitness))
     = Some ([], [], [WindowsError]).
Proof. split; vm_compute; reflexivity. Qed.

(** The query for ProcessBasicInformation is refused. *)
Example get_process_data_basic_information_fails :
  result_of
    (ps__get_process_data (sim_os sim_no_basic_information) 1 1234
       KIND_CMDLINE null_buffer 0 (sim_state sim_no_basic_information))
  = Some (-1, null_buffer, 0)
  /\ resources_of
       (ps__get_process_data (sim_os sim_no_basic_information) 1 1234
          KIND_CMDLINE null_buffer 0 (sim_state sim_no_basic_information))
     = Some ([], [], [WindowsError]).
Proof. split; vm_compute; reflexivity. Qed.

(** The PEB cannot be read. *)
Example get_process_data_peb_read_fails :
  result_of
    (ps__get_process_data (sim_os sim_unreadable_peb) 1 1234 KIND_CWD
       null_buffer 0 (sim_state sim_unreadable_peb))
  = Some (-1, null_buffer, 0)
  /\ resources_of
       (ps__get_process_data (sim_os sim_unreadable_peb) 1 1234 KIND_CWD
          null_buffer 0 (sim_state sim_unreadable_peb))
     = Some ([], [], [WindowsError]).
Proof. split; vm_compute; reflexivity. Qed.

(** The process parameters cannot be read. *)
Example get_process_data_parameters_read_fails :
  result_of
    (ps__get_process_data (sim_os sim_unreadable_parameters) 1 1234
       KIND_ENVIRON null_buffer 0 (sim_state sim_unreadable_parameters))
  = Some (-1, null_buffer, 0)
  /\ resources_of
       (ps__get_process_data (sim_os sim_unreadable_parameters) 1 1234
          KIND_ENVIRON null_buffer 0 (sim_state sim_unreadable_parameters))
     = Some ([], [], [WindowsError]).
Proof. split; vm_compute; reflexivity. Qed.

(** The region of the environment block cannot be queried. *)
Example get_process_data_region_query_fails :
  result_of
    (ps__get_process_data (sim_os sim_no_region) 1 1234 KIND_ENVIRON
       null_buffer 0 (sim_state sim_no_region))
  = Some (-1, null_buffer, 0)
  /\ resources_of
       (ps__get_process_data (sim_os sim_no_region) 1 1234 KIND_ENVIRON
          null_buffer 0 (sim_state sim_no_region))
     = Some ([], [], [WindowsError]).
Proof. split; vm_compute; reflexivity. Qed.

(** A 32 bit build: IsWow64Process fails for the target. *)
Example get_process_data_bitness32_fails :
  result_of
    (ps__get_process_data (sim_os sim_no_bitness32) 1 1234 KIND_CMDLINE
       null_buffer 0 (sim_state sim_no_bitness32))
  = Some (-1, null_buffer, 0)
  /\ resources_of
       (ps__get_process_data (sim_os sim_no_bitness32) 1 1234 KIND_CMDLINE
          null_buffer 0 (sim_state sim_no_bitness32))
     = Some ([], [], [WindowsError]).
Proof. split; vm_compute; reflexivity. Qed.

(** A 32 bit build looking at a 64 bit process: ntdll.dll has no
    NtWow64QueryInformationProcess64. *)
Example get_process_data_entry_point_missing :
  result_of
    (ps__get_process_data (sim_os sim_wow64_no_ntdll) 1 1234 KIND_CMDLINE
       null_buffer 0 (sim_state sim_wow64_no_ntdll))
  = Some (-1, null_buffer, 0)
  /\ resources_of
       (ps__get_process_data (sim_os sim_wow64_no_ntdll) 1 1234 KIND_CMDLINE
          null_buffer 0 (sim_state sim_wow64_no_ntdll))
     = Some ([], [],
             [PsError "NtWow64QueryInformationProcess64 missing"]).
Proof. split; vm_compute; reflexivity. Qed.

(** A 32 bit build looking at a 64 bit process whose PEB cannot be read. *)
Example get_process_data_peb64_read_fails :
  result_of
    (ps__get_process_data (sim_os sim_wow64_unreadable_peb) 1 1234 KIND_CWD
       null_buffer 0 (sim_state sim_wow64_unreadable_peb))
  = Some (-1, null_buffer, 0)
  /\ resources_of
       (ps__get_process_data (sim_os sim_wow64_unreadable_peb) 1 1234
          KIND_CWD null_buffer 0 (sim_state sim_wow64_unreadable_peb))
     = Some ([], [], [WindowsError]).
Proof. split; vm_compute; reflexivity. Qed.

(** The allocation fails: -1, nothing open, nothing allocated. *)
Example get_process_data_allocation_fails :
  result_of
    (ps__get_process_data_steps (sim_os sim_small_heap) 1 1234 KIND_CWD
       null_buffer 0 (sim_state sim_small_heap))
  = Some (-1, Some StepAlloc, null_buffer, 0)
  /\ resources_of
       (ps__get_process_data_steps (sim_os sim_small_heap) 1 1234 KIND_CWD
          null_buffer 0 (sim_state sim_small_heap))
     = Some ([], [], [NoMemory]).
Proof. split; vm_compute; reflexivity. Qed.

(** The final copy fails after the buffer was allocated: the buffer is
    freed again. *)
Example get_process_data_copy_fails :
  result_of
    (ps__get_process_data_steps (sim_os sim_long_region) 1 1234 KIND_ENVIRON
       null_buffer 0 (sim_state sim_long_region))
  = Some (-1, Some StepCopy, null_buffer, 0)
  /\ resources_of
       (ps__get_process_data_steps (sim_os sim_long_region) 1 1234
          KIND_ENVIRON null_buffer 0 (sim_state sim_long_region))
     = Some ([], [], [WindowsError]).
Proof. split; vm_compute; reflexivity. Qed.

(** The open fails: the target has exited and the membership test cannot
    allocate its array. *)
Example get_process_data_open_fails :
  result_of
    (ps__get_process_data_steps (sim_os sim_exited_no_memory) 1 1234 KIND_CWD
       null_buffer 0 (sim_state sim_exited_no_memory))
  = Some (-1, Some StepOpen, null_buffer, 0)
  /\ resources_of
       (ps__get_process_data_steps (sim_os sim_exited_no_memory) 1 1234
          KIND_CWD null_buffer 0 (sim_state sim_exited_no_memory))
     = Some ([], [], [NoSuchProcess 1234; NoMemory]).
Proof. split; vm_compute; reflexivity. Qed.

(** C3. After a successful call with resolved length [L = *psize] the
    buffer handed over is a block of exactly [L + 2] bytes: the [L] bytes
    one remote read delivered, followed by two zero bytes.  For the command
    line and the working directory [L] is the 16 bit length in the
    parameters structure read from the target; for the environment it is
    the length a region probe returned. *)
Theorem get_process_data_buffer_size :
  forall (os : OS) fuel pid kind pdata psize (s : state os) pdata' L s',
    ps__get_process_data os fuel pid kind pdata psize s
    = Done (0, pdata', L) s' ->
    0 <= L /\
    Z.of_nat (length (buf_bytes pdata')) = L + 2 /\
    st_heap s' = (buf_addr pdata', L + 2) :: st_heap s /\
    (kind <> KIND_ENVIRON ->
     L < 2 ^ 16 /\
     exists lay h a w w' p,
       read_parameters os lay h a w = (Some p, w')
       /\ L = USHORT_of (Length (match kind with
                                 | KIND_CWD => CurrentDirectoryPath p
                                 | _ => CommandLine p
                                 end))) /\
    (kind = KIND_ENVIRON ->
     (exists h src s0 s1,
         ps__get_process_region_size os h src s0 = Done (Some L) s1)
     \/ (exists h src64 size64 s0 s1,
            ps__get_process_region_size64 os h src64 s0
            = Done (Some size64) s1
            /\ L = SIZE_T_of os size64)) /\
    exists bs,
      (exists rd h src w w', read_bytes os rd h src L w = (Some bs, w')) /\
      Z.of_nat (length bs) = L /\
      buf_bytes pdata' = bs ++ [0; 0].
Proof.
  intros os fuel pid kind pdata psize s pdata' L s' H.
  rewrite get_process_data_of_steps in H.
  destruct (ps__get_process_data_steps os fuel pid kind pdata psize s)
    as [[[[code failed] pdata1] psize1] s1| |] eqn:Hs; try discriminate.
  injection H as -> -> -> ->.
  apply get_process_data_steps_spec in Hs. destruct Hs as [_ Hs].
  destruct failed as [e|]; [destruct Hs as [F _]; discriminate|].
  destruct Hs as (_ & _ & Hheap & Hk & He & bs & Hrd & Hlen & Hbytes).
  split; [lia|]. split.
  { rewrite Hbytes, length_app. cbn [length]. lia. }
  split; [exact Hheap|]. split; [|split; [exact He|]].
  - intros Hkind. destruct (Hk Hkind) as (lay & h & a & w & w' & p & Hp & ->).
    split; [apply select_field_known; exact Hkind|].
    exists lay, h, a, w, w', p. split; [exact Hp|].
    destruct kind; [reflexivity|reflexivity|contradiction].
  - exists bs. auto.
Qed.

Lemma get_process_data_buffer_size_witness :
  0 <= 6 /\
  Z.of_nat (length [67; 0; 58; 0; 92; 0; 0; 0]) = 6 + 2 /\
  st_heap
    (set_heap (sim_os sim_native) [(0x10000, 8)]
       (set_world (sim_os sim_native) (0x10000 + 8 + 16)
          (set_statics (sim_os sim_native)
             (set_NtQueryInformationProcess true statics0)
             (sim_state sim_native))))
  = (0x10000, 6 + 2) :: st_heap (sim_state sim_native) /\
  (KIND_CWD <> KIND_ENVIRON ->
   6 < 2 ^ 16 /\
   exists lay h a w w' p,
     read_parameters (sim_os sim_native) lay h a w = (Some p, w')
     /\ 6 = USHORT_of (Length (CurrentDirectoryPath p))) /\
  (KIND_CWD = KIND_ENVIRON ->
   (exists h src s0 s1,
       ps__get_process_region_size (sim_os sim_native) h src s0
       = Done (Some 6) s1)
   \/ (exists h src64 size64 s0 s1,
          ps__get_process_region_size64 (sim_os sim_native) h src64 s0
          = Done (Some size64) s1
          /\ 6 = SIZE_T_of (sim_os sim_native) size64)) /\
  exists bs,
    (exists rd h src w w',
        read_bytes (sim_os sim_native) rd h src 6 w = (Some bs, w')) /\
    Z.of_nat (length bs) = 6 /\
    [67; 0; 58; 0; 92; 0; 0; 0] = bs ++ [0; 0].
Proof.
  refine (get_process_data_buffer_size (sim_os sim_native) 5 1234 KIND_CWD
            null_buffer 0 (sim_state sim_native)
            {| buf_addr := 0x10000;
               buf_bytes := [67; 0; 58; 0; 92; 0; 0; 0] |}
            6 _ _).
  reflexivity.
Defined.

(** ** C6: pid 0 *)

(** C6. For every access mask, [ps__handle_from_pid_waccess] called with
    pid 0 returns NULL and reports AccessDenied; nothing else happens: the
    system is not called (the world is the same), no handle is opened, and
    the one error raised is AccessDenied, not NoSuchProcess. *)
Theorem handle_from_pid_zero_access_denied :
  forall (os : OS) fuel dwDesiredAccess (s : state os),
    ps__handle_from_pid_waccess os fuel 0 dwDesiredAccess s
    = Done NULL (set_errors os (AccessDenied :: st_errors s) s)
    /\ st_world (set_errors os (AccessDenied :: st_errors s) s) = st_world s
    /\ st_handles (set_errors os (AccessDenied :: st_errors s) s)
       = st_handles s
    /\ st_errors (set_errors os (AccessDenied :: st_errors s) s)
       = AccessDenied :: st_errors s.
Proof. intros os fuel access s. repeat split. Qed.

(** ** C10: a membership test that fails *)

(** C10. In [ps__is_phandle_running], once the exit code was read and is
    not STILL_ACTIVE, only the answer 1 of the membership test keeps the
    handle and reports "running"; every other answer, the error -1 as well
    as the definite 0, closes the handle and reports "not running" (0), so
    that [ps__check_phandle] raises NoSuchProcess and not a Windows error. *)
Theorem is_phandle_running_membership_error :
  forall (os : OS) fuel hProcess pid (s : state os) code w m s2,
    hProcess <> NULL ->
    GetExitCodeProcess os hProcess (st_world s) = (Some code, w) ->
    code <> STILL_ACTIVE ->
    ps__pid_in_pids os fuel pid (set_world os w s) = Done m s2 ->
    let closed :=
      set_handles os (remove_first hProcess (st_handles s2))
        (set_world os (CloseHandle os hProcess (st_world s2)) s2) in
    (m = 1 ->
     ps__is_phandle_running os fuel hProcess pid s = Done 1 s2
     /\ st_handles s2 = st_handles s) /\
    (m <> 1 ->
     ps__is_phandle_running os fuel hProcess pid s = Done 0 closed
     /\ ps__check_phandle os fuel hProcess pid s
        = Done NULL (set_errors os (NoSuchProcess pid :: st_errors closed)
                       closed)).
Proof.
  intros os fuel hProcess pid s code w m s2 Hh Hx Hc Hm closed.
  assert (Hrun : ps__is_phandle_running os fuel hProcess pid s
                 = if m =? 1 then Done 1 s2 else Done 0 closed).
  { unfold ps__is_phandle_running.
    apply Z.eqb_neq in Hh. rewrite Hh.
    rewrite (bind_eq _ _ _ _ _ (sys_eq _ _ _ _ Hx)).
    apply Z.eqb_neq in Hc. rewrite Hc.
    rewrite (bind_eq _ _ _ _ _ Hm).
    destruct (m =? 1); reflexivity. }
  split; intros Em.
  - subst m. split; [exact Hrun|].
    apply pid_in_pids_resources in Hm. now destruct Hm.
  - apply Z.eqb_neq in Em. rewrite Em in Hrun. split; [exact Hrun|].
    unfold ps__check_phandle. rewrite (bind_eq _ _ _ _ _ Hrun). reflexivity.
Qed.

Lemma is_phandle_running_membership_error_witness :
  ps__check_phandle (sim_os sim_exited_no_memory) 3 0x1F4 1234
    (sim_state sim_exited_no_memory)
  = Done NULL
      (set_errors (sim_os sim_exited_no_memory)
         [NoSuchProcess 1234; NoMemory] (sim_state sim_exited_no_memory)).
Proof.
  refine (proj2 (proj2 (is_phandle_running_membership_error
            (sim_os sim_exited_no_memory) 3 0x1F4 1234
            (sim_state sim_exited_no_memory) 0 0x10000 (-1)
            (set_errors (sim_os sim_exited_no_memory) [NoMemory]
               (sim_state sim_exited_no_memory))
            _ _ _ _) _)).
  - discriminate.
  - reflexivity.
  - discriminate.
  - reflexivity.
  - discriminate.
Defined.

(** ** C4: the resolved length *)

Section Probe.

Context {os : OS}.
Implicit Types s : state os.

Lemma region_size_exact R src B :
  0 <= B <= src -> src < 2 ^ ptr_bits os ->
  src - B <= R -> R < 2 ^ ptr_bits os ->
  SIZE_T_of os (SIZE_T_of os R - (src - SIZE_T_of os B)) = R - (src - B).
Proof.
  intros HB Hsrc HR HR'. unfold SIZE_T_of.
  rewrite (Z.mod_small R) by lia. rewrite (Z.mod_small B) by lia.
  apply Z.mod_small. lia.
Qed.

Lemma region_size64_exact R src B :
  0 <= B <= src -> src - B < 2 ^ 32 ->
  src - B <= R -> R < 2 ^ 64 ->
  ULONG64_of (ULONG64_of R - DWORD_of (DWORD_of src - DWORD_of B))
  = R - (src - B).
Proof.
  intros HB Hoff HR HR'. unfold ULONG64_of, DWORD_of.
  rewrite <- Zminus_mod. rewrite (Z.mod_small (src - B)) by lia.
  rewrite (Z.mod_small R) by lia. apply Z.mod_small. lia.
Qed.

End Probe.

(** C4 (amended).  Only the environment is probed.  For the command line
    and the working directory the probe step does nothing and the length
    is the 16 bit [Length] of the parameters structure.  For the
    environment, when the region reported contains the start address, a
    same-width or narrower target gets exactly
    [RegionSize - (start - BaseAddress)]; a wider target gets that
    difference cut to the caller's [SIZE_T]. *)
Theorem resolve_length_probe :
  forall (os : OS) hProcess kind l (s : state os),
    (kind <> KIND_ENVIRON ->
     resolve_length os hProcess kind l s = Done (inr l) s
     /\ forall lay p,
         snd (select_field os lay kind p)
         = USHORT_of (Length (match kind with
                              | KIND_CWD => CurrentDirectoryPath p
                              | _ => CommandLine p
                              end)))
    /\ (kind = KIND_ENVIRON ->
        l_mode l <> TargetWiderThanCaller ->
        forall info w,
          VirtualQueryEx os hProcess (l_src l) (st_world s) = (Some info, w) ->
          0 <= BaseAddress info <= l_src l ->
          l_src l < 2 ^ ptr_bits os ->
          l_src l - BaseAddress info <= RegionSize info ->
          RegionSize info < 2 ^ ptr_bits os ->
          resolve_length os hProcess kind l s
          = Done (inr (with_size l
                         (RegionSize info - (l_src l - BaseAddress info))))
              (set_world os w s))
    /\ (kind = KIND_ENVIRON ->
        l_mode l = TargetWiderThanCaller ->
        forall s1 info w,
          resolve os NtWow64QueryVirtualMemory64_set
            set_NtWow64QueryVirtualMemory64 "NtWow64QueryVirtualMemory64" s
          = Done true s1 ->
          NtWow64QueryVirtualMemory64 os hProcess (l_src64 l) (st_world s1)
          = (Some info, w) ->
          0 <= BaseAddress info <= l_src64 l ->
          l_src64 l - BaseAddress info < 2 ^ 32 ->
          l_src64 l - BaseAddress info <= RegionSize info ->
          RegionSize info < 2 ^ 64 ->
          resolve_length os hProcess kind l s
          = Done (inr (with_size l
                         (SIZE_T_of os
                            (RegionSize info
                             - (l_src64 l - BaseAddress info)))))
              (set_world os w s1)).
Proof.
  intros os hProcess kind l s. split; [|split].
  - intros Hk. split.
    + destruct kind; [reflexivity|reflexivity|contradiction].
    + intros lay p. destruct kind; [reflexivity|reflexivity|contradiction].
  - intros -> Hmode info w Hq HB Hsrc HR HR'.
    assert (Hprobe : ps__get_process_region_size os hProcess (l_src l) s
                     = Done (Some (RegionSize info
                                   - (l_src l - BaseAddress info)))
                         (set_world os w s)).
    { unfold ps__get_process_region_size.
      rewrite (bind_eq _ _ _ _ _ (sys_eq _ _ _ _ Hq)).
      unfold ret. now rewrite region_size_exact. }
    unfold resolve_length.
    destruct (l_mode l); try (now elim Hmode);
      now rewrite (bind_eq _ _ _ _ _ Hprobe).
  - intros -> Hmode s1 info w Hres Hq HB Hoff HR HR'.
    assert (Hprobe : ps__get_process_region_size64 os hProcess (l_src64 l) s
                     = Done (Some (RegionSize info
                                   - (l_src64 l - BaseAddress info)))
                         (set_world os w s1)).
    { unfold ps__get_process_region_size64.
      rewrite (bind_eq _ _ _ _ _ Hres). cbn [negb].
      rewrite (bind_eq _ _ _ _ _ (sys_eq _ _ _ _ Hq)).
      unfold ret. now rewrite region_size64_exact. }
    unfold resolve_length. rewrite Hmode.
    now rewrite (bind_eq _ _ _ _ _ Hprobe).
Qed.

Lemma resolve_length_probe_witness :
  resolve_length (sim_os sim_native) 0x1F4 KIND_ENVIRON
    {| l_mode := Native; l_src := 0xA010; l_src64 := NULL; l_size := 0 |}
    (sim_state sim_native)
  = Done (inr {| l_mode := Native; l_src := 0xA010; l_src64 := NULL;
                 l_size := 16 |})
      (sim_state sim_native)
  /\ resolve_length (sim_os sim_wow64) 0x1F4 KIND_ENVIRON
       {| l_mode := TargetWiderThanCaller; l_src := NULL; l_src64 := 0xA010;
          l_size := 0 |}
       (sim_state sim_wow64)
     = Done (inr {| l_mode := TargetWiderThanCaller; l_src := NULL;
                    l_src64 := 0xA010; l_size := 16 |})
         (set_statics (sim_os sim_wow64)
            (set_NtWow64QueryVirtualMemory64 true statics0)
            (sim_state sim_wow64))
  /\ resolve_length (sim_os sim_native) 0x1F4 KIND_CWD
       {| l_mode := Native; l_src := 0x9000; l_src64 := NULL; l_size := 6 |}
       (sim_state sim_native)
     = Done (inr {| l_mode := Native; l_src := 0x9000; l_src64 := NULL;
                    l_size := 6 |})
         (sim_state sim_native).
Proof.
  split; [|split].
  - refine (proj1 (proj2 (resolve_length_probe (sim_os sim_native) 0x1F4
              KIND_ENVIRON
              {| l_mode := Native; l_src := 0xA010; l_src64 := NULL;
                 l_size := 0 |}
              (sim_state sim_native)))
              eq_refl _ {| BaseAddress := 0xA000; RegionSize := 32 |}
              0x10000 eq_refl _ _ _ _).
    + discriminate.
    + split; discriminate.
    + reflexivity.
    + discriminate.
    + reflexivity.
  - refine (proj2 (proj2 (resolve_length_probe (sim_os sim_wow64) 0x1F4
              KIND_ENVIRON
              {| l_mode := TargetWiderThanCaller; l_src := NULL;
                 l_src64 := 0xA010; l_size := 0 |}
              (sim_state sim_wow64)))
              eq_refl eq_refl
              (set_statics (sim_os sim_wow64)
                 (set_NtWow64QueryVirtualMemory64 true statics0)
                 (sim_state sim_wow64))
              {| BaseAddress := 0xA000; RegionSize := 2 ^ 32 + 32 |}
              0x10000 eq_refl eq_refl _ _ _ _).
    + split; discriminate.
    + reflexivity.
    + discriminate.
    + reflexivity.
  - refine (proj1 (proj1 (resolve_length_probe (sim_os sim_native) 0x1F4
              KIND_CWD
              {| l_mode := Native; l_src := 0x9000; l_src64 := NULL;
                 l_size := 6 |}
              (sim_state sim_native)) _)).
    discriminate.
Defined.

(** C4, as stated, fails for a 32 bit caller and a 64 bit target whose
    environment lies in a region with 4 GiB or more after the start
    address: the length used is cut to 32 bits. *)
Lemma resolved_length_cut_to_SIZE_T :
  sim_region sim_wow64
  = Some {| BaseAddress := 0xA000; RegionSize := 2 ^ 32 + 32 |}
  /\ result_of
       (resolve_length (sim_os sim_wow64) 0x1F4 KIND_ENVIRON
          {| l_mode := TargetWiderThanCaller; l_src := NULL;
             l_src64 := 0xA010; l_size := 0 |}
          (sim_state sim_wow64))
     = Some (inr {| l_mode := TargetWiderThanCaller; l_src := NULL;
                    l_src64 := 0xA010; l_size := 16 |})
  /\ option_map (fun r => (fst (fst r), snd r))
       (result_of
          (ps__get_process_data (sim_os sim_wow64) 5 1234 KIND_ENVIRON
             null_buffer 0 (sim_state sim_wow64)))
     = Some (0, 16)
  /\ 16 <> (2 ^ 32 + 32) - (0xA010 - 0xA000).
Proof.
  split; [reflexivity|]. split; [|split].
  - vm_compute. reflexivity.
  - vm_compute. reflexivity.
  - discriminate.
Qed.

(** ** C9 and C8: the trailing separator *)

Section Trim.

Lemma wcslen_app pre post :
  Forall nonzero pre -> wcslen (pre ++ 0 :: post) = Some (length pre).
Proof.
  induction 1 as [|c pre Hc _ IH]; [reflexivity|].
  cbn [app wcslen length]. apply Z.eqb_neq in Hc. rewrite Hc, IH. reflexivity.
Qed.

Lemma wcslen_Some data :
  forall n, wcslen data = Some n ->
  exists post,
    data = firstn n data ++ 0 :: post
    /\ length (firstn n data) = n
    /\ Forall nonzero (firstn n data).
Proof.
  induction data as [|c rest IH]; intros n H; [discriminate|].
  cbn [wcslen] in H. destruct (Z.eqb_spec c 0) as [->|Hc].
  - injection H as <-. exists rest. cbn. auto.
  - destruct (wcslen rest) as [m|]; [|discriminate].
    injection H as <-. destruct (IH m eq_refl) as (post & E & Hl & Hf).
    exists post. cbn [firstn app length]. split; [congruence|].
    split; [congruence|]. constructor; assumption.
Qed.

Lemma wide_text_Some data t :
  wide_text data = Some t ->
  exists post, data = t ++ 0 :: post /\ Forall nonzero t.
Proof.
  unfold wide_text. destruct (wcslen data) as [n|] eqn:H; [|discriminate].
  intros E. injection E as <-.
  destruct (wcslen_Some _ _ H) as (post & E & _ & Hf). eauto.
Qed.

Lemma wide_text_app t post :
  Forall nonzero t -> wide_text (t ++ 0 :: post) = Some t.
Proof.
  intros Hf. unfold wide_text. rewrite (wcslen_app _ _ Hf). cbn.
  rewrite firstn_app, firstn_all, Nat.sub_diag. cbn. now rewrite app_nil_r.
Qed.

Lemma set_nth_app t c x rest :
  set_nth (length t) x (t ++ c :: rest) = t ++ x :: rest.
Proof. induction t as [|a t IH]; cbn; [reflexivity|]. now rewrite IH. Qed.

Lemma Forall_nonzero_snoc t c :
  Forall nonzero (t ++ [c]) -> Forall nonzero t /\ c <> 0.
Proof.
  intros H. apply Forall_app in H. destruct H as [Ht Hc].
  split; [exact Ht|]. now inversion Hc.
Qed.

(** The trim on a string whose text is [t ++ [c]]: the last character goes
    when it is the separator, and nothing else changes. *)
Lemma trim_snoc t c post :
  Forall nonzero (t ++ [c]) ->
  trim_trailing_separator ((t ++ [c]) ++ 0 :: post)
  = Some (if c =? path_separator then t ++ 0 :: 0 :: post
          else (t ++ [c]) ++ 0 :: post).
Proof.
  intros Hf. unfold trim_trailing_separator.
  rewrite (wcslen_app _ _ Hf), length_app. cbn [length].
  rewrite Nat.add_1_r, <- app_assoc. cbn [app].
  rewrite nth_error_app2, Nat.sub_diag by reflexivity. cbn [nth_error].
  destruct (c =? path_separator); [|reflexivity].
  now rewrite set_nth_app.
Qed.

End Trim.

(** C9 (amended).  The trim takes away one trailing separator.  Applying it
    twice gives what applying it once gives for every string whose text
    ends in a character other than the separator, or in exactly one
    separator after such a character; the text left is then the text
    without that separator. *)
Theorem trim_twice :
  forall (x t : list Z) (c : Z),
    c <> path_separator ->
    wide_text x = Some (t ++ [c])
    \/ wide_text x = Some (t ++ [c; path_separator]) ->
    exists y,
      trim_trailing_separator x = Some y
      /\ trim_trailing_separator y = Some y
      /\ wide_text y = Some (t ++ [c]).
Proof.
  intros x t c Hc [H|H]; apply wide_text_Some in H;
    destruct H as (post & -> & Hf).
  - exists ((t ++ [c]) ++ 0 :: post).
    pose proof (trim_snoc t c post Hf) as E.
    apply Z.eqb_neq in Hc. rewrite Hc in E.
    split; [exact E|]. split; [exact E|]. now apply wide_text_app.
  - replace (t ++ [c; path_separator])
      with ((t ++ [c]) ++ [path_separator]) in *
      by (now rewrite <- app_assoc).
    destruct (Forall_nonzero_snoc _ _ Hf) as [Hf' _].
    exists ((t ++ [c]) ++ 0 :: 0 :: post).
    rewrite (trim_snoc (t ++ [c]) path_separator post Hf), Z.eqb_refl.
    split; [reflexivity|].
    pose proof (trim_snoc t c (0 :: post) Hf') as E.
    apply Z.eqb_neq in Hc. rewrite Hc in E.
    split; [exact E|]. now apply wide_text_app.
Qed.

Lemma trim_twice_witness :
  exists y,
    trim_trailing_separator [67; 58; 92; 0] = Some y
    /\ trim_trailing_separator y = Some y
    /\ wide_text y = Some [67; 58].
Proof.
  refine (trim_twice [67; 58; 92; 0] [67] 58 _ (or_intror eq_refl)).
  discriminate.
Defined.

(** C9, as stated, fails on a string that ends in two separators: the
    first trim leaves [a\], the second trim takes away the second
    separator and leaves [a]. *)
Lemma trim_not_idempotent :
  trim_trailing_separator [97; 92; 92; 0] = Some [97; 92; 0; 0]
  /\ trim_trailing_separator [97; 92; 0; 0] = Some [97; 0; 0; 0]
  /\ wide_text [97; 92; 0; 0] = Some [97; 92]
  /\ wide_text [97; 0; 0; 0] = Some [97]
  /\ trim_trailing_separator [97; 92; 0; 0] <> Some [97; 92; 0; 0].
Proof. repeat split. discriminate. Qed.

(** On every string whose text ends in two separators the second trim
    takes one more character away. *)
Lemma trim_two_separators (x t : list Z) :
  wide_text x = Some (t ++ [path_separator; path_separator]) ->
  exists y z,
    trim_trailing_separator x = Some y
    /\ trim_trailing_separator y = Some z
    /\ wide_text y = Some (t ++ [path_separator])
    /\ wide_text z = Some t
    /\ z <> y.
Proof.
  intros H. apply wide_text_Some in H. destruct H as (post & -> & Hf).
  replace (t ++ [path_separator; path_separator])
    with ((t ++ [path_separator]) ++ [path_separator]) in *
    by (now rewrite <- app_assoc).
  destruct (Forall_nonzero_snoc _ _ Hf) as [Hf1 _].
  destruct (Forall_nonzero_snoc _ _ Hf1) as [Hf2 _].
  exists ((t ++ [path_separator]) ++ 0 :: 0 :: post),
         (t ++ 0 :: 0 :: 0 :: post).
  rewrite (trim_snoc (t ++ [path_separator]) path_separator post Hf).
  rewrite (trim_snoc t path_separator (0 :: post) Hf1).
  rewrite Z.eqb_refl.
  split; [reflexivity|]. split; [reflexivity|].
  split; [now apply wide_text_app|]. split; [now apply wide_text_app|].
  intros E. rewrite <- app_assoc in E. apply app_inv_head in E.
  discriminate E.
Qed.

Section Cwd.

Context {os : OS}.
Implicit Types s : state os.

Lemma get_cwd_unfold fuel pid size0 s code data L s' :
  ps__get_process_data os fuel pid KIND_CWD null_buffer size0 s
  = Done (code, data, L) s' ->
  ps__get_cwd os fuel pid size0 s
  = if negb (code =? 0) then Done None s'
    else
      match trim_trailing_separator (wchars_of_bytes (buf_bytes data)) with
      | None => Undefined
      | Some data' =>
          match wide_text data' with
          | None => Undefined
          | Some text => Done (Some text) s'
          end
      end.
Proof.
  intros H. unfold ps__get_cwd. rewrite (bind_eq _ _ _ _ _ H).
  destruct (negb (code =? 0)); [reflexivity|].
  destruct (trim_trailing_separator (wchars_of_bytes (buf_bytes data)));
    [|reflexivity].
  destruct (wide_text l); reflexivity.
Qed.

End Cwd.

(** C8 (amended).  The buffer [ps__get_process_data] hands over for the
    working directory is not trimmed: it holds the bytes copied from the
    target, all of them, followed by two zero bytes.  The accessor
    [ps__get_cwd] then trims: when the text of that buffer ends in a path
    separator, the text it returns is the text without that separator. *)
Theorem get_cwd_trims_copied_text :
  forall (os : OS) fuel pid size0 (s : state os) data L s',
    ps__get_process_data os fuel pid KIND_CWD null_buffer size0 s
    = Done (0, data, L) s' ->
    (exists bs,
        (exists rd h src w w', read_bytes os rd h src L w = (Some bs, w'))
        /\ buf_bytes data = bs ++ [0; 0])
    /\ forall t,
        wide_text (wchars_of_bytes (buf_bytes data))
        = Some (t ++ [path_separator]) ->
        ps__get_cwd os fuel pid size0 s = Done (Some t) s'.
Proof.
  intros os fuel pid size0 s data L s' H. split.
  - rewrite get_process_data_of_steps in H.
    destruct (ps__get_process_data_steps os fuel pid KIND_CWD null_buffer
                size0 s)
      as [[[[code failed] pdata1] psize1] s1| |] eqn:Hs; try discriminate.
    injection H as -> -> -> ->.
    apply get_process_data_steps_spec in Hs. destruct Hs as [_ Hs].
    destruct failed as [e|]; [destruct Hs as [F _]; discriminate|].
    destruct Hs as (_ & _ & _ & _ & _ & bs & Hrd & _ & Hbytes).
    exists bs. auto.
  - intros t Ht. rewrite (get_cwd_unfold _ _ _ _ _ _ _ _ H). cbn [Z.eqb negb].
    apply wide_text_Some in Ht. destruct Ht as (post & -> & Hf).
    rewrite (trim_snoc t path_separator post Hf), Z.eqb_refl.
    destruct (Forall_nonzero_snoc _ _ Hf) as [Hf' _].
    now rewrite (wide_text_app _ _ Hf').
Qed.

Lemma get_cwd_trims_copied_text_witness :
  ps__get_cwd (sim_os sim_native) 5 1234 0 (sim_state sim_native)
  = Done (Some [67; 58])
      (set_heap (sim_os sim_native) [(0x10000, 8)]
         (set_world (sim_os sim_native) (0x10000 + 8 + 16)
            (set_statics (sim_os sim_native)
               (set_NtQueryInformationProcess true statics0)
               (sim_state sim_native)))).
Proof.
  refine (proj2 (get_cwd_trims_copied_text (sim_os sim_native) 5 1234 0
                   (sim_state sim_native)
                   {| buf_addr := 0x10000;
                      buf_bytes := [67; 0; 58; 0; 92; 0; 0; 0] |}
                   6 _ _) [67; 58] _).
  - reflexivity.
  - reflexivity.
Defined.

(** C8, as stated, fails: the working directory [C:\] is copied with its
    separator, and the text [ps__get_cwd] returns is [C:]. *)
Lemma get_cwd_drops_trailing_separator :
  option_map (fun r => wchars_of_bytes (buf_bytes (snd (fst r))))
    (result_of
       (ps__get_process_data (sim_os sim_native) 5 1234 KIND_CWD
          null_buffer 0 (sim_state sim_native)))
  = Some [67; 58; path_separator; 0]
  /\ result_of
       (ps__get_cwd (sim_os sim_native) 5 1234 0 (sim_state sim_native))
     = Some (Some [67; 58])
  /\ ~ In path_separator [67; 58].
Proof.
  split; [vm_compute; reflexivity|]. split; [vm_compute; reflexivity|].
  intros [F|[F|[]]]; discriminate.
Qed.

(** ** C7: the fallback scanner *)

Section Scanner.

Context {os : OS}.
Implicit Types s : state os.

(** Along a chain the walk returns the first record with the wanted
    identifier, and returns nothing when there is none. *)
Lemma find_process_chain snap pid off recs :
  chain snap off recs ->
  forall fuel s,
    (length recs <= fuel)%nat ->
    find_process os fuel snap off pid s
    = Done (find (fun e => same_pid os pid (snd e)) recs) s.
Proof.
  induction 1 as [off r Hr Hn|off r rest Hr Hn _ IH]; intros fuel s Hfuel;
    (destruct fuel as [|fuel]; [cbn in Hfuel; lia|]);
    cbn [find_process find snd]; rewrite Hr;
    destruct (same_pid os pid r); try reflexivity.
  - rewrite Hn. reflexivity.
  - apply Z.eqb_neq in Hn. rewrite Hn. apply IH. cbn in Hfuel. lia.
Qed.

Lemma snapshot_query_resources fuel :
  forall buffer bufferSize s q s' base n,
    snapshot_query os fuel buffer bufferSize s = Done q s' ->
    buffer <> NULL ->
    st_heap s = (buffer, n) :: base ->
    st_handles s' = st_handles s /\
    match q with
    | None => st_heap s' = base
    | Some (b, _, _, _) =>
        b <> NULL /\ exists n', st_heap s' = (b, n') :: base
    end.
Proof.
  induction fuel as [|fuel IH];
    intros buffer bufferSize s q s' base n H Hb Hheap; [discriminate|].
  cbn [snapshot_query] in H.
  apply bind_Done in H. destruct H as (r & s1 & Hq & H). minv Hq.
  destruct r as [[status0 ReturnLength] snap].
  match type of H with
  | (if ?c then _ else _) _ = _ => destruct c
  end.
  - apply bind_Done in H. destruct H as (u & s2 & Hfree & H).
    apply c_free_Done in Hfree. destruct Hfree as [Hh2 Hp2].
    cbn in Hh2, Hp2. apply Z.eqb_neq in Hb. rewrite Hb, Hheap in Hp2.
    rewrite remove_block_head in Hp2.
    apply bind_Done in H. destruct H as (b1 & s3 & Hm & H).
    apply c_malloc_Done in Hm. destruct Hm as [Hh3 Hm].
    destruct (Z.eqb_spec b1 NULL) as [E1|E1].
    + destruct Hm as [[_ Hm]|[Hm _]]; [|contradiction].
      minv H. cbn. split; congruence.
    + destruct Hm as [[Hm _]|[_ Hm]]; [contradiction|].
      apply (IH _ _ _ _ _ base (DWORD_of ReturnLength)) in H;
        [|exact E1|congruence].
      destruct H as [Hh4 H]. split; [congruence|exact H].
  - minv H. cbn. split; [reflexivity|]. split; [exact Hb|].
    exists n. exact Hheap.
Qed.

(** The query phase leaves exactly the snapshot buffer allocated. *)
Lemma snapshot_acquire_resources fuel s hNtDll q s' :
  snapshot_acquire os fuel s = Done (hNtDll, q) s' ->
  st_handles s' = st_handles s /\
  match q with
  | None => st_heap s' = st_heap s
  | Some (b, _, _, _) =>
      b <> NULL /\ exists n, st_heap s' = (b, n) :: st_heap s
  end.
Proof.
  unfold snapshot_acquire. intros H.
  apply bind_Done in H. destruct H as (h & s1 & H1 & H). minv H1.
  apply bind_Done in H. destruct H as (ok & s2 & H2 & H). minv H2.
  apply bind_Done in H. destruct H as (s0 & s3 & H3 & H).
  injection H3 as <- <-.
  apply bind_Done in H. destruct H as (b & s4 & Hm & H).
  apply c_malloc_Done in Hm. destruct Hm as [Hh4 Hm]. cbn in Hh4, Hm.
  destruct (Z.eqb_spec b NULL) as [Eb|Eb].
  - destruct Hm as [[_ Hm]|[Hm _]]; [|contradiction].
    minv H. injection E1 as -> ->. cbn. split; congruence.
  - destruct Hm as [[Hm _]|[_ Hm]]; [contradiction|].
    destruct (negb ok); [discriminate|].
    apply bind_Done in H. destruct H as (q1 & s5 & Hq & H).
    apply (snapshot_query_resources _ _ _ _ _ _ (st_heap s)
             (initialBufferSize (st_statics s))) in Hq;
      [|exact Eb|exact Hm].
    minv H. injection E1 as -> ->. destruct Hq as [Hh5 Hq].
    split; [congruence|exact Hq].
Qed.

End Scanner.

(** C7. When the query has filled the buffer (status 0) and the records
    form a chain from offset 0 that ends with a next-entry offset of 0,
    [ps__get_proc_info] with budget for the length of the chain returns 1
    with the first record of the chain that carries the wanted identifier,
    wherever in the chain it is, and hands over the buffer, which stays
    allocated; when no record of the chain carries it, the call raises
    NoSuchProcess, frees the buffer and returns 0 with its two output
    parameters as they were. *)
Theorem get_proc_info_scans_chain :
  forall (os : OS) fuel pid retProcess retBuffer (s : state os)
         hNtDll buffer bufferSize snap s1 recs,
    snapshot_acquire os fuel s
    = Done (hNtDll, Some (buffer, 0, bufferSize, snap)) s1 ->
    chain snap 0 recs ->
    (length recs <= fuel)%nat ->
    (exists n, st_heap s1 = (buffer, n) :: st_heap s) /\
    match find (fun e => same_pid os pid (snd e)) recs with
    | Some process =>
        In process recs /\ same_pid os pid (snd process) = true /\
        exists s2,
          ps__get_proc_info os fuel pid retProcess retBuffer s
          = Done (1, Some process,
                  {| sb_addr := buffer; sb_data := snap |}) s2
          /\ st_heap s2 = st_heap s1
          /\ st_errors s2 = st_errors s1
    | None =>
        (forall e, In e recs -> same_pid os pid (snd e) = false) /\
        exists s2,
          ps__get_proc_info os fuel pid retProcess retBuffer s
          = Done (0, retProcess, retBuffer) s2
          /\ st_heap s2 = st_heap s
          /\ st_errors s2 = NoSuchProcess pid :: st_errors s1
    end.
Proof.
  intros os fuel pid retProcess retBuffer s hNtDll buffer bufferSize snap s1
    recs Hacq Hchain Hfuel.
  destruct (snapshot_acquire_resources _ _ _ _ _ Hacq)
    as (_ & Hb & n & Hheap).
  split; [eauto|].
  unfold ps__get_proc_info. rewrite (bind_eq _ _ _ _ _ Hacq).
  cbn [Z.eqb negb].
  set (upd := if bufferSize <=? 131072
              then fun s0 : state os =>
                     Done tt (set_statics os
                                (set_initialBufferSize bufferSize
                                   (st_statics s0)) s0)
              else ret tt).
  assert (Hupd : exists s1', upd s1 = Done tt s1'
                             /\ st_heap s1' = st_heap s1
                             /\ st_errors s1' = st_errors s1).
  { unfold upd. destruct (bufferSize <=? 131072); eexists;
      (split; [reflexivity|]); split; reflexivity. }
  destruct Hupd as (s1' & Hupd & Hheap' & Herr').
  rewrite (bind_eq _ _ _ _ _ Hupd).
  rewrite (bind_eq _ _ _ _ _
             (find_process_chain snap pid 0 recs Hchain fuel s1' Hfuel)).
  destruct (find (fun e => same_pid os pid (snd e)) recs) as [process|] eqn:Hf.
  - apply find_some in Hf. destruct Hf as [Hin Hpid].
    split; [exact Hin|]. split; [exact Hpid|].
    exists s1'. split; [reflexivity|]. split; assumption.
  - split; [intros e He; exact (find_none _ _ Hf e He)|].
    unfold get_proc_info_error, ps__no_such_process, raise, bind, sys_,
      c_free, ret.
    apply Z.eqb_neq in Hb. rewrite Hb. cbn [negb].
    eexists. split; [reflexivity|]. cbn.
    rewrite Hheap', Hheap, remove_block_head.
    split; [reflexivity|]. now rewrite Herr'.
Qed.

Lemma get_proc_info_scans_chain_witness :
  exists s2,
    ps__get_proc_info (sim_os sim_native) 3 1234 None
      {| sb_addr := NULL; sb_data := [] |} (sim_state sim_native)
    = Done (1,
            Some (0x280, {| NextEntryOffset := 0; UniqueProcessId := 1234 |}),
            {| sb_addr := 0x10000 + 0x4000 + 16;
               sb_data := sim_snapshot sim_native |}) s2
    /\ st_heap s2 = [(0x10000 + 0x4000 + 16, 0x5000)]
    /\ st_errors s2 = [].
Proof.
  refine (proj2 (proj2 (proj2 (get_proc_info_scans_chain (sim_os sim_native)
            3 1234 None {| sb_addr := NULL; sb_data := [] |}
            (sim_state sim_native) 0x7FF0 (0x10000 + 0x4000 + 16) 0x5000
            (sim_snapshot sim_native)
            (set_heap (sim_os sim_native) [(0x10000 + 0x4000 + 16, 0x5000)]
               (set_world (sim_os sim_native)
                  (0x10000 + 0x4000 + 16 + 0x5000 + 16)
                  (sim_state sim_native)))
            [(0, {| NextEntryOffset := 0x100; UniqueProcessId := 0 |});
             (0x100, {| NextEntryOffset := 0x180; UniqueProcessId := 4 |});
             (0x280, {| NextEntryOffset := 0; UniqueProcessId := 1234 |})]
            _ _ _)))).
  - reflexivity.
  - apply chain_step; [reflexivity|discriminate|].
    apply chain_step; [reflexivity|discriminate|].
    apply chain_end; reflexivity.
  - cbn. lia.
Defined.

(** An identifier that is in no record of the chain. *)
Example get_proc_info_absent :
  result_of
    (ps__get_proc_info (sim_os sim_native) 3 77 None
       {| sb_addr := NULL; sb_data := [] |} (sim_state sim_native))
  = Some (0, None, {| sb_addr := NULL; sb_data := [] |})
  /\ resources_of
       (ps__get_proc_info (sim_os sim_native) 3 77 None
          {| sb_addr := NULL; sb_data := [] |} (sim_state sim_native))
     = Some ([], [], [NoSuchProcess 77]).
Proof. split; vm_compute; reflexivity. Qed.

(** * Further properties

    The errors the functions raise, the statics they keep, the two
    accessors and the scanner as a whole. *)

(** ** Errors and statics across the primitives *)

Section Frames.

Context {os : OS}.
Implicit Types s : state os.

Lemma c_malloc_frame n s p s' :
  c_malloc os n s = Done p s' ->
  st_errors s' = st_errors s /\ st_statics s' = st_statics s.
Proof. unfold c_malloc. intros H. minv H; auto. Qed.

Lemma c_free_frame p s a s' :
  c_free os p s = Done a s' ->
  st_errors s' = st_errors s /\ st_statics s' = st_statics s.
Proof. unfold c_free. intros H. destruct (p =? NULL); minv H; auto. Qed.

Lemma close_handle_frame h s a s' :
  close_handle os h s = Done a s' ->
  st_errors s' = st_errors s /\ st_statics s' = st_statics s.
Proof. unfold close_handle. intros H. minv H. auto. Qed.

Lemma EnumProcesses_Done cb s r s' :
  EnumProcesses os cb s = Done r s' ->
  st_errors s' = st_errors s /\ st_statics s' = st_statics s /\
  exists x w',
    live_pids os (st_world s) = (x, w') /\
    r = match x with
        | None => None
        | Some pids =>
            Some (firstn (Z.to_nat (cb / sizeof_DWORD)) pids,
                  sizeof_DWORD
                  * Z.of_nat
                      (length (firstn (Z.to_nat (cb / sizeof_DWORD)) pids)))
        end.
Proof.
  unfold EnumProcesses. intros H.
  apply bind_Done in H. destruct H as (x & s1 & Hs & H).
  apply sys_Done in Hs. destruct Hs as (w & Hl & ->).
  destruct x as [pids|]; apply ret_Done in H; destruct H as [-> ->];
    cbn; (split; [reflexivity|]); (split; [reflexivity|]);
    eexists; eexists; (split; [exact Hl|reflexivity]).
Qed.

(** What the loop of [ps__get_pids] reports: an array holds what one
    enumeration stored and no error is raised; no array means one error,
    for the allocation or for the enumeration that failed. *)
Lemma get_pids_loop_entries fuel :
  forall p sz s r s',
    ps__get_pids_loop os fuel p sz s = Done r s' ->
    st_statics s' = st_statics s /\
    match r with
    | None =>
        st_errors s' = NoMemory :: st_errors s
        /\ (exists n w, fst (malloc os n w) = NULL)
        \/ st_errors s' = WindowsError :: st_errors s
           /\ (exists w, fst (live_pids os w) = None)
    | Some l =>
        st_errors s' = st_errors s /\
        exists w pids w',
          live_pids os w = (Some pids, w') /\
          procArray_entries l
          = firstn (Z.to_nat
                      (DWORD_of
                         (SIZE_T_of os
                            (SIZE_T_of os (procArraySz l) * sizeof_DWORD))
                       / sizeof_DWORD)) pids /\
          enumReturnSz l
          = sizeof_DWORD * Z.of_nat (length (procArray_entries l))
    end.
Proof.
  induction fuel as [|fuel IH]; intros p sz s r s' H; [discriminate|].
  cbn [ps__get_pids_loop] in H.
  apply bind_Done in H. destruct H as (u & s1 & Hfree & H).
  apply c_free_frame in Hfree. destruct Hfree as [He1 Hs1].
  apply bind_Done in H. destruct H as (p1 & s2 & Hm & H).
  pose proof Hm as Hm'.
  apply c_malloc_frame in Hm. destruct Hm as [He2 Hs2].
  destruct (p1 =? NULL) eqn:Ep1.
  - minv H. cbn. split; [congruence|]. left. split; [congruence|].
    unfold c_malloc in Hm'. apply bind_Done in Hm'.
    destruct Hm' as (p2 & s3 & Hsys & Hm'). apply sys_Done in Hsys.
    destruct Hsys as (w & Hsys & ->).
    assert (p2 = p1).
    { destruct (p2 =? NULL); [apply ret_Done in Hm'|injection Hm' as Hm' _];
        intuition congruence. }
    subst p2. apply Z.eqb_eq in Ep1. eexists. eexists.
    rewrite Hsys. exact Ep1.
  - apply bind_Done in H. destruct H as (r1 & s3 & He & H).
    apply EnumProcesses_Done in He.
    destruct He as (He3 & Hs3 & x & w' & Hlive & ->).
    destruct x as [pids|].
    + match type of H with
      | (if ?c then _ else _) _ = _ => destruct c
      end.
      * apply IH in H. destruct H as [Hst H]. split; [congruence|].
        destruct r as [l|].
        -- destruct H as [Herr H]. split; [congruence|exact H].
        -- destruct H as [[Herr H]|[Herr H]]; [left|right];
             (split; [congruence|exact H]).
      * apply ret_Done in H. destruct H as [-> ->].
        cbn [procArray_entries procArraySz enumReturnSz].
        split; [congruence|]. split; [congruence|].
        exists (st_world s2), pids, w'. split; [exact Hlive|].
        split; reflexivity.
    + apply bind_Done in H. destruct H as (u2 & s4 & Hfree & H).
      apply c_free_frame in Hfree. destruct Hfree as [He4 Hs4].
      minv H. cbn. split; [congruence|]. right. split; [congruence|].
      exists (st_world s2). now rewrite Hlive.
Qed.

Lemma get_pids_entries fuel s r s' :
  ps__get_pids os fuel s = Done r s' ->
  st_statics s' = st_statics s /\
  match r with
  | None =>
      st_errors s' = NoMemory :: st_errors s
      /\ (exists n w, fst (malloc os n w) = NULL)
      \/ st_errors s' = WindowsError :: st_errors s
         /\ (exists w, fst (live_pids os w) = None)
  | Some (_, entries, n) =>
      st_errors s' = st_errors s /\ n = Z.of_nat (length entries)
  end.
Proof.
  unfold ps__get_pids. intros H.
  apply bind_Done in H. destruct H as (r1 & s1 & Hl & H).
  apply get_pids_loop_entries in Hl. destruct Hl as [Hst Hl].
  destruct r1 as [l|]; apply ret_Done in H; destruct H as [-> ->];
    (split; [exact Hst|]); [|exact Hl].
  destruct Hl as (Herr & _ & _ & _ & _ & _ & Eret).
  split; [exact Herr|]. rewrite Eret. unfold sizeof_DWORD.
  symmetry. apply Z.div_unique_exact; lia.
Qed.

End Frames.

(** ** The PID registry *)

(** X1. However [ps__get_pids] ends, the open handles are as before.
    When it returns NULL, the array of the last round has been freed again
    and exactly one error was raised: NoMemory for the allocation or
    WindowsError for the enumeration.  When it returns an array, that array
    is the one block added to the heap, no error was raised, and the count
    stored in [*numberOfReturnedPIDs] is the number of entries. *)
Theorem get_pids_reports :
  forall (os : OS) fuel (s : state os) r s',
    ps__get_pids os fuel s = Done r s' ->
    st_handles s' = st_handles s /\
    match r with
    | None =>
        st_heap s' = st_heap s /\
        (st_errors s' = NoMemory :: st_errors s
         /\ (exists n w, fst (malloc os n w) = NULL)
         \/ st_errors s' = WindowsError :: st_errors s
            /\ (exists w, fst (live_pids os w) = None))
    | Some (p, entries, n) =>
        p <> NULL /\
        (exists size, st_heap s' = (p, size) :: st_heap s) /\
        st_errors s' = st_errors s /\
        n = Z.of_nat (length entries)
    end.
Proof.
  intros os fuel s r s' H.
  pose proof (get_pids_resources _ _ _ _ H) as [Hh Hr].
  pose proof (get_pids_entries _ _ _ _ H) as [_ He].
  split; [exact Hh|].
  destruct r as [[[p entries] n]|].
  - destruct Hr as [Hp Hheap]. destruct He as [Herr Hn]. auto.
  - split; [exact Hr|exact He].
Qed.

Lemma get_pids_reports_witness :
  st_handles
    (set_errors (sim_os sim_small_heap) [NoMemory] (sim_state sim_small_heap))
  = st_handles (sim_state sim_small_heap)
  /\ st_heap
       (set_errors (sim_os sim_small_heap) [NoMemory]
          (sim_state sim_small_heap))
     = st_heap (sim_state sim_small_heap)
  /\ (st_errors
        (set_errors (sim_os sim_small_heap) [NoMemory]
           (sim_state sim_small_heap))
      = NoMemory :: st_errors (sim_state sim_small_heap)
      /\ (exists n w, fst (malloc (sim_os sim_small_heap) n w) = NULL)
      \/ st_errors
           (set_errors (sim_os sim_small_heap) [NoMemory]
              (sim_state sim_small_heap))
         = WindowsError :: st_errors (sim_state sim_small_heap)
         /\ (exists w, fst (live_pids (sim_os sim_small_heap) w) = None)).
Proof.
  refine (get_pids_reports (sim_os sim_small_heap) 1
            (sim_state sim_small_heap) None
            (set_errors (sim_os sim_small_heap) [NoMemory]
               (sim_state sim_small_heap)) _).
  reflexivity.
Defined.

Section Static.

Context {os : OS}.
Implicit Types s : state os.

(** The enumeration reports the same identifiers whenever it is asked. *)
Variable pids : list Z.
Hypothesis live_pids_static : forall w, fst (live_pids os w) = Some pids.
Hypothesis pids_small : Z.of_nat (length pids) + 1024 < 2 ^ 30.

Variable fuel : nat.
Hypothesis enough : Z.of_nat (length pids) / 1024 < Z.of_nat fuel.

Lemma live_pids_static_bounded :
  forall w l w',
    live_pids os w = (Some l, w') ->
    Z.of_nat (length l) <= Z.of_nat (length pids).
Proof using live_pids_static.
  intros w l w' H. pose proof (live_pids_static w) as E.
  rewrite H in E. injection E as ->. apply Z.le_refl.
Qed.

Lemma get_pids_static s :
  exists r s',
    ps__get_pids os fuel s = Done r s' /\
    (r = None /\ st_errors s' = NoMemory :: st_errors s
     /\ st_heap s' = st_heap s
     /\ (exists n w, fst (malloc os n w) = NULL)
     \/ exists p,
         r = Some (p, pids, Z.of_nat (length pids))
         /\ p <> NULL
         /\ st_errors s' = st_errors s
         /\ st_heap s'
            = (p, sizeof_DWORD
                  * (1024 * (Z.of_nat (length pids) / 1024 + 1)))
              :: st_heap s).
Proof using live_pids_static pids_small enough.
  set (N := Z.of_nat (length pids)) in *.
  assert (HN : 0 <= N) by (unfold N; lia).
  destruct (get_pids_loop_converges N HN pids_small live_pids_static_bounded
              fuel 0 NULL s (st_heap s))
    as (r & s' & Hrun & Hr & Hok).
  - split; [lia|]. apply Z.div_pos; lia.
  - lia.
  - left. split; reflexivity.
  - change (1024 * 0) with 0 in Hrun.
    pose proof (get_pids_loop_entries _ _ _ _ _ _ Hrun) as [_ He].
    unfold ps__get_pids. rewrite (bind_eq _ _ _ _ _ Hrun).
    destruct r as [l|].
    + eexists. eexists. split; [reflexivity|].
      right. exists (procArray l).
      destruct Hr as (Hp & (k & Hk & Ek) & Eret & Hlt & Hheap).
      destruct He as (Herr & w & l0 & w' & Hlive & Hent & _).
      pose proof (live_pids_static w) as E. rewrite Hlive in E.
      injection E as ->.
      assert (Hkb : 0 <= 1024 * k < 2 ^ 30).
      { assert (1024 * (N / 1024) <= N) by (apply Z.mul_div_le; lia). lia. }
      rewrite Ek in Hent.
      destruct (@capacity_no_wrap os _ Hkb) as (_ & _ & Hdw).
      rewrite Hdw in Hent.
      replace (4 * (1024 * k) / sizeof_DWORD) with (1024 * k) in Hent
        by (unfold sizeof_DWORD; apply Z.div_unique_exact; lia).
      assert (Hall : procArray_entries l = pids).
      { rewrite Hent. apply firstn_all2.
        rewrite Hent, length_firstn, Ek in Hlt. lia. }
      assert (Ek' : k = N / 1024 + 1).
      { rewrite Hall, Ek in Hlt. fold N in Hlt.
        assert (N / 1024 < k) by (apply Z.div_lt_upper_bound; lia). lia. }
      split; [|split; [exact Hp|split; [exact Herr|]]].
      * rewrite Eret, Hall. fold N. do 2 f_equal.
        unfold sizeof_DWORD. symmetry. apply Z.div_unique_exact; lia.
      * rewrite Hheap, Ek, Ek'. reflexivity.
    + eexists. eexists. split; [reflexivity|].
      left. split; [reflexivity|].
      destruct He as [[He Hf]|[_ (w & Hw)]]; [auto|].
      rewrite live_pids_static in Hw. discriminate.
Qed.

Lemma pid_in_array_In pid l :
  pid_in_array pid l (length l) = true <-> In pid l.
Proof.
  induction l as [|x l IH]; cbn [pid_in_array length In].
  - split; [discriminate|contradiction].
  - destruct (Z.eqb_spec x pid) as [E|E].
    + split; auto.
    + rewrite IH. split; [auto|]. intros [F|F]; [contradiction|exact F].
Qed.

Lemma pid_in_pids_static pid s :
  exists r s',
    ps__pid_in_pids os fuel pid s = Done r s' /\
    st_heap s' = st_heap s /\
    (r = 1 /\ In pid pids /\ st_errors s' = st_errors s
     \/ r = 0 /\ ~ In pid pids /\ st_errors s' = st_errors s
     \/ r = -1 /\ st_errors s' = NoMemory :: st_errors s
        /\ exists n w, fst (malloc os n w) = NULL).
Proof using live_pids_static pids_small enough.
  destruct (get_pids_static s) as (g & s1 & Hg & Hcase).
  assert (Hrun : exists r s',
             ps__pid_in_pids os fuel pid s = Done r s'
             /\ st_errors s' = st_errors s1
             /\ r = match g with
                    | None => -1
                    | Some _ => if pid_in_array pid pids (length pids)
                                then 1 else 0
                    end).
  { unfold ps__pid_in_pids. rewrite (bind_eq _ _ _ _ _ Hg).
    destruct Hcase as [(-> & _)|(p & -> & _)].
    - eexists. eexists. split; [reflexivity|]. split; reflexivity.
    - rewrite Nat2Z.id.
      destruct (c_free_run p s1) as (s2 & Hf & _).
      pose proof (c_free_frame _ _ _ _ Hf) as [He _].
      destruct (pid_in_array pid pids (length pids));
        rewrite (bind_eq _ _ _ _ _ Hf); eexists; eexists;
        (split; [reflexivity|]); (split; [exact He|reflexivity]). }
  destruct Hrun as (r & s' & Hrun & Herr & Er).
  exists r, s'. split; [exact Hrun|].
  split; [exact (proj2 (pid_in_pids_resources _ _ _ _ _ Hrun))|].
  destruct Hcase as [(-> & He & _ & Hf)|(p & -> & _ & He & _)].
  - right. right. split; [exact Er|]. split; [congruence|exact Hf].
  - destruct (pid_in_array pid pids (length pids)) eqn:Ein.
    + left. split; [exact Er|]. split; [now apply pid_in_array_In|].
      congruence.
    + right. left. split; [exact Er|]. split; [|congruence].
      intros Hin. apply pid_in_array_In in Hin. congruence.
Qed.

End Static.

(** X2. Against a system that reports the same identifiers whenever it
    is asked, with budget for [length pids / 1024 + 1] rounds,
    [ps__get_pids] returns, and in one of two ways: the allocator failed,
    NoMemory was raised and nothing is left allocated; or the array holds
    exactly the system's list, in its order, with its length as the count,
    in a block of [1024 * (length pids / 1024 + 1)] slots.  Two calls in a
    row therefore return the same entries. *)
Theorem get_pids_complete :
  forall (os : OS) (pids : list Z) fuel (s : state os),
    (forall w, fst (live_pids os w) = Some pids) ->
    Z.of_nat (length pids) + 1024 < 2 ^ 30 ->
    Z.of_nat (length pids) / 1024 < Z.of_nat fuel ->
    exists r s',
      ps__get_pids os fuel s = Done r s' /\
      (r = None /\ st_errors s' = NoMemory :: st_errors s
       /\ st_heap s' = st_heap s
       /\ (exists n w, fst (malloc os n w) = NULL)
       \/ exists p,
           r = Some (p, pids, Z.of_nat (length pids))
           /\ p <> NULL
           /\ st_errors s' = st_errors s
           /\ st_heap s'
              = (p, sizeof_DWORD
                    * (1024 * (Z.of_nat (length pids) / 1024 + 1)))
                :: st_heap s).
Proof.
  intros os pids fuel s Hstatic Hsmall Hfuel.
  exact (get_pids_static pids Hstatic Hsmall fuel Hfuel s).
Qed.

Lemma get_pids_complete_witness :
  exists r s',
    ps__get_pids (sim_os sim_native) 1 (sim_state sim_native) = Done r s' /\
    (r = None /\ st_errors s' = NoMemory :: st_errors (sim_state sim_native)
     /\ st_heap s' = st_heap (sim_state sim_native)
     /\ (exists n w, fst (malloc (sim_os sim_native) n w) = NULL)
     \/ exists p,
         r = Some (p, [0; 4; 1234], Z.of_nat (length [0; 4; 1234]))
         /\ p <> NULL
         /\ st_errors s' = st_errors (sim_state sim_native)
         /\ st_heap s'
            = (p, sizeof_DWORD
                  * (1024 * (Z.of_nat (length [0; 4; 1234]) / 1024 + 1)))
              :: st_heap (sim_state sim_native)).
Proof.
  apply (get_pids_complete (sim_os sim_native) [0; 4; 1234] 1
           (sim_state sim_native)).
  - intros w. reflexivity.
  - reflexivity.
  - reflexivity.
Defined.

(** X3. Against such a system [ps__pid_in_pids] returns 1 exactly for the
    identifiers in the list and 0 for all others, with the array freed and
    no error raised in both cases; it returns -1, with NoMemory raised, only
    when the allocator failed. *)
Theorem pid_in_pids_membership :
  forall (os : OS) (pids : list Z) fuel pid (s : state os),
    (forall w, fst (live_pids os w) = Some pids) ->
    Z.of_nat (length pids) + 1024 < 2 ^ 30 ->
    Z.of_nat (length pids) / 1024 < Z.of_nat fuel ->
    exists r s',
      ps__pid_in_pids os fuel pid s = Done r s' /\
      st_heap s' = st_heap s /\
      (r = 1 /\ In pid pids /\ st_errors s' = st_errors s
       \/ r = 0 /\ ~ In pid pids /\ st_errors s' = st_errors s
       \/ r = -1 /\ st_errors s' = NoMemory :: st_errors s
          /\ exists n w, fst (malloc os n w) = NULL).
Proof.
  intros os pids fuel pid s Hstatic Hsmall Hfuel.
  exact (pid_in_pids_static pids Hstatic Hsmall fuel Hfuel pid s).
Qed.

Lemma pid_in_pids_membership_witness :
  exists r s',
    ps__pid_in_pids (sim_os sim_native) 1 1234 (sim_state sim_native)
    = Done r s' /\
    st_heap s' = st_heap (sim_state sim_native) /\
    (r = 1 /\ In 1234 [0; 4; 1234]
     /\ st_errors s' = st_errors (sim_state sim_native)
     \/ r = 0 /\ ~ In 1234 [0; 4; 1234]
        /\ st_errors s' = st_errors (sim_state sim_native)
     \/ r = -1
        /\ st_errors s' = NoMemory :: st_errors (sim_state sim_native)
        /\ exists n w, fst (malloc (sim_os sim_native) n w) = NULL).
Proof.
  apply (pid_in_pids_membership (sim_os sim_native) [0; 4; 1234] 1 1234
           (sim_state sim_native)).
  - intros w. reflexivity.
  - reflexivity.
  - reflexivity.
Defined.

(** ** The handle guard *)

Section GuardErrors.

Context {os : OS}.
Implicit Types s : state os.

Lemma pid_in_pids_codes fuel pid s r s' :
  ps__pid_in_pids os fuel pid s = Done r s' ->
  st_statics s' = st_statics s /\
  ((r = 1 \/ r = 0) /\ st_errors s' = st_errors s
   \/ r = -1 /\ (st_errors s' = NoMemory :: st_errors s
                 \/ st_errors s' = WindowsError :: st_errors s)).
Proof.
  unfold ps__pid_in_pids. intros H.
  apply bind_Done in H. destruct H as (g & s1 & Hg & H).
  apply get_pids_entries in Hg. destruct Hg as [Hst Hg].
  destruct g as [[[p entries] n]|].
  - destruct Hg as [Herr _].
    destruct (pid_in_array pid entries (Z.to_nat n));
      apply bind_Done in H; destruct H as (u & s2 & Hf & H);
      apply c_free_frame in Hf; destruct Hf as [He2 Hs2];
      apply ret_Done in H; destruct H as [-> ->];
      (split; [congruence|]); left; (split; [auto|congruence]).
  - apply ret_Done in H. destruct H as [-> ->]. split; [exact Hst|].
    right. split; [reflexivity|]. destruct Hg as [[He _]|[He _]]; auto.
Qed.

Lemma pid_in_pids_grows fuel pid s r s' :
  ps__pid_in_pids os fuel pid s = Done r s' ->
  exists new, st_errors s' = new ++ st_errors s /\ (r = 1 \/ r = 0 -> new = []).
Proof.
  intros H. apply pid_in_pids_codes in H.
  destruct H as [_ [[Hr He]|[Hr [He|He]]]].
  - exists []. auto.
  - exists [NoMemory]. split; [exact He|]. intros [F|F]; lia.
  - exists [WindowsError]. split; [exact He|]. intros [F|F]; lia.
Qed.

Lemma assert_pid_exists_codes fuel pid err s a s' :
  ps__assert_pid_exists os fuel pid err s = Done a s' ->
  st_statics s' = st_statics s /\
  (a = 0 /\ PS__TESTING os = true
   /\ st_errors s' = PsError err :: st_errors s
   \/ a = 1 /\ (exists new, st_errors s' = new ++ st_errors s)
      /\ (PS__TESTING os = false -> st_errors s' = st_errors s)).
Proof.
  unfold ps__assert_pid_exists. intros H.
  destruct (PS__TESTING os) eqn:Et.
  - apply bind_Done in H. destruct H as (r & s1 & Hr & H).
    pose proof (pid_in_pids_codes _ _ _ _ _ Hr) as [Hst Hc].
    apply pid_in_pids_grows in Hr. destruct Hr as (new & Hnew & Hnil).
    destruct (Z.eqb_spec r 0) as [E|E].
    + minv H. cbn. split; [exact Hst|]. left.
      split; [reflexivity|]. split; [reflexivity|].
      rewrite Hnew, (Hnil (or_intror E)). reflexivity.
    + minv H. split; [exact Hst|]. right. split; [reflexivity|].
      split; [eauto|discriminate].
  - minv H. split; [reflexivity|]. right. split; [reflexivity|].
    split; [exists []; reflexivity|reflexivity].
Qed.

Lemma assert_pid_not_exists_codes fuel pid err s a s' :
  ps__assert_pid_not_exists os fuel pid err s = Done a s' ->
  st_statics s' = st_statics s /\
  (a = 0 /\ PS__TESTING os = true
   /\ st_errors s' = PsError err :: st_errors s
   \/ a = 1 /\ (exists new, st_errors s' = new ++ st_errors s)
      /\ (PS__TESTING os = false -> st_errors s' = st_errors s)).
Proof.
  unfold ps__assert_pid_not_exists. intros H.
  destruct (PS__TESTING os) eqn:Et.
  - apply bind_Done in H. destruct H as (r & s1 & Hr & H).
    pose proof (pid_in_pids_codes _ _ _ _ _ Hr) as [Hst Hc].
    apply pid_in_pids_grows in Hr. destruct Hr as (new & Hnew & Hnil).
    destruct (Z.eqb_spec r 1) as [E|E].
    + minv H. cbn. split; [exact Hst|]. left.
      split; [reflexivity|]. split; [reflexivity|].
      rewrite Hnew, (Hnil (or_introl E)). reflexivity.
    + minv H. split; [exact Hst|]. right. split; [reflexivity|].
      split; [eauto|discriminate].
  - minv H. split; [reflexivity|]. right. split; [reflexivity|].
    split; [exists []; reflexivity|reflexivity].
Qed.

(** The four answers of [ps__is_phandle_running] and the errors that come
    with them. *)
Lemma is_phandle_running_codes fuel hProcess pid s r s' :
  ps__is_phandle_running os fuel hProcess pid s = Done r s' ->
  st_statics s' = st_statics s /\
  (r = 1 \/ r = 0 \/ r = -1 \/ r = -2) /\
  (r = -2 ->
   PS__TESTING os = true
   /\ exists msg, st_errors s' = PsError msg :: st_errors s) /\
  (r <> -2 ->
   exists new,
     st_errors s' = new ++ st_errors s
     /\ (PS__TESTING os = false -> r = 1 -> new = [])).
Proof.
  unfold ps__is_phandle_running. intros H.
  destruct (hProcess =? NULL).
  - apply bind_Done in H. destruct H as (e & s1 & He & H).
    apply sys_Done in He. destruct He as (w & Ew & ->).
    injection Ew as <- <-.
    destruct (GetLastError os (st_world s) =? ERROR_INVALID_PARAMETER).
    + apply bind_Done in H. destruct H as (a & s2 & Ha & H).
      apply assert_pid_not_exists_codes in Ha. cbn in Ha.
      destruct Ha as [Hst [(-> & Ht & He)|(-> & (new & He) & Hp)]];
        apply ret_Done in H; destruct H as [-> ->];
        (split; [exact Hst|]).
      * split; [auto|]. split; [eauto|]. intros F. now elim F.
      * split; [auto|]. split; [discriminate|]. intros _.
        exists new. split; [exact He|]. discriminate.
    + apply ret_Done in H. destruct H as [-> ->]. cbn.
      split; [reflexivity|]. split; [auto|]. split; [discriminate|].
      intros _. exists []. split; [reflexivity|discriminate].
  - apply bind_Done in H. destruct H as (x & s1 & Hx & H).
    apply sys_Done in Hx. destruct Hx as (w & Ew & ->).
    destruct x as [code|].
    + destruct (code =? STILL_ACTIVE).
      * apply bind_Done in H. destruct H as (a & s2 & Ha & H).
        apply assert_pid_exists_codes in Ha. cbn in Ha.
        destruct Ha as [Hst [(-> & Ht & He)|(-> & (new & He) & Hp)]].
        -- apply bind_Done in H. destruct H as (u & s3 & Hc & H).
           apply close_handle_frame in Hc. destruct Hc as [He3 Hs3].
           apply ret_Done in H. destruct H as [-> ->].
           split; [congruence|]. split; [auto|]. split.
           ++ intros _. split; [exact Ht|]. eexists. rewrite He3. exact He.
           ++ intros F. now elim F.
        -- apply ret_Done in H. destruct H as [-> ->].
           split; [exact Hst|]. split; [auto|]. split; [discriminate|].
           intros _. exists new. split; [exact He|].
           intros Ht _. specialize (Hp Ht).
           rewrite Hp in He. symmetry in He.
           exact (app_inv_tail (st_errors s) new [] He).
      * apply bind_Done in H. destruct H as (m & s2 & Hm & H).
        pose proof (pid_in_pids_codes _ _ _ _ _ Hm) as [Hst _]. cbn in Hst.
        apply pid_in_pids_grows in Hm. cbn in Hm.
        destruct Hm as (new & He & Hnil).
        destruct (Z.eqb_spec m 1) as [E|E].
        -- apply ret_Done in H. destruct H as [-> ->].
           split; [exact Hst|]. split; [auto|]. split; [discriminate|].
           intros _. exists new. split; [exact He|]. intros _ _. auto.
        -- apply bind_Done in H. destruct H as (u & s3 & Hc & H).
           apply close_handle_frame in Hc. destruct Hc as [He3 Hs3].
           apply ret_Done in H. destruct H as [-> ->].
           split; [congruence|]. split; [auto|]. split; [discriminate|].
           intros _. exists new. split; [congruence|]. discriminate.
    + apply bind_Done in H. destruct H as (u & s3 & Hc & H).
      apply close_handle_frame in Hc. cbn in Hc. destruct Hc as [He3 Hs3].
      apply bind_Done in H. destruct H as (a & s4 & Ha & H).
      apply assert_pid_not_exists_codes in Ha.
      destruct Ha as [Hst [(-> & Ht & He)|(-> & (new & He) & Hp)]];
        apply ret_Done in H; destruct H as [-> ->];
        (split; [congruence|]).
      * split; [auto|]. split; [|intros F; now elim F].
        intros _. split; [exact Ht|]. eexists. rewrite He, He3. reflexivity.
      * split; [auto|]. split; [discriminate|]. intros _.
        exists new. split; [congruence|]. discriminate.
Qed.

End GuardErrors.

Section GuardOutcome.

Context {os : OS}.
Implicit Types s : state os.

Lemma open_process_Done access pid s h s' :
  open_process os access pid s = Done h s' ->
  h = fst (OpenProcess os access pid (st_world s))
  /\ st_errors s' = st_errors s /\ st_statics s' = st_statics s.
Proof.
  unfold open_process. intros H.
  apply bind_Done in H. destruct H as (h1 & s1 & Hs & H).
  apply sys_Done in Hs. destruct Hs as (w & Ew & ->).
  rewrite Ew. cbn [fst].
  destruct (h1 =? NULL).
  - apply ret_Done in H. destruct H as [-> ->]. auto.
  - injection H as <- <-. auto.
Qed.

Lemma open_process_eq access pid s h w :
  OpenProcess os access pid (st_world s) = (h, w) ->
  open_process os access pid s
  = Done h (if h =? NULL then set_world os w s
            else set_handles os (h :: st_handles s) (set_world os w s)).
Proof.
  intros H. unfold open_process, bind, sys. rewrite H.
  destruct (h =? NULL); reflexivity.
Qed.

Lemma check_phandle_errors fuel hProcess pid s h s' :
  ps__check_phandle os fuel hProcess pid s = Done h s' ->
  st_statics s' = st_statics s /\
  (h = NULL ->
   exists e new,
     st_errors s' = e :: new ++ st_errors s /\
     (e = NoSuchProcess pid \/ e = WindowsError
      \/ PS__TESTING os = true /\ exists msg, e = PsError msg)) /\
  (h <> NULL ->
   exists new,
     st_errors s' = new ++ st_errors s
     /\ (PS__TESTING os = false -> new = [])).
Proof.
  unfold ps__check_phandle. intros H.
  apply bind_Done in H. destruct H as (r & s1 & Hr & H).
  pose proof (is_phandle_running_resources _ _ _ _ _ _ Hr)
    as (_ & Hnull & _).
  apply is_phandle_running_codes in Hr.
  destruct Hr as (Hst & Hrange & Hassert & Hother).
  destruct (Z.eqb_spec r 1) as [E1|E1].
  - apply ret_Done in H. destruct H as [-> ->]. split; [exact Hst|]. split.
    + intros E. destruct (Hnull E) as [F _]. contradiction.
    + intros _. destruct Hother as (new & He & Hnil); [lia|].
      exists new. split; [exact He|]. intros Ht. exact (Hnil Ht E1).
  - destruct (Z.eqb_spec r 0) as [E0|E0];
      [|destruct (Z.eqb_spec r (-1)) as [Em|Em]].
    + destruct Hother as (new & He & _); [lia|].
      minv H. cbn. split; [exact Hst|]. split; [|intros F; now elim F].
      intros _. exists (NoSuchProcess pid), new. rewrite He. auto.
    + destruct Hother as (new & He & _); [lia|].
      minv H. cbn. split; [exact Hst|]. split; [|intros F; now elim F].
      intros _. exists WindowsError, new. rewrite He. auto.
    + assert (E2 : r = -2) by lia.
      destruct (Hassert E2) as (Ht & msg & He).
      apply ret_Done in H. destruct H as [-> ->].
      split; [exact Hst|]. split; [|intros F; now elim F].
      intros _. exists (PsError msg), []. split; [exact He|].
      right. right. eauto.
Qed.

Lemma handle_from_pid_waccess_errors fuel pid access s h s' :
  ps__handle_from_pid_waccess os fuel pid access s = Done h s' ->
  st_statics s' = st_statics s /\
  (h = NULL ->
   exists e new,
     st_errors s' = e :: new ++ st_errors s /\
     (e = AccessDenied /\ pid = 0
      \/ pid <> 0
         /\ (e = NoSuchProcess pid \/ e = WindowsError
             \/ PS__TESTING os = true /\ exists msg, e = PsError msg))) /\
  (h <> NULL ->
   pid <> 0 /\ h = fst (OpenProcess os access pid (st_world s))
   /\ exists new,
       st_errors s' = new ++ st_errors s
       /\ (PS__TESTING os = false -> new = [])).
Proof.
  unfold ps__handle_from_pid_waccess. intros H.
  destruct (Z.eqb_spec pid 0) as [E|E].
  - minv H. cbn. split; [reflexivity|]. split; [|intros F; now elim F].
    intros _. exists AccessDenied, []. auto.
  - apply bind_Done in H. destruct H as (h0 & s1 & Ho & H).
    apply open_process_Done in Ho. destruct Ho as (Eh & He1 & Hs1).
    pose proof (check_phandle_resources _ _ _ _ _ _ H) as (_ & Hcase & _).
    apply check_phandle_errors in H. destruct H as (Hst & Hnull & Hok).
    split; [congruence|]. split.
    + intros Eh'. destruct (Hnull Eh') as (e & new & He & Hk).
      exists e, new. rewrite He, He1. auto.
    + intros Hn. split; [exact E|]. split.
      * destruct Hcase as [F|F]; [contradiction|congruence].
      * destruct (Hok Hn) as (new & He & Hnil). exists new.
        split; [congruence|exact Hnil].
Qed.

End GuardOutcome.

(** X4. [ps__is_phandle_running] returns 1, 0, -1 or -2.  It returns 1
    only for a handle that is not NULL, and that handle stays open.  It
    returns -2 only in a testing build, with the message of the failed
    assertion as the latest error; a production build never returns -2. *)
Theorem is_phandle_running_answers :
  forall (os : OS) fuel hProcess pid (s : state os) r s',
    ps__is_phandle_running os fuel hProcess pid s = Done r s' ->
    (r = 1 \/ r = 0 \/ r = -1 \/ r = -2) /\
    (r = 1 -> hProcess <> NULL /\ st_handles s' = st_handles s) /\
    (r = -2 ->
     PS__TESTING os = true
     /\ exists msg, st_errors s' = PsError msg :: st_errors s) /\
    (PS__TESTING os = false -> r <> -2).
Proof.
  intros os fuel hProcess pid s r s' H.
  pose proof (is_phandle_running_resources _ _ _ _ _ _ H)
    as (_ & Hnull & Hopen).
  apply is_phandle_running_codes in H.
  destruct H as (_ & Hrange & Hassert & _).
  split; [exact Hrange|]. split; [|split; [exact Hassert|]].
  - intros E. destruct (Z.eq_dec hProcess NULL) as [Eh|Eh].
    + destruct (Hnull Eh) as [F _]. contradiction.
    + split; [exact Eh|]. exact (proj1 (Hopen Eh) E).
  - intros Ht E. destruct (Hassert E) as [F _]. congruence.
Qed.

Lemma is_phandle_running_answers_witness :
  let s' :=
    set_errors (sim_os sim_inconsistent)
      [PsError "iphr: GetExitCodeProcess() -> STILL_ACTIVE"]
      (set_world (sim_os sim_inconsistent) (0x10000 + 4096 + 16)
         (sim_state sim_inconsistent)) in
  (-2 = 1 \/ -2 = 0 \/ -2 = -1 \/ -2 = -2) /\
  (-2 = 1 ->
   0x1F4 <> NULL /\ st_handles s' = st_handles (sim_state sim_inconsistent)) /\
  (-2 = -2 ->
   PS__TESTING (sim_os sim_inconsistent) = true
   /\ exists msg,
       st_errors s' = PsError msg :: st_errors (sim_state sim_inconsistent)) /\
  (PS__TESTING (sim_os sim_inconsistent) = false -> -2 <> -2).
Proof.
  intros s'.
  refine (is_phandle_running_answers (sim_os sim_inconsistent) 1 0x1F4 1234
            (sim_state sim_inconsistent) (-2) s' _).
  reflexivity.
Defined.

(** X5. [ps__handle_from_pid_waccess] never leaks a handle.  When it
    returns NULL the open handles are as before the call: whatever
    OpenProcess returned has been closed again.  When it returns a handle,
    the pid is not 0, the handle is the one OpenProcess returned for it, and
    it is the one handle added.  Nothing stays allocated and the statics of
    the file are not touched. *)
Theorem handle_from_pid_never_leaks :
  forall (os : OS) fuel pid access (s : state os) h s',
    ps__handle_from_pid_waccess os fuel pid access s = Done h s' ->
    st_heap s' = st_heap s /\
    st_statics s' = st_statics s /\
    (h = NULL -> st_handles s' = st_handles s) /\
    (h <> NULL ->
     pid <> 0 /\ h = fst (OpenProcess os access pid (st_world s))
     /\ st_handles s' = h :: st_handles s).
Proof.
  intros os fuel pid access s h s' H.
  pose proof (handle_from_pid_waccess_resources _ _ _ _ _ _ H)
    as (Hheap & Hnull & Hopen).
  apply handle_from_pid_waccess_errors in H. destruct H as (Hst & _ & Hok).
  split; [exact Hheap|]. split; [exact Hst|]. split; [exact Hnull|].
  intros Hn. destruct (Hok Hn) as (Hp & Eh & _). auto.
Qed.

Lemma handle_from_pid_never_leaks_witness :
  let s' := set_handles (sim_os sim_native) [0x1F4] (sim_state sim_native) in
  st_heap s' = st_heap (sim_state sim_native) /\
  st_statics s' = st_statics (sim_state sim_native) /\
  (0x1F4 = NULL -> st_handles s' = st_handles (sim_state sim_native)) /\
  (0x1F4 <> NULL ->
   1234 <> 0
   /\ 0x1F4 = fst (OpenProcess (sim_os sim_native) 0x410 1234
                     (st_world (sim_state sim_native)))
   /\ st_handles s' = 0x1F4 :: st_handles (sim_state sim_native)).
Proof.
  intros s'.
  refine (handle_from_pid_never_leaks (sim_os sim_native) 0 1234 0x410
            (sim_state sim_native) 0x1F4 s' _).
  reflexivity.
Defined.

(** X6. NULL from [ps__handle_from_pid_waccess] always comes with an
    error raised in this call.  The latest one is AccessDenied (for pid 0
    and only then), NoSuchProcess for the pid, WindowsError or, in a
    testing build only, the message of a failed assertion.  A handle
    returned by a production build comes with no error raised. *)
Theorem handle_from_pid_null_sets_error :
  forall (os : OS) fuel pid access (s : state os) h s',
    ps__handle_from_pid_waccess os fuel pid access s = Done h s' ->
    (h = NULL ->
     exists e new,
       st_errors s' = e :: new ++ st_errors s /\
       (e = AccessDenied /\ pid = 0
        \/ pid <> 0
           /\ (e = NoSuchProcess pid \/ e = WindowsError
               \/ PS__TESTING os = true /\ exists msg, e = PsError msg))) /\
    (h <> NULL -> PS__TESTING os = false -> st_errors s' = st_errors s).
Proof.
  intros os fuel pid access s h s' H.
  apply handle_from_pid_waccess_errors in H. destruct H as (_ & Hnull & Hok).
  split; [exact Hnull|]. intros Hn Ht.
  destruct (Hok Hn) as (_ & _ & new & He & Hnil).
  rewrite He, (Hnil Ht). reflexivity.
Qed.

Lemma handle_from_pid_null_sets_error_witness :
  let s' := set_errors (sim_os sim_gone) [NoSuchProcess 1234]
              (sim_state sim_gone) in
  (NULL = NULL ->
   exists e new,
     st_errors s' = e :: new ++ st_errors (sim_state sim_gone) /\
     (e = AccessDenied /\ 1234 = 0
      \/ 1234 <> 0
         /\ (e = NoSuchProcess 1234 \/ e = WindowsError
             \/ PS__TESTING (sim_os sim_gone) = true
                /\ exists msg, e = PsError msg))) /\
  (NULL <> NULL ->
   PS__TESTING (sim_os sim_gone) = false ->
   st_errors s' = st_errors (sim_state sim_gone)).
Proof.
  intros s'.
  refine (handle_from_pid_null_sets_error (sim_os sim_gone) 1 1234 0x410
            (sim_state sim_gone) NULL s' _).
  reflexivity.
Defined.

(** X7. The outcomes of a production build for a pid other than 0, read
    off the answers of the system.  OpenProcess fails: NULL, with
    NoSuchProcess raised when GetLastError is ERROR_INVALID_PARAMETER and
    WindowsError otherwise.  OpenProcess succeeds and the exit code is
    STILL_ACTIVE: the handle, now open, without any enumeration (whatever
    the loop budget).  OpenProcess succeeds and the exit-code query fails:
    the handle is closed and NULL is returned with WindowsError raised. *)
Theorem handle_from_pid_production :
  forall (os : OS) fuel pid access (s : state os) h w,
    PS__TESTING os = false ->
    pid <> 0 ->
    OpenProcess os access pid (st_world s) = (h, w) ->
    (h = NULL ->
     ps__handle_from_pid_waccess os fuel pid access s
     = Done NULL
         (set_errors os
            ((if GetLastError os w =? ERROR_INVALID_PARAMETER
              then NoSuchProcess pid else WindowsError) :: st_errors s)
            (set_world os w s))) /\
    (h <> NULL ->
     forall code w',
       GetExitCodeProcess os h w = (code, w') ->
       (code = Some STILL_ACTIVE ->
        ps__handle_from_pid_waccess os fuel pid access s
        = Done h (set_handles os (h :: st_handles s) (set_world os w' s))) /\
       (code = None ->
        ps__handle_from_pid_waccess os fuel pid access s
        = Done NULL
            (set_errors os (WindowsError :: st_errors s)
               (set_world os (CloseHandle os h w') s)))).
Proof.
  intros os fuel pid access s h w Ht Hpid Hopen.
  unfold ps__handle_from_pid_waccess.
  apply Z.eqb_neq in Hpid. rewrite Hpid.
  rewrite (bind_eq _ _ _ _ _ (open_process_eq _ _ _ _ _ Hopen)).
  unfold ps__check_phandle, ps__is_phandle_running.
  split.
  - intros ->. cbn [Z.eqb NULL].
    unfold ps__assert_pid_not_exists. rewrite Ht.
    unfold bind, sys, ret. cbn [st_world set_world].
    destruct (GetLastError os w =? ERROR_INVALID_PARAMETER); reflexivity.
  - intros Hh code w' Hcode. apply Z.eqb_neq in Hh. rewrite Hh.
    unfold ps__assert_pid_exists, ps__assert_pid_not_exists. rewrite Ht.
    split.
    + intros ->. unfold bind, sys, ret. cbn [st_world set_world set_handles].
      rewrite Hcode, Z.eqb_refl. reflexivity.
    + intros ->. unfold bind, sys, ret, close_handle, bind, sys_.
      cbn [st_world set_world set_handles]. rewrite Hcode. cbn.
      rewrite Z.eqb_refl. reflexivity.
Qed.

Lemma handle_from_pid_production_witness :
  ps__handle_from_pid_waccess (sim_os sim_gone) 0 1234 0x410
    (sim_state sim_gone)
  = Done NULL
      (set_errors (sim_os sim_gone) [NoSuchProcess 1234] (sim_state sim_gone))
  /\ ps__handle_from_pid_waccess (sim_os sim_native) 0 1234 0x410
       (sim_state sim_native)
     = Done 0x1F4
         (set_handles (sim_os sim_native) [0x1F4] (sim_state sim_native)).
Proof.
  split.
  - refine (proj1 (handle_from_pid_production (sim_os sim_gone) 0 1234 0x410
                     (sim_state sim_gone) NULL 0x10000 _ _ _) _);
      [reflexivity|discriminate|reflexivity|reflexivity].
  - refine (proj1 (proj2 (handle_from_pid_production (sim_os sim_native) 0
                            1234 0x410 (sim_state sim_native) 0x1F4 0x10000
                            _ _ _) _ (Some STILL_ACTIVE) 0x10000 _) _);
      [reflexivity|discriminate|reflexivity|discriminate|reflexivity
      |reflexivity].
Defined.

Section Listed.

Context {os : OS}.
Implicit Types s : state os.

Variable pids : list Z.
Hypothesis live_pids_static : forall w, fst (live_pids os w) = Some pids.
Hypothesis pids_small : Z.of_nat (length pids) + 1024 < 2 ^ 30.

Variable fuel : nat.
Hypothesis enough : Z.of_nat (length pids) / 1024 < Z.of_nat fuel.

(** A process that is listed and answers the exit-code query. *)
Lemma is_phandle_running_listed hProcess pid s code w' :
  In pid pids ->
  hProcess <> NULL ->
  GetExitCodeProcess os hProcess (st_world s) = (Some code, w') ->
  exists r s',
    ps__is_phandle_running os fuel hProcess pid s = Done r s' /\
    (r = 1
     /\ (st_errors s' = st_errors s
         \/ PS__TESTING os = true /\ code = STILL_ACTIVE
            /\ st_errors s' = NoMemory :: st_errors s)
     \/ r = 0 /\ code <> STILL_ACTIVE
        /\ st_errors s' = NoMemory :: st_errors s
        /\ exists n w0, fst (malloc os n w0) = NULL).
Proof using live_pids_static pids_small enough.
  intros Hin Hh Hcode. unfold ps__is_phandle_running.
  apply Z.eqb_neq in Hh. rewrite Hh.
  rewrite (bind_eq _ _ _ _ _ (sys_eq _ _ _ _ Hcode)).
  set (s1 := set_world os w' s).
  destruct (pid_in_pids_static pids live_pids_static pids_small fuel enough
              pid s1) as (m & s2 & Hrun & _ & Hcase).
  change (st_errors s1) with (st_errors s) in Hcase.
  destruct (Z.eqb_spec code STILL_ACTIVE) as [Ec|Ec].
  - assert (Ha : forall err,
               exists s3,
                 ps__assert_pid_exists os fuel pid err s1 = Done 1 s3
                 /\ (st_errors s3 = st_errors s
                     \/ PS__TESTING os = true
                        /\ st_errors s3 = NoMemory :: st_errors s)).
    { intros err. unfold ps__assert_pid_exists.
      destruct (PS__TESTING os) eqn:Et.
      - rewrite (bind_eq _ _ _ _ _ Hrun).
        destruct Hcase as [(-> & _ & He)|[(-> & Hn & _)|(-> & He & _)]];
          [|contradiction|]; eexists; (split; [reflexivity|]); auto.
      - eexists. split; [reflexivity|]. now left. }
    match goal with
    | |- context [ps__assert_pid_exists os fuel pid ?e] =>
        destruct (Ha e) as (s3 & Ha' & He)
    end.
    rewrite (bind_eq _ _ _ _ _ Ha').
    eexists. eexists. split; [reflexivity|]. left. split; [reflexivity|].
    destruct He as [He|[Ht He]]; auto.
  - rewrite (bind_eq _ _ _ _ _ Hrun).
    destruct Hcase as [(-> & _ & He)|[(-> & Hn & _)|(-> & He & Hf)]];
      [|contradiction|].
    + eexists. eexists. split; [reflexivity|]. left. auto.
    + eexists. eexists. split; [reflexivity|]. right. cbn. auto.
Qed.

Lemma handle_from_pid_listed_static pid access s h w code w' :
  In pid pids ->
  pid <> 0 ->
  OpenProcess os access pid (st_world s) = (h, w) ->
  h <> NULL ->
  GetExitCodeProcess os h w = (Some code, w') ->
  exists r s',
    ps__handle_from_pid_waccess os fuel pid access s = Done r s' /\
    st_heap s' = st_heap s /\
    (r = h /\ st_handles s' = h :: st_handles s
     /\ (st_errors s' = st_errors s
         \/ PS__TESTING os = true /\ code = STILL_ACTIVE
            /\ st_errors s' = NoMemory :: st_errors s)
     \/ r = NULL /\ code <> STILL_ACTIVE
        /\ st_handles s' = st_handles s
        /\ st_errors s' = NoSuchProcess pid :: NoMemory :: st_errors s
        /\ exists n w0, fst (malloc os n w0) = NULL).
Proof using live_pids_static pids_small enough.
  intros Hin Hpid Hopen Hh Hcode.
  assert (Hrun : exists r s',
             ps__handle_from_pid_waccess os fuel pid access s = Done r s' /\
             (r = h
              /\ (st_errors s' = st_errors s
                  \/ PS__TESTING os = true /\ code = STILL_ACTIVE
                     /\ st_errors s' = NoMemory :: st_errors s)
              \/ r = NULL /\ code <> STILL_ACTIVE
                 /\ st_errors s' = NoSuchProcess pid :: NoMemory :: st_errors s
                 /\ exists n w0, fst (malloc os n w0) = NULL)).
  { unfold ps__handle_from_pid_waccess.
    pose proof Hpid as Hpid'. apply Z.eqb_neq in Hpid'. rewrite Hpid'.
    rewrite (bind_eq _ _ _ _ _ (open_process_eq _ _ _ _ _ Hopen)).
    pose proof Hh as Hh'. apply Z.eqb_neq in Hh'. rewrite Hh'.
    set (s1 := set_handles os (h :: st_handles s) (set_world os w s)).
    destruct (is_phandle_running_listed h pid s1 code w' Hin Hh Hcode)
      as (r & s2 & Hr & Hcase).
    change (st_errors s1) with (st_errors s) in Hcase.
    unfold ps__check_phandle. rewrite (bind_eq _ _ _ _ _ Hr).
    destruct Hcase as [(-> & He)|(-> & Hc & He & Hf)].
    - eexists. eexists. split; [reflexivity|]. left. auto.
    - eexists. eexists. split; [reflexivity|]. right. cbn.
      rewrite He. auto. }
  destruct Hrun as (r & s' & Hrun & Hcase).
  exists r, s'. split; [exact Hrun|].
  pose proof (handle_from_pid_waccess_resources _ _ _ _ _ _ Hrun)
    as (Hheap & Hnull & Hkeep).
  split; [exact Hheap|].
  destruct Hcase as [(-> & He)|(-> & Hc & He & Hf)].
  - left. split; [reflexivity|]. split; [exact (Hkeep Hh)|exact He].
  - right. split; [reflexivity|]. split; [exact Hc|].
    split; [exact (Hnull eq_refl)|]. auto.
Qed.

End Listed.

(** X8. On a system whose enumeration is steady, a pid that is listed, that
    can be opened and that answers the exit-code query gets its handle
    back, whatever the exit code and in both builds: no assertion fails.
    The one exception is an allocator that fails during the membership test
    after an exit code other than STILL_ACTIVE; then the handle is closed
    and NoSuchProcess is raised on top of NoMemory. *)
Theorem handle_from_pid_listed :
  forall (os : OS) (pids : list Z) fuel pid access (s : state os)
         h w code w',
    (forall w0, fst (live_pids os w0) = Some pids) ->
    Z.of_nat (length pids) + 1024 < 2 ^ 30 ->
    Z.of_nat (length pids) / 1024 < Z.of_nat fuel ->
    In pid pids ->
    pid <> 0 ->
    OpenProcess os access pid (st_world s) = (h, w) ->
    h <> NULL ->
    GetExitCodeProcess os h w = (Some code, w') ->
    exists r s',
      ps__handle_from_pid_waccess os fuel pid access s = Done r s' /\
      st_heap s' = st_heap s /\
      (r = h /\ st_handles s' = h :: st_handles s
       /\ (st_errors s' = st_errors s
           \/ PS__TESTING os = true /\ code = STILL_ACTIVE
              /\ st_errors s' = NoMemory :: st_errors s)
       \/ r = NULL /\ code <> STILL_ACTIVE
          /\ st_handles s' = st_handles s
          /\ st_errors s' = NoSuchProcess pid :: NoMemory :: st_errors s
          /\ exists n w0, fst (malloc os n w0) = NULL).
Proof.
  intros os pids fuel pid access s h w code w' Hstatic Hsmall Hfuel.
  apply handle_from_pid_listed_static; assumption.
Qed.

Lemma handle_from_pid_listed_witness :
  exists r s',
    ps__handle_from_pid_waccess (sim_os sim_exited_no_memory) 1 1234 0x410
      (sim_state sim_exited_no_memory)
    = Done r s' /\
    st_heap s' = st_heap (sim_state sim_exited_no_memory) /\
    (r = 0x1F4
     /\ st_handles s' = 0x1F4 :: st_handles (sim_state sim_exited_no_memory)
     /\ (st_errors s' = st_errors (sim_state sim_exited_no_memory)
         \/ PS__TESTING (sim_os sim_exited_no_memory) = true
            /\ 0 = STILL_ACTIVE
            /\ st_errors s'
               = NoMemory :: st_errors (sim_state sim_exited_no_memory))
     \/ r = NULL /\ 0 <> STILL_ACTIVE
        /\ st_handles s' = st_handles (sim_state sim_exited_no_memory)
        /\ st_errors s'
           = NoSuchProcess 1234 :: NoMemory
             :: st_errors (sim_state sim_exited_no_memory)
        /\ exists n w0, fst (malloc (sim_os sim_exited_no_memory) n w0) = NULL).
Proof.
  refine (handle_from_pid_listed (sim_os sim_exited_no_memory) [0; 4; 1234]
            1 1234 0x410 (sim_state sim_exited_no_memory) 0x1F4 0x10000 0
            0x10000 _ _ _ _ _ _ _ _).
  - intros w0. reflexivity.
  - reflexivity.
  - reflexivity.
  - right. right. left. reflexivity.
  - discriminate.
  - reflexivity.
  - discriminate.
  - reflexivity.
Defined.

(** ** Errors and entry points of [ps__get_process_data] *)

Section ReaderErrors.

Context {os : OS}.
Implicit Types s : state os.

(** The walk raises one error when it fails and none when it succeeds;
    an entry point it looked up stays looked up. *)
Lemma locate_field_errors hProcess kind s r s' :
  locate_field os hProcess kind s = Done r s' ->
  match r with
  | inl (at_step, _) =>
      (at_step = StepBitness \/ at_step = StepBasicInfo
       \/ at_step = StepReadPeb \/ at_step = StepReadParams)
      /\ st_errors s' = WindowsError :: st_errors s
      \/ at_step = StepResolve
         /\ (st_errors s'
             = PsError "NtWow64QueryInformationProcess64 missing"
               :: st_errors s
             \/ st_errors s'
                = PsError "NtWow64ReadVirtualMemory64 missing"
                  :: st_errors s)
  | inr _ => st_errors s' = st_errors s
  end.
Proof.
  unfold locate_field, locate_native, locate_wider, read_blocks.
  intros H. minv H; cbn; auto 10.
Qed.

Lemma resolve_length_errors hProcess kind l s r s' :
  resolve_length os hProcess kind l s = Done r s' ->
  match r with
  | inl (at_step, _) =>
      at_step = StepProbe
      /\ (st_errors s' = WindowsError :: st_errors s
          \/ st_errors s'
             = PsError "NtWow64QueryVirtualMemory64 missing" :: st_errors s)
  | inr _ => st_errors s' = st_errors s
  end.
Proof.
  unfold resolve_length, ps__get_process_region_size,
    ps__get_process_region_size64.
  intros H. destruct kind; minv H; cbn; auto.
Qed.

Lemma copy_region_errors hProcess l s r s' :
  copy_region os hProcess l s = Done r s' ->
  match r with
  | inl (at_step, _) =>
      at_step = StepAlloc /\ st_errors s' = NoMemory :: st_errors s
      \/ at_step = StepCopy /\ st_errors s' = WindowsError :: st_errors s
  | inr _ => st_errors s' = st_errors s
  end.
Proof.
  unfold copy_region, c_malloc.
  intros H. minv H; cbn; auto.
Qed.

Lemma process_data_body_errors hProcess kind s r s' :
  process_data_body os hProcess kind s = Done r s' ->
  match r with
  | inl (at_step, _) =>
      exists e,
        st_errors s' = e :: st_errors s /\
        match at_step with
        | StepOpen => False
        | StepResolve =>
            e = PsError "NtWow64QueryInformationProcess64 missing"
            \/ e = PsError "NtWow64ReadVirtualMemory64 missing"
        | StepProbe =>
            e = WindowsError
            \/ e = PsError "NtWow64QueryVirtualMemory64 missing"
        | StepAlloc => e = NoMemory
        | _ => e = WindowsError
        end
  | inr _ => st_errors s' = st_errors s
  end.
Proof.
  unfold process_data_body, bindE. intros H.
  apply bind_Done in H. destruct H as (r1 & s1 & H1 & H).
  apply locate_field_errors in H1.
  destruct r1 as [[e buf]|l1].
  { apply ret_Done in H. destruct H as [-> ->].
    destruct H1 as [[Hst He]|[-> [He|He]]].
    - eexists. split; [exact He|].
      destruct Hst as [-> |[-> |[-> | ->]]]; reflexivity.
    - eexists. split; [exact He|]. auto.
    - eexists. split; [exact He|]. auto. }
  apply bind_Done in H. destruct H as (r2 & s2 & H2 & H).
  apply resolve_length_errors in H2.
  destruct r2 as [[e buf]|l2].
  { apply ret_Done in H. destruct H as [-> ->].
    destruct H2 as [-> [He|He]]; eexists; rewrite He, H1; split;
      [reflexivity|auto|reflexivity|auto]. }
  apply bind_Done in H. destruct H as (r3 & s3 & H3 & H).
  apply copy_region_errors in H3.
  destruct r3 as [[e buf]|b]; apply ret_Done in H; destruct H as [-> ->].
  - destruct H3 as [[-> He]|[-> He]]; eexists; rewrite He, H2, H1; split;
      reflexivity.
  - congruence.
Qed.

End ReaderErrors.

Lemma get_process_data_steps_errors :
  forall (os : OS) fuel pid kind pdata psize (s : state os)
         code failed pdata' psize' s',
    ps__get_process_data_steps os fuel pid kind pdata psize s
    = Done (code, failed, pdata', psize') s' ->
    ps__get_process_data os fuel pid kind pdata psize s
    = Done (code, pdata', psize') s' /\
    match failed with
    | Some at_step =>
        code = -1 /\
        exists e new,
          st_errors s' = e :: new ++ st_errors s /\
          (PS__TESTING os = false -> at_step <> StepOpen -> new = []) /\
          match at_step with
          | StepOpen =>
              e = AccessDenied \/ e = NoSuchProcess (DWORD_of pid)
              \/ e = WindowsError \/ exists msg, e = PsError msg
          | StepResolve =>
              e = PsError "NtWow64QueryInformationProcess64 missing"
              \/ e = PsError "NtWow64ReadVirtualMemory64 missing"
          | StepProbe =>
              e = WindowsError
              \/ e = PsError "NtWow64QueryVirtualMemory64 missing"
          | StepAlloc => e = NoMemory
          | _ => e = WindowsError
          end
    | None =>
        code = 0 /\ (PS__TESTING os = false -> st_errors s' = st_errors s)
    end.
Proof.
  intros os fuel pid kind pdata psize s code failed pdata' psize' s' H.
  split.
  { rewrite get_process_data_of_steps, H. reflexivity. }
  rewrite get_process_data_steps_unfold in H.
  apply bind_Done in H. destruct H as (h & s1 & Ho & H).
  unfold ps__handle_from_pid in Ho.
  apply handle_from_pid_waccess_errors in Ho.
  destruct Ho as (_ & Hnull & Hopen).
  destruct (Z.eqb_spec h NULL) as [Eh|Eh].
  - apply ret_Done in H. destruct H as [E ->]. injection E as -> -> -> ->.
    split; [reflexivity|].
    destruct (Hnull Eh) as (e & new & He & Hk).
    exists e, new. split; [exact He|]. split; [intros _ F; now elim F|].
    destruct Hk as [[-> _]|[_ [-> |[-> |[_ (msg & ->)]]]]]; eauto.
  - destruct (Hopen Eh) as (_ & _ & new & He1 & Hnil).
    apply bind_Done in H. destruct H as (r & s2 & Hb & H).
    apply process_data_body_errors in Hb.
    destruct r as [[at_step buf]|[b size]].
    + apply bind_Done in H. destruct H as (u1 & s3 & Hc & H).
      cbn [negb] in Hc.
      apply close_handle_frame in Hc. destruct Hc as [He3 _].
      apply bind_Done in H. destruct H as (u2 & s4 & Hf & H).
      apply ret_Done in H. destruct H as [E ->]. injection E as -> -> -> ->.
      assert (He4 : st_errors s4 = st_errors s3).
      { destruct (negb (buf =? NULL)).
        - now apply c_free_frame in Hf.
        - apply ret_Done in Hf. now destruct Hf as [_ ->]. }
      destruct Hb as (e & He2 & Hk).
      split; [reflexivity|]. exists e, new.
      split; [congruence|]. split; [intros Ht _; exact (Hnil Ht)|].
      destruct at_step; try exact Hk. contradiction.
    + apply bind_Done in H. destruct H as (u1 & s3 & Hc & H).
      apply close_handle_frame in Hc. destruct Hc as [He3 _].
      apply ret_Done in H. destruct H as [E ->]. injection E as -> -> -> ->.
      split; [reflexivity|]. intros Ht.
      rewrite He3, Hb, He1, (Hnil Ht). reflexivity.
Qed.

(** X9. The error behind each failure of [ps__get_process_data].  When
    the open fails the call returns -1 in the state [ps__handle_from_pid]
    left, whose latest error is AccessDenied, NoSuchProcess for the pid,
    WindowsError or a message.  When a step after the open fails
    ([step_fails]) the call returns -1 and has raised one error since the
    open, [error_of] that failure: NoMemory when the allocation fails, the
    name of the entry point followed by " missing" when a looked-up Wow64
    function is not there, WindowsError when the system refuses a query
    or a read; and every call that returns -1 after the open has ended
    so, for one of these failures.  A finished call that returns -1 has
    raised an error in this call; in a production build the open that
    succeeds raises none, and neither does a call that returns 0. *)
Theorem get_process_data_sets_error :
  forall (os : OS) fuel pid kind pdata psize (s : state os),
    (forall h s1,
        ps__handle_from_pid os fuel (DWORD_of pid) s = Done h s1 ->
        (h = NULL ->
         ps__get_process_data os fuel pid kind pdata psize s
         = Done (-1, pdata, psize) s1 /\
         exists e new,
           st_errors s1 = e :: new ++ st_errors s /\
           (e = AccessDenied \/ e = NoSuchProcess (DWORD_of pid)
            \/ e = WindowsError \/ exists msg, e = PsError msg)) /\
        (h <> NULL ->
         (PS__TESTING os = false -> st_errors s1 = st_errors s) /\
         (forall f,
             step_fails os h kind s1 f ->
             exists s',
               ps__get_process_data os fuel pid kind pdata psize s
               = Done (-1, pdata, psize) s'
               /\ st_errors s' = error_of f :: st_errors s1) /\
         (forall pdata' psize' s',
             ps__get_process_data os fuel pid kind pdata psize s
             = Done (-1, pdata', psize') s' ->
             exists f,
               step_fails os h kind s1 f
               /\ st_errors s' = error_of f :: st_errors s1)))
    /\ (forall code pdata' psize' s',
           ps__get_process_data os fuel pid kind pdata psize s
           = Done (code, pdata', psize') s' ->
           (code = -1 -> exists e new, st_errors s' = e :: new ++ st_errors s)
           /\ (code = 0 -> PS__TESTING os = false ->
               st_errors s' = st_errors s))
    /\ error_of AllocationFails = NoMemory
    /\ error_of (EntryPointMissing "NtWow64QueryInformationProcess64")
       = PsError "NtWow64QueryInformationProcess64 missing"
    /\ error_of (EntryPointMissing "NtWow64ReadVirtualMemory64")
       = PsError "NtWow64ReadVirtualMemory64 missing"
    /\ error_of (EntryPointMissing "NtWow64QueryVirtualMemory64")
       = PsError "NtWow64QueryVirtualMemory64 missing"
    /\ forall f,
         f <> AllocationFails ->
         (forall name, f <> EntryPointMissing name) ->
         error_of f = WindowsError.
Proof.
  intros os fuel pid kind pdata psize s. split; [|split].
  - intros h s1 Ho. split.
    + intros ->. split; [now apply get_process_data_after_failed_open|].
      unfold ps__handle_from_pid in Ho.
      apply handle_from_pid_waccess_errors in Ho.
      destruct Ho as (_ & Hnull & _).
      destruct (Hnull eq_refl) as (e & new & He & Hk).
      exists e, new. split; [exact He|].
      destruct Hk as [[-> _]|[_ [-> |[-> |[_ (msg & ->)]]]]]; eauto.
    + intros Hne. split.
      * intros Ht. unfold ps__handle_from_pid in Ho.
        apply handle_from_pid_waccess_errors in Ho.
        destruct Ho as (_ & _ & Hopen).
        destruct (Hopen Hne) as (_ & _ & new & He & Hnil).
        rewrite He, (Hnil Ht). reflexivity.
      * split.
        -- intros f Hf.
           destruct (get_process_data_step_fails fuel pid kind pdata psize
                       _ _ _ _ Ho Hne Hf) as (s' & Hr & _ & _ & He).
           exists s'. auto.
        -- intros pdata' psize' s' H.
           destruct (get_process_data_met fuel pid kind pdata psize _ _ _
                       _ _ _ _ Ho Hne H) as [Hm _].
           destruct (Hm eq_refl) as (f & Hf).
           exists f. split; [exact Hf|].
           destruct (get_process_data_step_fails fuel pid kind pdata psize
                       _ _ _ _ Ho Hne Hf) as (s2 & Hr & _ & _ & He).
           rewrite H in Hr. injection Hr as _ _ <-. exact He.
  - intros code pdata' psize' s' H.
    rewrite get_process_data_of_steps in H.
    destruct (ps__get_process_data_steps os fuel pid kind pdata psize s)
      as [[[[code1 failed] pdata1] psize1] s1| |] eqn:Hs; try discriminate.
    injection H as -> -> -> ->.
    apply get_process_data_steps_errors in Hs. destruct Hs as [_ Hs].
    destruct failed as [at_step|].
    + destruct Hs as (-> & e & new & He & _). split.
      * intros _. exists e, new. exact He.
      * discriminate.
    + destruct Hs as (-> & Hs). split; [discriminate|]. intros _. exact Hs.
  - repeat split. intros f Ha Hm.
    destruct f; try reflexivity.
    + now elim (Hm name).
    + now elim Ha.
Qed.

Lemma get_process_data_sets_error_witness :
  exists s',
    ps__get_process_data (sim_os sim_no_basic_information) 1 1234 KIND_CWD
      null_buffer 0 (sim_state sim_no_basic_information)
    = Done (-1, null_buffer, 0) s'
    /\ st_errors s' = [WindowsError].
Proof.
  pose (c := sim_no_basic_information).
  pose (s1 := set_handles (sim_os c) [0x1F4] (sim_state c)).
  pose (s2 := set_statics (sim_os c)
                (set_NtQueryInformationProcess true statics0)
                (set_world (sim_os c) (0x10000 : World (sim_os c)) s1)).
  refine (proj1 (proj2 (proj2 (proj1 (get_process_data_sets_error
                                        (sim_os c) 1 1234 KIND_CWD
                                        null_buffer 0 (sim_state c))
                                 0x1F4 s1 _) _))
            BasicInformationFails _).
  - reflexivity.
  - discriminate.
  - refine (fails_basic (sim_os c) 0x1F4 KIND_CWD s1 NULL
              (set_world (sim_os c) (0x10000 : World (sim_os c)) s2)
              (0x10000 : World (sim_os c)) _ _ _).
    + exact (known_win64 (sim_os c) 0x1F4 s1 s2 NULL
               (0x10000 : World (sim_os c)) eq_refl eq_refl eq_refl).
    + reflexivity.
    + reflexivity.
Defined.

Section Unchecked.

Context {os : OS}.
Implicit Types s : state os.

Lemma bind_Undefined {A B} (m : M os A) (k : A -> M os B) s :
  m s = Undefined -> bind m k s = Undefined.
Proof. unfold bind. now intros ->. Qed.

(** [NtQueryInformationProcess] is looked up and called without a test in
    between: when the lookup fails, the query of a wide build and the
    native query of a narrow build go through a null pointer. *)
Lemma locate_field_unchecked hProcess kind s w1 :
  NtQueryInformationProcess_set (st_statics s) = false ->
  GetProcAddress os "NtQueryInformationProcess" (st_world s) = (false, w1) ->
  (WIN64 os = true -> locate_field os hProcess kind s = Undefined) /\
  (WIN64 os = false ->
   forall we they w2 w3,
     IsWow64Process os None w1 = (Some we, w2) ->
     IsWow64Process os (Some hProcess) w2 = (Some they, w3) ->
     we && negb they = false ->
     locate_field os hProcess kind s = Undefined).
Proof.
  intros Hset Hgpa.
  assert (Hres : resolve os NtQueryInformationProcess_set
                   set_NtQueryInformationProcess "NtQueryInformationProcess" s
                 = Done false
                     (set_statics os
                        (set_NtQueryInformationProcess false (st_statics s))
                        (set_world os w1 s))).
  { unfold resolve. rewrite Hset. unfold bind, sys. rewrite Hgpa.
    reflexivity. }
  split.
  - intros Hwin. unfold locate_field. rewrite (bind_eq _ _ _ _ _ Hres), Hwin.
    apply bind_Undefined. reflexivity.
  - intros Hwin we they w2 w3 Hwe Hthey Hmode.
    unfold locate_field. rewrite (bind_eq _ _ _ _ _ Hres), Hwin.
    cbv beta iota.
    set (s1 := set_statics os
                 (set_NtQueryInformationProcess false (st_statics s))
                 (set_world os w1 s)).
    rewrite (bind_eq _ _ _ _ _
               (sys_eq (IsWow64Process os None) s1 (Some we) w2 Hwe)).
    rewrite (bind_eq _ _ _ _ _
               (sys_eq (IsWow64Process os (Some hProcess))
                  (set_world os w2 s1) (Some they) w3 Hthey)).
    unfold bitness_mode. rewrite Hmode. cbv beta iota.
    unfold locate_native. apply bind_Undefined. reflexivity.
Qed.

Lemma get_process_data_body_undefined fuel pid kind pdata psize s h s1 :
  ps__handle_from_pid os fuel (DWORD_of pid) s = Done h s1 ->
  h <> NULL ->
  locate_field os h kind s1 = Undefined ->
  ps__get_process_data os fuel pid kind pdata psize s = Undefined.
Proof.
  intros Ho Hh Hl.
  rewrite get_process_data_of_steps, get_process_data_steps_unfold.
  rewrite (bind_eq _ _ _ _ _ Ho). apply Z.eqb_neq in Hh. rewrite Hh.
  rewrite bind_Undefined; [reflexivity|].
  unfold process_data_body, bindE. now apply bind_Undefined.
Qed.

End Unchecked.

(** X10. [NtQueryInformationProcess] is looked up with GetProcAddress and
    called without a test in between.  When it has not been resolved before
    and the lookup fails, a call for a process that can be opened has no
    defined behaviour: always in a 64 bit build, and in a 32 bit build when
    the target is not a wider process. *)
Theorem get_process_data_unchecked_entry_point :
  forall (os : OS) fuel pid kind pdata psize (s : state os) h s1 w1,
    ps__handle_from_pid os fuel (DWORD_of pid) s = Done h s1 ->
    h <> NULL ->
    NtQueryInformationProcess_set (st_statics s1) = false ->
    GetProcAddress os "NtQueryInformationProcess" (st_world s1)
    = (false, w1) ->
    (WIN64 os = true ->
     ps__get_process_data os fuel pid kind pdata psize s = Undefined) /\
    (WIN64 os = false ->
     forall we they w2 w3,
       IsWow64Process os None w1 = (Some we, w2) ->
       IsWow64Process os (Some h) w2 = (Some they, w3) ->
       we && negb they = false ->
       ps__get_process_data os fuel pid kind pdata psize s = Undefined).
Proof.
  intros os fuel pid kind pdata psize s h s1 w1 Ho Hh Hset Hgpa.
  destruct (locate_field_unchecked h kind s1 w1 Hset Hgpa) as [H64 H32].
  split.
  - intros Hwin.
    exact (get_process_data_body_undefined _ _ _ _ _ _ _ _ Ho Hh (H64 Hwin)).
  - intros Hwin we they w2 w3 Hwe Hthey Hmode.
    exact (get_process_data_body_undefined _ _ _ _ _ _ _ _ Ho Hh
             (H32 Hwin we they w2 w3 Hwe Hthey Hmode)).
Qed.

Lemma get_process_data_unchecked_entry_point_witness :
  ps__get_process_data (sim_os sim_no_ntdll) 1 1234 KIND_CMDLINE
    null_buffer 0 (sim_state sim_no_ntdll)
  = Undefined.
Proof.
  refine (proj1 (get_process_data_unchecked_entry_point (sim_os sim_no_ntdll)
                   1 1234 KIND_CMDLINE null_buffer 0 (sim_state sim_no_ntdll)
                   0x1F4
                   (set_handles (sim_os sim_no_ntdll) [0x1F4]
                      (sim_state sim_no_ntdll))
                   0x10000 _ _ _ _) _);
    [reflexivity|discriminate|reflexivity|reflexivity|reflexivity].
Defined.

Section ReaderStatics.

Context {os : OS}.
Implicit Types s : state os.

Lemma locate_field_statics hProcess kind s r s' :
  locate_field os hProcess kind s = Done r s' ->
  initialBufferSize (st_statics s') = initialBufferSize (st_statics s) /\
  (NtQueryInformationProcess_set (st_statics s) = true ->
   NtQueryInformationProcess_set (st_statics s') = true) /\
  (NtWow64QueryInformationProcess64_set (st_statics s) = true ->
   NtWow64QueryInformationProcess64_set (st_statics s') = true) /\
  (NtWow64ReadVirtualMemory64_set (st_statics s) = true ->
   NtWow64ReadVirtualMemory64_set (st_statics s') = true) /\
  NtWow64QueryVirtualMemory64_set (st_statics s')
  = NtWow64QueryVirtualMemory64_set (st_statics s) /\
  (WIN64 os = true -> NtQueryInformationProcess_set (st_statics s') = true) /\
  (forall l, r = inr l -> l_mode l = TargetWiderThanCaller ->
     NtWow64ReadVirtualMemory64_set (st_statics s') = true).
Proof.
  unfold locate_field, locate_native, locate_wider, read_blocks.
  intros H.
  minv H; cbn in *;
    repeat match goal with
           | |- _ /\ _ => split
           end;
    intros; try reflexivity; try congruence; auto;
    try match goal with
        | H : inr _ = inr ?l, H0 : l_mode ?l = _ |- _ =>
            injection H as <-; cbn in H0; discriminate H0
        end.
  all: match goal with
       | H : negb ?a = false |- ?a = true =>
           destruct a; [reflexivity|discriminate H]
       end.
Qed.

End ReaderStatics.

Section ReaderStatics2.

Context {os : OS}.
Implicit Types s : state os.

Lemma resolve_length_statics hProcess kind l s r s' :
  resolve_length os hProcess kind l s = Done r s' ->
  initialBufferSize (st_statics s') = initialBufferSize (st_statics s) /\
  NtQueryInformationProcess_set (st_statics s')
  = NtQueryInformationProcess_set (st_statics s) /\
  NtWow64QueryInformationProcess64_set (st_statics s')
  = NtWow64QueryInformationProcess64_set (st_statics s) /\
  NtWow64ReadVirtualMemory64_set (st_statics s')
  = NtWow64ReadVirtualMemory64_set (st_statics s) /\
  (NtWow64QueryVirtualMemory64_set (st_statics s) = true ->
   NtWow64QueryVirtualMemory64_set (st_statics s') = true).
Proof.
  unfold resolve_length, ps__get_process_region_size,
    ps__get_process_region_size64.
  intros H.
  destruct kind; minv H; cbn in *;
    repeat match goal with
           | |- _ /\ _ => split
           end;
    intros; try reflexivity; try congruence; auto.
Qed.

Lemma copy_region_statics hProcess l s r s' :
  copy_region os hProcess l s = Done r s' ->
  st_statics s' = st_statics s.
Proof.
  unfold copy_region, c_malloc.
  intros H. minv H; reflexivity.
Qed.

Lemma process_data_body_statics hProcess kind s r s' :
  process_data_body os hProcess kind s = Done r s' ->
  initialBufferSize (st_statics s') = initialBufferSize (st_statics s) /\
  (NtQueryInformationProcess_set (st_statics s) = true ->
   NtQueryInformationProcess_set (st_statics s') = true) /\
  (NtWow64QueryInformationProcess64_set (st_statics s) = true ->
   NtWow64QueryInformationProcess64_set (st_statics s') = true) /\
  (NtWow64ReadVirtualMemory64_set (st_statics s) = true ->
   NtWow64ReadVirtualMemory64_set (st_statics s') = true) /\
  (NtWow64QueryVirtualMemory64_set (st_statics s) = true ->
   NtWow64QueryVirtualMemory64_set (st_statics s') = true) /\
  (WIN64 os = true -> NtQueryInformationProcess_set (st_statics s') = true).
Proof.
  unfold process_data_body, bindE. intros H.
  apply bind_Done in H. destruct H as (r1 & s1 & H1 & H).
  apply locate_field_statics in H1.
  destruct H1 as (A0 & A1 & A2 & A3 & A4 & A5 & _).
  destruct r1 as [[e buf]|l1].
  { apply ret_Done in H. destruct H as [-> ->].
    rewrite A4. auto 10. }
  apply bind_Done in H. destruct H as (r2 & s2 & H2 & H).
  apply resolve_length_statics in H2.
  destruct H2 as (B0 & B1 & B2 & B3 & B4).
  assert (Hs2 : initialBufferSize (st_statics s2)
                = initialBufferSize (st_statics s) /\
                (NtQueryInformationProcess_set (st_statics s) = true ->
                 NtQueryInformationProcess_set (st_statics s2) = true) /\
                (NtWow64QueryInformationProcess64_set (st_statics s) = true ->
                 NtWow64QueryInformationProcess64_set (st_statics s2) = true)
                /\
                (NtWow64ReadVirtualMemory64_set (st_statics s) = true ->
                 NtWow64ReadVirtualMemory64_set (st_statics s2) = true) /\
                (NtWow64QueryVirtualMemory64_set (st_statics s) = true ->
                 NtWow64QueryVirtualMemory64_set (st_statics s2) = true) /\
                (WIN64 os = true ->
                 NtQueryInformationProcess_set (st_statics s2) = true)).
  { rewrite B0, B1, B2, B3. split; [exact A0|].
    split; [exact A1|]. split; [exact A2|]. split; [exact A3|].
    split; [|exact A5]. intros Hq. apply B4. now rewrite A4. }
  destruct r2 as [[e buf]|l2].
  { apply ret_Done in H. destruct H as [-> ->]. exact Hs2. }
  apply bind_Done in H. destruct H as (r3 & s3 & H3 & H).
  apply copy_region_statics in H3.
  assert (E : s' = s3).
  { destruct r3 as [[e buf]|b]; apply ret_Done in H; now destruct H. }
  subst s'. rewrite H3. exact Hs2.
Qed.

End ReaderStatics2.

(** X11. The statics of the file across [ps__get_process_data]: an entry
    point that has been resolved stays resolved, the size hint of
    [ps__get_proc_info] is not touched, and after every call of a 64 bit
    build that got past the open, [NtQueryInformationProcess] is
    resolved. *)
Theorem entry_points_stay_resolved :
  forall (os : OS) fuel pid kind pdata psize (s : state os)
         code failed pdata' psize' s',
    ps__get_process_data_steps os fuel pid kind pdata psize s
    = Done (code, failed, pdata', psize') s' ->
    initialBufferSize (st_statics s') = initialBufferSize (st_statics s) /\
    (NtQueryInformationProcess_set (st_statics s) = true ->
     NtQueryInformationProcess_set (st_statics s') = true) /\
    (NtWow64QueryInformationProcess64_set (st_statics s) = true ->
     NtWow64QueryInformationProcess64_set (st_statics s') = true) /\
    (NtWow64ReadVirtualMemory64_set (st_statics s) = true ->
     NtWow64ReadVirtualMemory64_set (st_statics s') = true) /\
    (NtWow64QueryVirtualMemory64_set (st_statics s) = true ->
     NtWow64QueryVirtualMemory64_set (st_statics s') = true) /\
    (WIN64 os = true -> failed <> Some StepOpen ->
     NtQueryInformationProcess_set (st_statics s') = true).
Proof.
  intros os fuel pid kind pdata psize s code failed pdata' psize' s' H.
  rewrite get_process_data_steps_unfold in H.
  apply bind_Done in H. destruct H as (h & s1 & Ho & H).
  unfold ps__handle_from_pid in Ho.
  apply handle_from_pid_waccess_errors in Ho. destruct Ho as (Hs1 & _ & _).
  destruct (h =? NULL).
  - apply ret_Done in H. destruct H as [E ->]. injection E as -> -> -> ->.
    rewrite Hs1. repeat split; auto; intros _ F; now elim F.
  - apply bind_Done in H. destruct H as (r & s2 & Hb & H).
    apply process_data_body_statics in Hb. rewrite Hs1 in Hb.
    assert (E : st_statics s' = st_statics s2).
    { destruct r as [[at_step buf]|[b size]].
      - apply bind_Done in H. destruct H as (u1 & s3 & Hc & H).
        cbn [negb] in Hc. apply close_handle_frame in Hc.
        apply bind_Done in H. destruct H as (u2 & s4 & Hf & H).
        apply ret_Done in H. destruct H as [_ ->].
        destruct (negb (buf =? NULL)).
        + apply c_free_frame in Hf. destruct Hf, Hc. congruence.
        + apply ret_Done in Hf. destruct Hf as [_ ->]. now destruct Hc.
      - apply bind_Done in H. destruct H as (u1 & s3 & Hc & H).
        apply close_handle_frame in Hc.
        apply ret_Done in H. destruct H as [_ ->]. now destruct Hc. }
    rewrite E. destruct Hb as (B0 & B1 & B2 & B3 & B4 & B5).
    repeat split; auto.
Qed.

Lemma entry_points_stay_resolved_witness :
  let resolved :=
    set_NtWow64QueryVirtualMemory64 true
      (set_NtWow64ReadVirtualMemory64 true
         (set_NtWow64QueryInformationProcess64 true
            (set_NtQueryInformationProcess true statics0))) in
  let s := set_statics (sim_os sim_wow64) resolved (sim_state sim_wow64) in
  let s' :=
    set_heap (sim_os sim_wow64) [(0x10000, 18)]
      (set_world (sim_os sim_wow64) (0x10000 + 18 + 16) s) in
  let t :=
    set_statics (sim_os sim_native)
      (set_NtQueryInformationProcess true statics0) (sim_state sim_native) in
  let t' :=
    set_heap (sim_os sim_native) [(0x10000, 8)]
      (set_world (sim_os sim_native) (0x10000 + 8 + 16) t) in
  (initialBufferSize (st_statics s') = initialBufferSize (st_statics s) /\
   (NtQueryInformationProcess_set (st_statics s) = true ->
    NtQueryInformationProcess_set (st_statics s') = true) /\
   (NtWow64QueryInformationProcess64_set (st_statics s) = true ->
    NtWow64QueryInformationProcess64_set (st_statics s') = true) /\
   (NtWow64ReadVirtualMemory64_set (st_statics s) = true ->
    NtWow64ReadVirtualMemory64_set (st_statics s') = true) /\
   (NtWow64QueryVirtualMemory64_set (st_statics s) = true ->
    NtWow64QueryVirtualMemory64_set (st_statics s') = true) /\
   (WIN64 (sim_os sim_wow64) = true -> @None step <> Some StepOpen ->
    NtQueryInformationProcess_set (st_statics s') = true))
  /\
  (initialBufferSize (st_statics t') = initialBufferSize (st_statics t) /\
   (NtQueryInformationProcess_set (st_statics t) = true ->
    NtQueryInformationProcess_set (st_statics t') = true) /\
   (NtWow64QueryInformationProcess64_set (st_statics t) = true ->
    NtWow64QueryInformationProcess64_set (st_statics t') = true) /\
   (NtWow64ReadVirtualMemory64_set (st_statics t) = true ->
    NtWow64ReadVirtualMemory64_set (st_statics t') = true) /\
   (NtWow64QueryVirtualMemory64_set (st_statics t) = true ->
    NtWow64QueryVirtualMemory64_set (st_statics t') = true) /\
   (WIN64 (sim_os sim_native) = true -> @None step <> Some StepOpen ->
    NtQueryInformationProcess_set (st_statics t') = true)).
Proof.
  intros resolved s s' t t'. split.
  - refine (entry_points_stay_resolved (sim_os sim_wow64) 1 1234 KIND_ENVIRON
              null_buffer 0 s 0 None
              {| buf_addr := 0x10000;
                 buf_bytes := [65; 0; 61; 0; 49; 0; 0; 0; 0; 0;
                               7; 7; 7; 7; 7; 7; 0; 0] |}
              16 s' _).
    reflexivity.
  - refine (entry_points_stay_resolved (sim_os sim_native) 1 1234 KIND_CWD
              null_buffer 0 t 0 None
              {| buf_addr := 0x10000;
                 buf_bytes := [67; 0; 58; 0; 92; 0; 0; 0] |}
              6 t' _).
    reflexivity.
Defined.

Section ModeOfWalk.

Context {os : OS}.
Implicit Types s : state os.

(** The walk reads the parameters with the layout of its mode and takes
    the address of the field from them. *)
Lemma locate_field_source hProcess kind s l s' :
  locate_field os hProcess kind s = Done (inr l) s' ->
  exists a w w' p,
    read_parameters os (layout_of (l_mode l)) hProcess a w = (Some p, w')
    /\ (match l_mode l with
        | TargetWiderThanCaller => l_src64 l
        | _ => l_src l
        end)
       = fst (select_field os (layout_of (l_mode l)) kind p)
    /\ l_size l = snd (select_field os (layout_of (l_mode l)) kind p).
Proof.
  unfold locate_field, locate_native, locate_wider, read_blocks.
  intros H.
  minv H;
    match goal with
    | E : inr _ = inl _ |- _ => discriminate E
    | E : inr _ = inr _ |- _ => injection E as ->
    end;
    cbn [l_mode l_src l_src64 l_size];
    match goal with
    | E : select_field _ ?lay _ ?p = _,
      R : read_parameters _ ?lay _ ?a ?w = (Some ?p, ?w') |- _ =>
        exists a, w, w', p; split; [exact R|]; rewrite E; split; reflexivity
    end.
Qed.

Lemma resolve_length_keeps hProcess kind l s l' s' :
  resolve_length os hProcess kind l s = Done (inr l') s' ->
  l_mode l' = l_mode l /\ l_src l' = l_src l /\ l_src64 l' = l_src64 l.
Proof.
  unfold resolve_length. intros H.
  destruct kind;
    [apply ret_Done in H; destruct H as [E _]; injection E as ->; auto
    |apply ret_Done in H; destruct H as [E _]; injection E as ->; auto|].
  destruct (l_mode l) eqn:Em;
    apply bind_Done in H; destruct H as (r & s1 & _ & H);
    (destruct r as [size|]; [|minv H; discriminate]);
    apply ret_Done in H; destruct H as [E _]; injection E as ->;
    cbn [with_size l_mode l_src l_src64]; auto.
Qed.

(** The copy uses the read primitive of the mode on the address of the
    mode. *)
Lemma copy_region_reader hProcess l s b s' :
  copy_region os hProcess l s = Done (inr b) s' ->
  exists bs w w',
    read_bytes os
      (match l_mode l with
       | TargetWiderThanCaller => NtWow64ReadVirtualMemory64
       | _ => ReadProcessMemory
       end)
      hProcess
      (match l_mode l with
       | TargetWiderThanCaller => l_src64 l
       | _ => l_src l
       end)
      (l_size l) w
    = (Some bs, w')
    /\ buf_bytes b = bs ++ [0; 0].
Proof.
  unfold copy_region. intros H.
  apply bind_Done in H. destruct H as (buf & s1 & _ & H).
  destruct (buf =? NULL); [minv H; discriminate|].
  apply bind_Done in H. destruct H as (rb & s2 & Hr & H).
  destruct rb as [bs|]; [|minv H; discriminate].
  assert (Hread : exists w w',
             read_bytes os
               (match l_mode l with
                | TargetWiderThanCaller => NtWow64ReadVirtualMemory64
                | _ => ReadProcessMemory
                end)
               hProcess
               (match l_mode l with
                | TargetWiderThanCaller => l_src64 l
                | _ => l_src l
                end)
               (l_size l) w
             = (Some bs, w')).
  { destruct (l_mode l); minv Hr; eauto. }
  destruct Hread as (w & w' & Hread).
  pose proof (read_bytes_length os _ _ _ _ _ _ _ Hread) as Hlen.
  destruct (store_bytes (SIZE_T_of os (l_size l + 2)) bs) as [bytes|] eqn:Hst;
    [|discriminate].
  destruct (store_bytes_fits _ _ _ Hlen Hst) as [_ ->].
  apply ret_Done in H. destruct H as [E _]. injection E as ->.
  exists bs, w, w'. split; [exact Hread|reflexivity].
Qed.

Lemma process_data_body_mode hProcess kind s b size s' :
  process_data_body os hProcess kind s = Done (inr (b, size)) s' ->
  exists l s1,
    locate_field os hProcess kind s = Done (inr l) s1 /\
    (exists a w w' p,
        read_parameters os (layout_of (l_mode l)) hProcess a w = (Some p, w')
        /\ (match l_mode l with
            | TargetWiderThanCaller => l_src64 l
            | _ => l_src l
            end)
           = fst (select_field os (layout_of (l_mode l)) kind p)) /\
    (exists bs w w',
        read_bytes os
          (match l_mode l with
           | TargetWiderThanCaller => NtWow64ReadVirtualMemory64
           | _ => ReadProcessMemory
           end)
          hProcess
          (match l_mode l with
           | TargetWiderThanCaller => l_src64 l
           | _ => l_src l
           end)
          size w
        = (Some bs, w')
        /\ buf_bytes b = bs ++ [0; 0]).
Proof.
  unfold process_data_body, bindE. intros H.
  apply bind_Done in H. destruct H as (r1 & s1 & H1 & H).
  destruct r1 as [[e buf]|l1];
    [apply ret_Done in H; destruct H as [E _]; discriminate|].
  apply bind_Done in H. destruct H as (r2 & s2 & H2 & H).
  destruct r2 as [[e buf]|l2];
    [apply ret_Done in H; destruct H as [E _]; discriminate|].
  apply bind_Done in H. destruct H as (r3 & s3 & H3 & H).
  destruct r3 as [[e buf]|b3];
    apply ret_Done in H; destruct H as [E _]; [discriminate|].
  injection E as -> ->.
  exists l1, s1. split; [exact H1|].
  apply locate_field_source in H1.
  destruct H1 as (a & w & w' & p & Hp & Hsrc & _).
  split; [eauto 6|].
  apply resolve_length_keeps in H2. destruct H2 as (Em & Es & Es64).
  apply copy_region_reader in H3. rewrite Em, Es, Es64 in H3. exact H3.
Qed.

End ModeOfWalk.

(** X12. One mode for the whole call.  In every run of lines 487 to 711
    of [ps__get_process_data] that succeeds, the parameters structure was
    read with the layout of the mode the walk fixed, the start address is
    the one selected from it for the field ([src64] for a wider target,
    [src] otherwise), and the final copy reads [size] bytes from that
    address with the read primitive of the same mode:
    [NtWow64ReadVirtualMemory64] for a wider target, [ReadProcessMemory]
    otherwise. *)
Theorem copy_follows_mode_of_walk :
  forall (os : OS) hProcess kind (s : state os) b size s',
    process_data_body os hProcess kind s = Done (inr (b, size)) s' ->
    exists l s1,
      locate_field os hProcess kind s = Done (inr l) s1 /\
      (exists a w w' p,
          read_parameters os (layout_of (l_mode l)) hProcess a w
          = (Some p, w')
          /\ (match l_mode l with
              | TargetWiderThanCaller => l_src64 l
              | _ => l_src l
              end)
             = fst (select_field os (layout_of (l_mode l)) kind p)) /\
      (exists bs w w',
          read_bytes os
            (match l_mode l with
             | TargetWiderThanCaller => NtWow64ReadVirtualMemory64
             | _ => ReadProcessMemory
             end)
            hProcess
            (match l_mode l with
             | TargetWiderThanCaller => l_src64 l
             | _ => l_src l
             end)
            size w
          = (Some bs, w')
          /\ buf_bytes b = bs ++ [0; 0]).
Proof.
  intros os hProcess kind s b size s'. apply process_data_body_mode.
Qed.

Lemma copy_follows_mode_of_walk_witness :
  exists l s1,
    locate_field (sim_os sim_wow64) 0x1F4 KIND_CMDLINE (sim_state sim_wow64)
    = Done (inr l) s1 /\
    (exists a w w' p,
        read_parameters (sim_os sim_wow64) (layout_of (l_mode l)) 0x1F4 a w
        = (Some p, w')
        /\ (match l_mode l with
            | TargetWiderThanCaller => l_src64 l
            | _ => l_src l
            end)
           = fst (select_field (sim_os sim_wow64) (layout_of (l_mode l))
                    KIND_CMDLINE p)) /\
    (exists bs w w',
        read_bytes (sim_os sim_wow64)
          (match l_mode l with
           | TargetWiderThanCaller => NtWow64ReadVirtualMemory64
           | _ => ReadProcessMemory
           end)
          0x1F4
          (match l_mode l with
           | TargetWiderThanCaller => l_src64 l
           | _ => l_src l
           end)
          4 w
        = (Some bs, w')
        /\ [112; 0; 115; 0; 0; 0] = bs ++ [0; 0]).
Proof.
  refine (copy_follows_mode_of_walk (sim_os sim_wow64) 0x1F4 KIND_CMDLINE
            (sim_state sim_wow64)
            {| buf_addr := 0x10000; buf_bytes := [112; 0; 115; 0; 0; 0] |}
            4
            (set_heap (sim_os sim_wow64) [(0x10000, 6)]
               (set_world (sim_os sim_wow64) (0x10000 + 6 + 16)
                  (set_statics (sim_os sim_wow64)
                     (set_NtWow64ReadVirtualMemory64 true
                        (set_NtWow64QueryInformationProcess64 true
                           (set_NtQueryInformationProcess true statics0)))
                     (sim_state sim_wow64))))
            _).
  reflexivity.
Defined.

(** ** The accessors *)

Section Wide.

Lemma wchars_of_bytes_app n :
  forall bs rest,
    length bs = (2 * n)%nat ->
    wchars_of_bytes (bs ++ rest) = wchars_of_bytes bs ++ wchars_of_bytes rest
    /\ length (wchars_of_bytes bs) = n.
Proof.
  induction n as [|n IH]; intros bs rest Hlen.
  - destruct bs; [|discriminate]. split; reflexivity.
  - destruct bs as [|a [|b bs]]; [cbn in Hlen; lia|cbn in Hlen; lia|].
    cbn [app wchars_of_bytes length].
    destruct (IH bs rest) as [E1 E2]; [cbn in Hlen; lia|].
    rewrite E1, E2. split; reflexivity.
Qed.

Lemma wchars_of_bytes_length :
  forall bs, length (wchars_of_bytes bs) = Nat.div2 (length bs).
Proof.
  assert (H : forall bs,
             length (wchars_of_bytes bs) = Nat.div2 (length bs)
             /\ forall a, length (wchars_of_bytes (a :: bs))
                          = Nat.div2 (length (a :: bs))).
  { induction bs as [|b bs [IH1 IH2]].
    - split; [reflexivity|]. intros a. reflexivity.
    - split; [apply IH2|]. intros a. cbn [wchars_of_bytes length Nat.div2].
      now rewrite IH1. }
  intros bs. apply H.
Qed.

Lemma wcslen_terminated ws post :
  exists k, wcslen (ws ++ 0 :: post) = Some k /\ (k <= length ws)%nat.
Proof.
  induction ws as [|c ws (k & E & Hk)].
  - exists O. split; [reflexivity|]. cbn. lia.
  - cbn [app wcslen length]. destruct (c =? 0).
    + exists O. split; [reflexivity|lia].
    + rewrite E. exists (S k). split; [reflexivity|lia].
Qed.

Lemma nonempty_snoc (l : list Z) :
  l <> [] -> exists t c, l = t ++ [c].
Proof.
  intros H. destruct (exists_last H) as (t & c & E). eauto.
Qed.

End Wide.

Section Accessors.

Context {os : OS}.
Implicit Types s : state os.

(** What a successful call hands over: the bytes read and two zero bytes. *)
Lemma get_process_data_success fuel pid kind pdata psize s data L s' :
  ps__get_process_data os fuel pid kind pdata psize s = Done (0, data, L) s' ->
  exists bs, Z.of_nat (length bs) = L /\ buf_bytes data = bs ++ [0; 0].
Proof.
  intros H. rewrite get_process_data_of_steps in H.
  destruct (ps__get_process_data_steps os fuel pid kind pdata psize s)
    as [[[[code failed] pdata1] psize1] s1| |] eqn:Hs; try discriminate.
  injection H as -> -> -> ->.
  apply get_process_data_steps_spec in Hs. destruct Hs as [_ Hs].
  destruct failed as [e|]; [destruct Hs as [F _]; discriminate|].
  destruct Hs as (_ & _ & _ & _ & _ & bs & _ & Hlen & Hbytes).
  exists bs. auto.
Qed.

Lemma get_cwd_cases fuel pid size0 s data L s' :
  ps__get_process_data os fuel pid KIND_CWD null_buffer size0 s
  = Done (0, data, L) s' ->
  Z.even L = true ->
  exists n,
    wcslen (wchars_of_bytes (buf_bytes data)) = Some n /\
    2 * Z.of_nat n <= L /\
    (n = O -> ps__get_cwd os fuel pid size0 s = Undefined) /\
    (n <> O ->
     exists t c,
       wide_text (wchars_of_bytes (buf_bytes data)) = Some (t ++ [c]) /\
       length (t ++ [c]) = n /\
       ps__get_cwd os fuel pid size0 s
       = Done (Some (if c =? path_separator then t else t ++ [c])) s').
Proof.
  intros H Heven.
  pose proof (get_cwd_unfold _ _ _ _ _ _ _ _ H) as Hcwd.
  cbn [Z.eqb negb] in Hcwd.
  apply get_process_data_success in H. destruct H as (bs & Hlen & Hbytes).
  apply Z.even_spec in Heven. destruct Heven as (m & Hm).
  assert (Hn : length bs = (2 * Z.to_nat m)%nat) by lia.
  destruct (wchars_of_bytes_app _ bs [0; 0] Hn) as [Eapp Elen].
  rewrite Hbytes in *. rewrite Eapp in *.
  change (wchars_of_bytes [0; 0]) with [0] in *.
  destruct (wcslen_terminated (wchars_of_bytes bs) []) as (k & Ek & Hk).
  exists k. split; [exact Ek|]. split; [lia|]. split.
  - intros ->. rewrite Hcwd. unfold trim_trailing_separator.
    now rewrite Ek.
  - intros Hk0.
    destruct (wcslen_Some _ _ Ek) as (post & Edata & Hfl & Hnz).
    set (data0 := wchars_of_bytes bs ++ [0]) in *.
    assert (Hne : firstn k data0 <> []).
    { intros E. rewrite E in Hfl. cbn in Hfl. congruence. }
    destruct (nonempty_snoc _ Hne) as (t & c & Etc).
    rewrite Etc in Edata, Hfl, Hnz.
    exists t, c. split; [|split; [exact Hfl|]].
    + rewrite Edata. now apply wide_text_app.
    + rewrite Hcwd, Edata, (trim_snoc t c post Hnz).
      destruct (Forall_nonzero_snoc _ _ Hnz) as [Hnz' _].
      destruct (c =? path_separator).
      * now rewrite (wide_text_app _ _ Hnz').
      * now rewrite (wide_text_app _ _ Hnz).
Qed.

End Accessors.

(** X13. [ps__get_cwd] after a successful read of an even number [L] of
    bytes.  The terminator that [ps__get_process_data] appended keeps
    [wcslen] inside the buffer: the length found is at most [L / 2].  When
    it is 0 (the directory is the empty string) the test of
    [data[size - 1]] reads outside the buffer and the call has no defined
    behaviour.  Otherwise the call returns the copied text, without its
    last character when that is a path separator. *)
Theorem get_cwd_defined :
  forall (os : OS) fuel pid size0 (s : state os) data L s',
    ps__get_process_data os fuel pid KIND_CWD null_buffer size0 s
    = Done (0, data, L) s' ->
    Z.even L = true ->
    exists n,
      wcslen (wchars_of_bytes (buf_bytes data)) = Some n /\
      2 * Z.of_nat n <= L /\
      (n = O -> ps__get_cwd os fuel pid size0 s = Undefined) /\
      (n <> O ->
       exists t c,
         wide_text (wchars_of_bytes (buf_bytes data)) = Some (t ++ [c]) /\
         length (t ++ [c]) = n /\
         ps__get_cwd os fuel pid size0 s
         = Done (Some (if c =? path_separator then t else t ++ [c])) s').
Proof.
  intros os fuel pid size0 s data L s'. apply get_cwd_cases.
Qed.

Lemma get_cwd_defined_witness :
  exists n,
    wcslen (wchars_of_bytes [0; 0]) = Some n /\
    2 * Z.of_nat n <= 0 /\
    (n = O ->
     ps__get_cwd (sim_os sim_empty_cwd) 1 1234 0 (sim_state sim_empty_cwd)
     = Undefined) /\
    (n <> O ->
     exists t c,
       wide_text (wchars_of_bytes [0; 0]) = Some (t ++ [c]) /\
       length (t ++ [c]) = n /\
       ps__get_cwd (sim_os sim_empty_cwd) 1 1234 0 (sim_state sim_empty_cwd)
       = Done (Some (if c =? path_separator then t else t ++ [c]))
           (set_heap (sim_os sim_empty_cwd) [(0x10000, 2)]
              (set_world (sim_os sim_empty_cwd) (0x10000 + 2 + 16)
                 (set_statics (sim_os sim_empty_cwd)
                    (set_NtQueryInformationProcess true statics0)
                    (sim_state sim_empty_cwd))))).
Proof.
  refine (get_cwd_defined (sim_os sim_empty_cwd) 1 1234 0
            (sim_state sim_empty_cwd)
            {| buf_addr := 0x10000; buf_bytes := [0; 0] |} 0
            (set_heap (sim_os sim_empty_cwd) [(0x10000, 2)]
               (set_world (sim_os sim_empty_cwd) (0x10000 + 2 + 16)
                  (set_statics (sim_os sim_empty_cwd)
                     (set_NtQueryInformationProcess true statics0)
                     (sim_state sim_empty_cwd)))) _ _).
  - reflexivity.
  - reflexivity.
Defined.

(** The working directory is the empty string: the character before the
    terminator is outside the buffer. *)
Example get_cwd_empty_directory :
  ps__get_cwd (sim_os sim_empty_cwd) 1 1234 0 (sim_state sim_empty_cwd)
  = Undefined
  /\ result_of
       (ps__get_cwd (sim_os sim_native) 1 1234 0 (sim_state sim_native))
     = Some (Some [67; 58]).
Proof. split; reflexivity. Qed.

Section Environ.

Lemma environ_scan_skip t :
  Forall nonzero t ->
  forall rest left numzero ptr,
    (length t <= left)%nat ->
    environ_scan (t ++ rest) left numzero ptr
    = environ_scan rest (left - length t)
        (match t with [] => numzero | _ => 0 end) (ptr + length t).
Proof.
  induction 1 as [|c t Hc Ht IH]; intros rest left numzero ptr Hlen.
  - cbn [app length]. now rewrite Nat.sub_0_r, Nat.add_0_r.
  - destruct left as [|left]; [cbn in Hlen; lia|].
    cbn [app environ_scan length].
    apply Z.eqb_neq in Hc. rewrite Hc. cbn [negb].
    rewrite IH by (cbn in Hlen; lia).
    replace (S ptr + length t)%nat with (ptr + S (length t))%nat by lia.
    cbn [Nat.sub]. destruct t; reflexivity.
Qed.

(** An environment block: every variable followed by a terminator. *)
Lemma environ_scan_vars vars :
  Forall (fun v => v <> [] /\ Forall nonzero v) vars ->
  forall rest left numzero ptr,
    (length (concat (map (fun v => v ++ [0%Z]) vars)) <= left)%nat ->
    numzero = 0 \/ numzero = 1 ->
    environ_scan (concat (map (fun v => v ++ [0]) vars) ++ rest) left
      numzero ptr
    = environ_scan rest
        (left - length (concat (map (fun v => v ++ [0]) vars)))
        (match vars with [] => numzero | _ => 1 end)
        (ptr + length (concat (map (fun v => v ++ [0]) vars))).
Proof.
  induction 1 as [|v vars [Hne Hv] Hvars IH];
    intros rest left numzero ptr Hlen Hnz.
  - cbn [map concat app length]. now rewrite Nat.sub_0_r, Nat.add_0_r.
  - cbn [map concat] in *. rewrite !length_app in *. cbn [length] in *.
    rewrite <- !app_assoc. cbn [app].
    rewrite (environ_scan_skip v Hv) by lia.
    assert (E0 : match v with [] => numzero | _ => 0 end = 0)
      by (destruct v; [contradiction|reflexivity]).
    rewrite E0.
    destruct (left - length v)%nat as [|left'] eqn:El; [lia|].
    cbn [environ_scan Z.eqb negb Z.add Pos.eqb].
    rewrite IH by (try lia; auto).
    assert (E1 : match vars with [] => 1 | _ => 1 end = 1)
      by (destruct vars; reflexivity).
    rewrite E1. f_equal; lia.
Qed.

Lemma environ_scan_second_zero rest left ptr :
  environ_scan (0 :: rest) (S left) 1 ptr = Some ptr.
Proof. reflexivity. Qed.

Lemma environ_scan_inv :
  forall rest left numzero ptr n,
    numzero = 0 \/ numzero = 1 ->
    environ_scan rest left numzero ptr = Some n ->
    exists k,
      n = (ptr + k)%nat /\ (k <= left)%nat /\ (k <= length rest)%nat /\
      ((k < left)%nat ->
       nth_error rest k = Some 0 /\
       (k = O -> numzero = 1) /\
       (forall m, k = S m -> nth_error rest m = Some 0)) /\
      (forall i, (S i < k)%nat ->
         ~ (nth_error rest i = Some 0 /\ nth_error rest (S i) = Some 0)) /\
      (numzero = 1 -> (0 < k)%nat -> nth_error rest 0 <> Some 0).
Proof.
  induction rest as [|c rest IH]; intros left numzero ptr n Hnz H.
  - destruct left; [|discriminate]. injection H as <-. exists O.
    split; [lia|]. split; [lia|]. split; [cbn; lia|].
    split; [lia|]. split; intros; lia.
  - destruct left as [|left].
    { injection H as <-. exists O.
      split; [lia|]. split; [lia|]. split; [cbn; lia|].
      split; [lia|]. split; intros; lia. }
    cbn [environ_scan] in H.
    destruct (Z.eqb_spec c 0) as [->|Hc]; cbn [negb] in H.
    + destruct (Z.eqb_spec (numzero + 1) 2) as [E|E].
      * injection H as <-. exists O.
        split; [lia|]. split; [lia|]. split; [cbn; lia|].
        split; [|split; intros; lia].
        intros _. split; [reflexivity|]. split; [lia|]. intros m F. lia.
      * assert (E0 : numzero = 0) by lia. subst numzero.
        apply IH in H; [|now right].
        destruct H as (k & -> & Hk1 & Hk2 & Hstop & Hpairs & Hfirst).
        exists (S k). split; [lia|]. split; [lia|].
        split; [cbn; lia|]. split; [|split].
        -- intros Hlt. destruct Hstop as (Hz & _ & Hprev); [lia|].
           split; [exact Hz|]. split; [lia|].
           intros m Em. injection Em as <-.
           destruct k as [|k']; [reflexivity|]. cbn. now apply Hprev.
        -- intros i Hi [Hi0 Hi1]. destruct i as [|i].
           ++ apply Hfirst; [reflexivity|lia|exact Hi1].
           ++ apply (Hpairs i); [lia|]. split; assumption.
        -- intros F. lia.
    + apply IH in H; [|now left].
      destruct H as (k & -> & Hk1 & Hk2 & Hstop & Hpairs & Hfirst).
      exists (S k). split; [lia|]. split; [lia|].
      split; [cbn; lia|]. split; [|split].
      * intros Hlt. destruct Hstop as (Hz & Hk0 & Hprev); [lia|].
        split; [exact Hz|]. split; [lia|].
        intros m Em. injection Em as <-.
        destruct k as [|k']; [specialize (Hk0 eq_refl); lia|].
        cbn. now apply Hprev.
      * intros i Hi [Hi0 Hi1]. destruct i as [|i].
        -- cbn in Hi0. congruence.
        -- apply (Hpairs i); [lia|]. split; assumption.
      * intros _ _. cbn. congruence.
Qed.

Lemma environ_scan_sound data left n :
  environ_scan data left 0 O = Some n ->
  (n <= left)%nat /\ (n <= length data)%nat /\
  ((n < left)%nat ->
   exists m, n = S m /\ nth_error data m = Some 0
             /\ nth_error data n = Some 0) /\
  (forall i, (S i < n)%nat ->
     ~ (nth_error data i = Some 0 /\ nth_error data (S i) = Some 0)).
Proof.
  intros H. apply environ_scan_inv in H; [|now left].
  destruct H as (k & -> & Hk1 & Hk2 & Hstop & Hpairs & _). cbn [Nat.add].
  split; [exact Hk1|]. split; [exact Hk2|]. split; [|exact Hpairs].
  intros Hlt. destruct (Hstop Hlt) as (Hz & Hk0 & Hprev).
  destruct k as [|m]; [specialize (Hk0 eq_refl); lia|].
  exists m. split; [reflexivity|]. split; [now apply Hprev|exact Hz].
Qed.

End Environ.

Section EnvironAccessor.

Context {os : OS}.
Implicit Types s : state os.

Lemma get_environ_unfold fuel pid size0 s code data L s' :
  ps__get_process_data os fuel pid KIND_ENVIRON null_buffer size0 s
  = Done (code, data, L) s' ->
  ps__get_environ os fuel pid size0 s
  = if negb (code =? 0) then Done None s'
    else
      match environ_scan (wchars_of_bytes (buf_bytes data)) (Z.to_nat L)
              0 O with
      | None => Undefined
      | Some n => Done (Some (firstn n (wchars_of_bytes (buf_bytes data)))) s'
      end.
Proof.
  intros H. unfold ps__get_environ. rewrite (bind_eq _ _ _ _ _ H).
  destruct (negb (code =? 0)); [reflexivity|].
  destruct (environ_scan (wchars_of_bytes (buf_bytes data)) (Z.to_nat L) 0 0);
    reflexivity.
Qed.

End EnvironAccessor.

(** X14. The scan of [ps__get_environ].  When it has a result [n], [n] is
    at most the bound and at most the number of characters in the buffer;
    when it stopped before the bound, the characters at [n - 1] and [n] are
    both terminators; and no two adjacent characters before position [n]
    are both terminators.  So [n] is the position of the second terminator
    of the first double terminator, or the bound. *)
Theorem environ_scan_stops_at_double_terminator :
  forall (data : list Z) (left n : nat),
    environ_scan data left 0 O = Some n ->
    (n <= left)%nat /\ (n <= length data)%nat /\
    ((n < left)%nat ->
     exists m, n = S m /\ nth_error data m = Some 0
               /\ nth_error data n = Some 0) /\
    (forall i, (S i < n)%nat ->
       ~ (nth_error data i = Some 0 /\ nth_error data (S i) = Some 0)).
Proof. intros data left n. apply environ_scan_sound. Qed.

Lemma environ_scan_stops_at_double_terminator_witness :
  (4 <= 16)%nat /\ (4 <= length [65; 61; 49; 0; 0; 1799; 1799; 1799; 0])%nat /\
  ((4 < 16)%nat ->
   exists m, 4%nat = S m
             /\ nth_error [65; 61; 49; 0; 0; 1799; 1799; 1799; 0] m = Some 0
             /\ nth_error [65; 61; 49; 0; 0; 1799; 1799; 1799; 0] 4 = Some 0) /\
  (forall i, (S i < 4)%nat ->
     ~ (nth_error [65; 61; 49; 0; 0; 1799; 1799; 1799; 0] i = Some 0
        /\ nth_error [65; 61; 49; 0; 0; 1799; 1799; 1799; 0] (S i)
           = Some 0)).
Proof.
  refine (environ_scan_stops_at_double_terminator
            [65; 61; 49; 0; 0; 1799; 1799; 1799; 0] 16 4 _).
  reflexivity.
Defined.

(** X15. [ps__get_environ] on an environment block.  When the buffer read
    holds the variables (at least one, each non-empty and free of
    terminators), each followed by its terminator, then the closing
    terminator, then anything, and the block is shorter than [size], the
    characters handed on are exactly the variables with their terminators:
    what follows the closing terminator is dropped. *)
Theorem get_environ_returns_block :
  forall (os : OS) fuel pid size0 (s : state os) data L s'
         (vars : list (list Z)) (garbage : list Z),
    ps__get_process_data os fuel pid KIND_ENVIRON null_buffer size0 s
    = Done (0, data, L) s' ->
    vars <> [] ->
    Forall (fun v => v <> [] /\ Forall nonzero v) vars ->
    wchars_of_bytes (buf_bytes data)
    = concat (map (fun v => v ++ [0]) vars) ++ 0 :: garbage ->
    Z.of_nat (length (concat (map (fun v => v ++ [0]) vars))) < L ->
    ps__get_environ os fuel pid size0 s
    = Done (Some (concat (map (fun v => v ++ [0]) vars))) s'.
Proof.
  intros os fuel pid size0 s data L s' vars garbage H Hne Hvars Hdata Hlen.
  rewrite (get_environ_unfold _ _ _ _ _ _ _ _ H). cbn [Z.eqb negb].
  rewrite Hdata.
  rewrite (environ_scan_vars vars Hvars) by (try lia; auto).
  destruct vars as [|v vars]; [contradiction|].
  set (block := concat (map (fun v0 => v0 ++ [0]) (v :: vars))) in *.
  destruct (Z.to_nat L - length block)%nat as [|left'] eqn:El; [lia|].
  rewrite environ_scan_second_zero. cbn [Nat.add].
  rewrite firstn_app, firstn_all, Nat.sub_diag. cbn [firstn].
  now rewrite app_nil_r.
Qed.

Lemma get_environ_returns_block_witness :
  ps__get_environ (sim_os sim_native) 1 1234 0 (sim_state sim_native)
  = Done (Some (concat (map (fun v => v ++ [0]) [[65; 61; 49]])))
      (set_heap (sim_os sim_native) [(0x10000, 18)]
         (set_world (sim_os sim_native) (0x10000 + 18 + 16)
            (set_statics (sim_os sim_native)
               (set_NtQueryInformationProcess true statics0)
               (sim_state sim_native)))).
Proof.
  refine (get_environ_returns_block (sim_os sim_native) 1 1234 0
            (sim_state sim_native)
            {| buf_addr := 0x10000;
               buf_bytes := [65; 0; 61; 0; 49; 0; 0; 0; 0; 0;
                             7; 7; 7; 7; 7; 7; 0; 0] |}
            16 _ [[65; 61; 49]] [1799; 1799; 1799; 0] _ _ _ _ _).
  - reflexivity.
  - discriminate.
  - constructor; [|constructor]. split; [discriminate|].
    repeat constructor; discriminate.
  - reflexivity.
  - reflexivity.
Defined.

(** X16. The bound of the scan is [data + size], with [data] a [WCHAR *]
    and [size] the number of bytes read: it lies [size] characters in,
    while the buffer holds [size / 2 + 1] of them.  When three or more
    bytes were read and the buffer has no two adjacent terminators, the
    scan reads past the end of the buffer and the call has no defined
    behaviour. *)
Theorem get_environ_reads_past_buffer :
  forall (os : OS) fuel pid size0 (s : state os) data L s',
    ps__get_process_data os fuel pid KIND_ENVIRON null_buffer size0 s
    = Done (0, data, L) s' ->
    3 <= L ->
    (forall i,
        ~ (nth_error (wchars_of_bytes (buf_bytes data)) i = Some 0
           /\ nth_error (wchars_of_bytes (buf_bytes data)) (S i) = Some 0)) ->
    ps__get_environ os fuel pid size0 s = Undefined.
Proof.
  intros os fuel pid size0 s data L s' H HL Hno.
  rewrite (get_environ_unfold _ _ _ _ _ _ _ _ H). cbn [Z.eqb negb].
  apply get_process_data_success in H. destruct H as (bs & Hlen & Hbytes).
  destruct (environ_scan (wchars_of_bytes (buf_bytes data)) (Z.to_nat L) 0 0)
    as [n|] eqn:Hscan; [exfalso|reflexivity].
  apply environ_scan_sound in Hscan.
  destruct Hscan as (_ & Hn & Hstop & _).
  assert (Hw : (length (wchars_of_bytes (buf_bytes data)) < Z.to_nat L)%nat).
  { rewrite wchars_of_bytes_length, Hbytes, length_app. cbn [length].
    rewrite Nat.div2_div.
    apply Nat.Div0.div_lt_upper_bound. lia. }
  destruct Hstop as (m & -> & Hm & HSm); [lia|].
  apply (Hno m). split; assumption.
Qed.

Lemma get_environ_reads_past_buffer_witness :
  ps__get_environ (sim_os sim_unterminated) 1 1234 0
    (sim_state sim_unterminated)
  = Undefined.
Proof.
  refine (get_environ_reads_past_buffer (sim_os sim_unterminated) 1 1234 0
            (sim_state sim_unterminated)
            {| buf_addr := 0x10000;
               buf_bytes := [65; 0; 61; 0; 49; 0; 66; 0; 0; 0] |}
            8
            (set_heap (sim_os sim_unterminated) [(0x10000, 10)]
               (set_world (sim_os sim_unterminated) (0x10000 + 10 + 16)
                  (set_statics (sim_os sim_unterminated)
                     (set_NtQueryInformationProcess true statics0)
                     (sim_state sim_unterminated))))
            _ _ _).
  - reflexivity.
  - discriminate.
  - intros i [H0 H1].
    destruct i as [|[|[|[|[|i]]]]]; cbn in H0, H1; discriminate.
Defined.

Section AccessorResults.

Context {os : OS}.
Implicit Types s : state os.

(** The two ways a call of [ps__get_process_data] ends. *)
Lemma get_process_data_Done fuel pid kind pdata psize s code data L s' :
  ps__get_process_data os fuel pid kind pdata psize s
  = Done (code, data, L) s' ->
  st_handles s' = st_handles s /\
  (code = -1 /\ st_heap s' = st_heap s
   /\ (exists e new, st_errors s' = e :: new ++ st_errors s)
   \/ code = 0 /\ buf_addr data <> NULL
      /\ st_heap s' = (buf_addr data, L + 2) :: st_heap s
      /\ (PS__TESTING os = false -> st_errors s' = st_errors s)).
Proof.
  intros H. rewrite get_process_data_of_steps in H.
  destruct (ps__get_process_data_steps os fuel pid kind pdata psize s)
    as [[[[code1 failed] pdata1] psize1] s1| |] eqn:Hs; try discriminate.
  injection H as -> -> -> ->.
  pose proof (get_process_data_steps_errors _ _ _ _ _ _ _ _ _ _ _ _ Hs)
    as [_ He].
  apply get_process_data_steps_spec in Hs. destruct Hs as [Hh Hs].
  split; [exact Hh|]. destruct failed as [at_step|].
  - left. destruct Hs as (-> & Hp & _). destruct He as (_ & e & new & He & _).
    split; [reflexivity|]. split; [exact Hp|]. eauto.
  - right. destruct Hs as (-> & Hb & Hp & _). destruct He as [_ He].
    auto.
Qed.

Lemma get_process_data_pid_zero fuel pid kind pdata psize s :
  DWORD_of pid = 0 ->
  ps__get_process_data os fuel pid kind pdata psize s
  = Done (-1, pdata, psize) (set_errors os (AccessDenied :: st_errors s) s).
Proof.
  intros E. unfold ps__get_process_data, ps__get_process_data_steps,
    ps__handle_from_pid, ps__handle_from_pid_waccess.
  rewrite E. reflexivity.
Qed.

Lemma accessor_results fuel pid size0 s r s' :
  ps__get_cwd os fuel pid size0 s = Done r s'
  \/ ps__get_environ os fuel pid size0 s = Done r s' ->
  st_handles s' = st_handles s /\
  match r with
  | None =>
      st_heap s' = st_heap s
      /\ exists e new, st_errors s' = e :: new ++ st_errors s
  | Some text =>
      (exists addr n, addr <> NULL /\ st_heap s' = (addr, n) :: st_heap s)
      /\ (PS__TESTING os = false -> st_errors s' = st_errors s)
  end /\
  (DWORD_of pid = 0 ->
   r = None /\ s' = set_errors os (AccessDenied :: st_errors s) s).
Proof.
  intros H.
  assert (Hd : exists kind code data L,
             ps__get_process_data os fuel pid kind null_buffer size0 s
             = Done (code, data, L) s'
             /\ (code = 0 <-> r <> None)).
  { destruct H as [H|H]; [unfold ps__get_cwd in H|unfold ps__get_environ in H];
      apply bind_Done in H; destruct H as ([[code data] L] & s1 & Hd & H);
      [exists KIND_CWD|exists KIND_ENVIRON]; exists code, data, L;
      destruct (Z.eqb_spec code 0) as [E|E]; cbn [negb] in H.
    - destruct (trim_trailing_separator (wchars_of_bytes (buf_bytes data)))
        as [d|]; [|discriminate].
      destruct (wide_text d); [|discriminate].
      apply ret_Done in H. destruct H as [-> ->].
      split; [exact Hd|]. split; [discriminate|auto].
    - apply ret_Done in H. destruct H as [-> ->].
      split; [exact Hd|]. split; [contradiction|]. intros F. now elim F.
    - destruct (environ_scan (wchars_of_bytes (buf_bytes data))
                  (Z.to_nat L) 0 0); [|discriminate].
      apply ret_Done in H. destruct H as [-> ->].
      split; [exact Hd|]. split; [discriminate|auto].
    - apply ret_Done in H. destruct H as [-> ->].
      split; [exact Hd|]. split; [contradiction|]. intros F. now elim F. }
  destruct Hd as (kind & code & data & L & Hd & Hcode).
  pose proof (get_process_data_Done _ _ _ _ _ _ _ _ _ _ Hd) as [Hh Hcase].
  split; [exact Hh|]. split.
  - destruct Hcase as [(-> & Hp & He)|(-> & Hb & Hp & He)].
    + destruct r as [text|]; [|auto].
      exfalso. assert (F : -1 = 0) by (apply Hcode; discriminate). lia.
    + destruct r as [text|]; [|exfalso; now apply (proj1 Hcode eq_refl)].
      split; [eauto|exact He].
  - intros E. rewrite (get_process_data_pid_zero _ _ _ _ _ _ E) in Hd.
    injection Hd as <- _ _ <-. split; [|reflexivity].
    destruct r as [text|]; [|reflexivity].
    exfalso. assert (F : -1 = 0) by (apply Hcode; discriminate). lia.
Qed.

End AccessorResults.

(** X17. What [ps__get_cwd] and [ps__get_environ] leave behind.  The open
    handles are as before.  [R_NilValue] comes with an error raised in the
    call and with nothing allocated.  A text comes with the buffer as the
    one block added to the heap (the accessor does not free it) and, in a
    production build, with no error raised.  For pid 0 the result is
    [R_NilValue] with AccessDenied raised, and nothing else has
    happened. *)
Theorem accessors_report_failure :
  forall (os : OS) fuel pid size0 (s : state os) r s',
    ps__get_cwd os fuel pid size0 s = Done r s'
    \/ ps__get_environ os fuel pid size0 s = Done r s' ->
    st_handles s' = st_handles s /\
    match r with
    | None =>
        st_heap s' = st_heap s
        /\ exists e new, st_errors s' = e :: new ++ st_errors s
    | Some text =>
        (exists addr n, addr <> NULL /\ st_heap s' = (addr, n) :: st_heap s)
        /\ (PS__TESTING os = false -> st_errors s' = st_errors s)
    end /\
    (DWORD_of pid = 0 ->
     r = None /\ s' = set_errors os (AccessDenied :: st_errors s) s).
Proof. intros os fuel pid size0 s r s'. apply accessor_results. Qed.

Lemma accessors_report_failure_witness :
  let s' := set_errors (sim_os sim_gone) [NoSuchProcess 1234]
              (sim_state sim_gone) in
  st_handles s' = st_handles (sim_state sim_gone) /\
  (st_heap s' = st_heap (sim_state sim_gone)
   /\ exists e new, st_errors s' = e :: new ++ st_errors (sim_state sim_gone))
  /\ (DWORD_of 1234 = 0 ->
      @None (list Z) = None
      /\ s' = set_errors (sim_os sim_gone)
                (AccessDenied :: st_errors (sim_state sim_gone))
                (sim_state sim_gone)).
Proof.
  intros s'.
  refine (accessors_report_failure (sim_os sim_gone) 1 1234 0
            (sim_state sim_gone) None s' (or_intror _)).
  reflexivity.
Defined.

(** ** The scanner as a whole *)

Section ScannerPaths.

Context {os : OS}.
Implicit Types s : state os.

Lemma snapshot_query_errors fuel :
  forall buffer bufferSize s q s',
    snapshot_query os fuel buffer bufferSize s = Done q s' ->
    st_statics s' = st_statics s /\
    match q with
    | None => st_errors s' = NoMemory :: st_errors s
    | Some (_, _, size, _) =>
        st_errors s' = st_errors s /\ 0 <= size < 2 ^ 32
    end.
Proof.
  induction fuel as [|fuel IH]; intros buffer bufferSize s q s' H;
    [discriminate|].
  cbn [snapshot_query] in H.
  apply bind_Done in H. destruct H as (r & s1 & Hq & H).
  apply sys_Done in Hq. destruct Hq as (w & Ew & ->).
  destruct r as [[status0 ReturnLength] snap].
  match type of H with
  | (if ?c then _ else _) _ = _ => destruct c
  end.
  - apply bind_Done in H. destruct H as (u & s2 & Hfree & H).
    apply c_free_frame in Hfree. cbn in Hfree. destruct Hfree as [He2 Hs2].
    apply bind_Done in H. destruct H as (b1 & s3 & Hm & H).
    apply c_malloc_frame in Hm. destruct Hm as [He3 Hs3].
    destruct (b1 =? NULL).
    + minv H. cbn. split; congruence.
    + apply IH in H. destruct H as [Hst H]. split; [congruence|].
      destruct q as [[[[b st] size] sn]|].
      * destruct H as [He H]. split; [congruence|exact H].
      * congruence.
  - apply ret_Done in H. destruct H as [-> ->]. cbn.
    split; [reflexivity|]. split; [reflexivity|].
    unfold DWORD_of. apply Z.mod_pos_bound. reflexivity.
Qed.

Lemma snapshot_acquire_errors fuel s hNtDll q s' :
  snapshot_acquire os fuel s = Done (hNtDll, q) s' ->
  st_statics s' = st_statics s /\
  match q with
  | None => st_errors s' = NoMemory :: st_errors s
  | Some (_, _, size, _) =>
      st_errors s' = st_errors s /\ 0 <= size < 2 ^ 32
  end.
Proof.
  unfold snapshot_acquire. intros H.
  apply bind_Done in H. destruct H as (h & s1 & H1 & H).
  apply sys_Done in H1. destruct H1 as (w1 & _ & ->).
  apply bind_Done in H. destruct H as (ok & s2 & H2 & H).
  apply sys_Done in H2. destruct H2 as (w2 & _ & ->).
  apply bind_Done in H. destruct H as (s0 & s3 & H3 & H).
  injection H3 as <- <-.
  apply bind_Done in H. destruct H as (b & s4 & Hm & H).
  apply c_malloc_frame in Hm. cbn in Hm. destruct Hm as [He4 Hs4].
  destruct (b =? NULL).
  - apply bind_Done in H. destruct H as (u & s5 & Hn & H).
    minv Hn. apply ret_Done in H. destruct H as [E ->].
    injection E as -> ->. cbn. split; congruence.
  - destruct (negb ok); [discriminate|].
    apply bind_Done in H. destruct H as (q1 & s5 & Hq & H).
    apply snapshot_query_errors in Hq. destruct Hq as [Hst Hq].
    apply ret_Done in H. destruct H as [E ->]. injection E as _ ->.
    split; [congruence|].
    destruct q1 as [[[[b1 st] size] sn]|].
    + destruct Hq as [He Hq]. split; [congruence|exact Hq].
    + congruence.
Qed.

(** A snapshot the query loop leaves with is what one query delivered,
    with a status that is not one of the two the loop retries on. *)
Lemma snapshot_query_origin fuel :
  forall buffer bufferSize s b status size snap s',
    snapshot_query os fuel buffer bufferSize s
    = Done (Some (b, status, size, snap)) s' ->
    (exists sz w status0 len w',
        NtQuerySystemInformation os sz w = (status0, len, snap, w')
        /\ int_of status0 = status /\ DWORD_of len = size)
    /\ status <> STATUS_BUFFER_TOO_SMALL
    /\ status <> STATUS_INFO_LENGTH_MISMATCH.
Proof.
  induction fuel as [|fuel IH];
    intros buffer bufferSize s b status size snap s' H; [discriminate|].
  cbn [snapshot_query] in H.
  apply bind_Done in H. destruct H as (r & s1 & Hq & H).
  apply sys_Done in Hq. destruct Hq as (w & Ew & ->).
  destruct r as [[status0 ReturnLength] snap0].
  destruct (int_of status0 =? STATUS_BUFFER_TOO_SMALL) eqn:E1;
    [|destruct (int_of status0 =? STATUS_INFO_LENGTH_MISMATCH) eqn:E2];
    cbn [orb] in H.
  - apply bind_Done in H. destruct H as (u & s2 & _ & H).
    apply bind_Done in H. destruct H as (b1 & s3 & _ & H).
    destruct (b1 =? NULL); [minv H; discriminate|]. now apply IH in H.
  - apply bind_Done in H. destruct H as (u & s2 & _ & H).
    apply bind_Done in H. destruct H as (b1 & s3 & _ & H).
    destruct (b1 =? NULL); [minv H; discriminate|]. now apply IH in H.
  - apply ret_Done in H. destruct H as [E ->]. injection E as -> -> -> ->.
    apply Z.eqb_neq in E1, E2. split; [|auto].
    exists bufferSize, (st_world s), status0, ReturnLength, w. auto.
Qed.

Lemma snapshot_acquire_origin fuel s hNtDll b status size snap s' :
  snapshot_acquire os fuel s = Done (hNtDll, Some (b, status, size, snap)) s' ->
  (exists sz w status0 len w',
      NtQuerySystemInformation os sz w = (status0, len, snap, w')
      /\ int_of status0 = status /\ DWORD_of len = size)
  /\ status <> STATUS_BUFFER_TOO_SMALL
  /\ status <> STATUS_INFO_LENGTH_MISMATCH.
Proof.
  unfold snapshot_acquire. intros H.
  apply bind_Done in H. destruct H as (h & s1 & _ & H).
  apply bind_Done in H. destruct H as (ok & s2 & _ & H).
  apply bind_Done in H. destruct H as (s0 & s3 & _ & H).
  apply bind_Done in H. destruct H as (b0 & s4 & _ & H).
  destruct (b0 =? NULL).
  - apply bind_Done in H. destruct H as (u & s5 & _ & H).
    apply ret_Done in H. destruct H as [E _]. discriminate.
  - destruct (negb ok); [discriminate|].
    apply bind_Done in H. destruct H as (q1 & s5 & Hq & H).
    apply ret_Done in H. destruct H as [E ->]. injection E as _ <-.
    now apply snapshot_query_origin in Hq.
Qed.

Lemma find_process_Done fuel snap :
  forall process pid s f s',
    find_process os fuel snap process pid s = Done f s' ->
    s' = s /\
    match f with
    | Some (o, r) => record_at snap o = Some r /\ same_pid os pid r = true
    | None => True
    end.
Proof.
  induction fuel as [|fuel IH]; intros process pid s f s' H; [discriminate|].
  cbn [find_process] in H.
  destruct (record_at snap process) as [r|] eqn:Er; [|discriminate].
  destruct (same_pid os pid r) eqn:Ep.
  - apply ret_Done in H. destruct H as [-> ->]. auto.
  - destruct (DWORD_of (NextEntryOffset r) =? 0).
    + apply ret_Done in H. destruct H as [-> ->]. auto.
    + now apply IH in H.
Qed.

Lemma get_proc_info_error_Done {A B} hNtDll buffer (rp : A) (rb : B) s r s' :
  get_proc_info_error os hNtDll buffer rp rb s = Done r s' ->
  r = (0, rp, rb) /\
  st_handles s' = st_handles s /\ st_errors s' = st_errors s /\
  st_statics s' = st_statics s /\
  st_heap s' = if buffer =? NULL then st_heap s
               else remove_block buffer (st_heap s).
Proof.
  unfold get_proc_info_error. intros H.
  apply bind_Done in H. destruct H as (u1 & s1 & H1 & H).
  apply sys__Done in H1. subst s1.
  apply bind_Done in H. destruct H as (u2 & s2 & H2 & H).
  apply ret_Done in H. destruct H as [-> ->]. split; [reflexivity|].
  destruct (buffer =? NULL) eqn:Eb; cbn [negb] in H2.
  - apply ret_Done in H2. destruct H2 as [_ ->]. cbn. auto.
  - pose proof (c_free_Done _ _ _ _ H2) as [Hh Hp].
    apply c_free_frame in H2. destruct H2 as [He Hs].
    rewrite Eb in Hp. cbn in *. auto.
Qed.

(** Every way [ps__get_proc_info] can end. *)
Lemma get_proc_info_paths fuel pid retProcess retBuffer s
  code process buf s' :
  ps__get_proc_info os fuel pid retProcess retBuffer s
  = Done (code, process, buf) s' ->
  st_handles s' = st_handles s /\
  (initialBufferSize (st_statics s') = initialBufferSize (st_statics s)
   \/ 0 <= initialBufferSize (st_statics s') <= 0x20000) /\
  NtQueryInformationProcess_set (st_statics s')
  = NtQueryInformationProcess_set (st_statics s) /\
  NtWow64QueryInformationProcess64_set (st_statics s')
  = NtWow64QueryInformationProcess64_set (st_statics s) /\
  NtWow64ReadVirtualMemory64_set (st_statics s')
  = NtWow64ReadVirtualMemory64_set (st_statics s) /\
  NtWow64QueryVirtualMemory64_set (st_statics s')
  = NtWow64QueryVirtualMemory64_set (st_statics s) /\
  (code = 1 /\
   (exists o r,
       process = Some (o, r) /\ record_at (sb_data buf) o = Some r
       /\ same_pid os pid r = true) /\
   (exists sz w status0 len w',
       NtQuerySystemInformation os sz w = (status0, len, sb_data buf, w')
       /\ int_of status0 = 0) /\
   sb_addr buf <> NULL /\
   (exists n, st_heap s' = (sb_addr buf, n) :: st_heap s) /\
   st_errors s' = st_errors s
   \/
   code = 0 /\ process = retProcess /\ buf = retBuffer /\
   st_heap s' = st_heap s /\
   exists e,
     st_errors s' = e :: st_errors s /\
     (e = NoMemory
      \/ e = PsError "NtQuerySystemInformation() syscall failed"
      \/ e = NoSuchProcess pid)).
Proof.
  unfold ps__get_proc_info. intros H.
  apply bind_Done in H. destruct H as ([hNtDll q] & s1 & Ha & H).
  pose proof (snapshot_acquire_resources _ _ _ _ _ Ha) as [Hh1 Hr1].
  pose proof Ha as Horigin.
  apply snapshot_acquire_errors in Ha. destruct Ha as [Hs1 He1].
  destruct q as [[[[b status] size] snap]|].
  - destruct Hr1 as [Hb (n & Hheap1)]. destruct He1 as [He1 Hsize].
    pose proof Hb as Hb'. apply Z.eqb_neq in Hb'.
    apply snapshot_acquire_origin in Horigin.
    destruct Horigin as [(sz & w0 & status0 & len & w0' & Hq & Est & _) _].
    destruct (Z.eqb_spec status 0) as [Estat|Estat]; cbn [negb] in H.
    2:{ apply bind_Done in H. destruct H as (u & s2 & Hset & H).
      minv Hset.
      apply get_proc_info_error_Done in H.
      destruct H as (E & Hh & He & Hs & Hp). injection E as -> -> ->.
      cbn in Hh, He, Hs, Hp. rewrite Hb', Hheap1, remove_block_head in Hp.
      split; [congruence|]. rewrite Hs, Hs1.
      split; [now left|]. repeat (split; [reflexivity|]).
      right. repeat (split; [auto|]).
      eexists. split; [rewrite He, He1; reflexivity|auto]. }
    { apply bind_Done in H. destruct H as (u & s2 & Hupd & H).
      assert (Hs2 : st_handles s2 = st_handles s1
                    /\ st_heap s2 = st_heap s1
                    /\ st_errors s2 = st_errors s1
                    /\ st_statics s2
                       = (if size <=? 0x20000
                          then set_initialBufferSize size (st_statics s1)
                          else st_statics s1)).
      { destruct (size <=? 0x20000).
        - injection Hupd as _ <-. cbn. auto.
        - apply ret_Done in Hupd. destruct Hupd as [_ ->]. auto. }
      destruct Hs2 as (Hh2 & Hp2 & He2 & Hst2).
      assert (Hhint : (initialBufferSize (st_statics s2)
                       = initialBufferSize (st_statics s)
                       \/ 0 <= initialBufferSize (st_statics s2) <= 0x20000)
                      /\ NtQueryInformationProcess_set (st_statics s2)
                         = NtQueryInformationProcess_set (st_statics s)
                      /\ NtWow64QueryInformationProcess64_set (st_statics s2)
                         = NtWow64QueryInformationProcess64_set (st_statics s)
                      /\ NtWow64ReadVirtualMemory64_set (st_statics s2)
                         = NtWow64ReadVirtualMemory64_set (st_statics s)
                      /\ NtWow64QueryVirtualMemory64_set (st_statics s2)
                         = NtWow64QueryVirtualMemory64_set (st_statics s)).
      { rewrite Hst2. destruct (Z.leb_spec size 0x20000); rewrite Hs1.
        - cbn. split; [right; lia|]. auto.
        - split; [now left|]. auto. }
      apply bind_Done in H. destruct H as (found & s3 & Hf & H).
      apply find_process_Done in Hf. destruct Hf as [-> Hf].
      destruct found as [[o r]|].
      * apply ret_Done in H. destruct H as [E ->]. injection E as -> -> ->.
        split; [congruence|]. split; [exact (proj1 Hhint)|].
        split; [exact (proj1 (proj2 Hhint))|].
        split; [exact (proj1 (proj2 (proj2 Hhint)))|].
        split; [exact (proj1 (proj2 (proj2 (proj2 Hhint))))|].
        split; [exact (proj2 (proj2 (proj2 (proj2 Hhint))))|].
        left. split; [reflexivity|]. cbn [sb_data sb_addr].
        split; [exists o, r; tauto|].
        split; [exists sz, w0, status0, len, w0'; split; congruence|].
        split; [exact Hb|].
        split; [exists n; congruence|congruence].
      * apply bind_Done in H. destruct H as (u3 & s4 & Hns & H).
        minv Hns.
        apply get_proc_info_error_Done in H.
        destruct H as (E & Hh & He & Hs & Hp). injection E as -> -> ->.
        cbn in Hh, He, Hs, Hp.
        rewrite Hb', Hp2, Hheap1, remove_block_head in Hp.
        split; [congruence|]. rewrite Hs.
        split; [exact (proj1 Hhint)|].
        split; [exact (proj1 (proj2 Hhint))|].
        split; [exact (proj1 (proj2 (proj2 Hhint)))|].
        split; [exact (proj1 (proj2 (proj2 (proj2 Hhint))))|].
        split; [exact (proj2 (proj2 (proj2 (proj2 Hhint))))|].
        right. repeat (split; [auto|]).
        eexists. split; [rewrite He, He2, He1; reflexivity|auto]. }
  - apply get_proc_info_error_Done in H.
    destruct H as (E & Hh & He & Hs & Hp). injection E as -> -> ->.
    cbn in Hp. split; [congruence|]. rewrite Hs, Hs1.
    split; [now left|]. repeat (split; [reflexivity|]).
    right. repeat (split; [auto|]). congruence.
    eexists. split; [rewrite He, He1; reflexivity|auto].
Qed.

End ScannerPaths.

Section Consistent.

Context {os : OS}.
Implicit Types s : state os.

(** A system that needs [R] bytes for its snapshot [snap]: a smaller
    buffer is refused with the size needed, a buffer of [R] bytes or more
    is filled. *)
Variable R : Z.
Variable snap : snapshot.
Hypothesis R_range : 0 <= R < 2 ^ 32.
Hypothesis query_consistent :
  forall size w,
    let '(status, len, sn, _) := NtQuerySystemInformation os size w in
    DWORD_of len = R /\
    (size < R ->
     int_of status = STATUS_INFO_LENGTH_MISMATCH
     \/ int_of status = STATUS_BUFFER_TOO_SMALL) /\
    (R <= size -> int_of status = 0 /\ sn = snap).

Lemma snapshot_query_unfold fuel buffer bufferSize s :
  snapshot_query os (S fuel) buffer bufferSize s
  = bind (sys (NtQuerySystemInformation os bufferSize))
      (fun r =>
         let '(status0, ReturnLength, snap0) := r in
         if (int_of status0 =? STATUS_BUFFER_TOO_SMALL)
            || (int_of status0 =? STATUS_INFO_LENGTH_MISMATCH)
         then
           bind (c_free os buffer) (fun _ =>
           bind (c_malloc os (DWORD_of ReturnLength)) (fun buffer1 =>
           if buffer1 =? NULL
           then bind (ps__no_memory os) (fun _ => ret None)
           else snapshot_query os fuel buffer1 (DWORD_of ReturnLength)))
         else ret (Some (buffer, int_of status0, DWORD_of ReturnLength,
                         snap0))) s.
Proof. reflexivity. Qed.

Lemma snapshot_query_filled fuel buffer bufferSize s :
  R <= bufferSize ->
  exists s',
    snapshot_query os (S fuel) buffer bufferSize s
    = Done (Some (buffer, 0, R, snap)) s'
    /\ st_heap s' = st_heap s /\ st_errors s' = st_errors s
    /\ st_statics s' = st_statics s.
Proof using query_consistent.
  intros Hsize. rewrite snapshot_query_unfold.
  pose proof (query_consistent bufferSize (st_world s)) as Hq.
  destruct (NtQuerySystemInformation os bufferSize (st_world s))
    as [[[status len] sn] w] eqn:E.
  destruct Hq as (Hlen & _ & Hok). destruct (Hok Hsize) as [Hst ->].
  rewrite (bind_eq _ _ _ _ _ (sys_eq _ _ _ _ E)).
  rewrite Hst, Hlen.
  change ((0 =? STATUS_BUFFER_TOO_SMALL) || (0 =? STATUS_INFO_LENGTH_MISMATCH))
    with false.
  cbv beta iota. eexists. split; [reflexivity|]. cbn. auto.
Qed.

Lemma snapshot_query_converges fuel buffer bufferSize s base n0 :
  buffer <> NULL ->
  st_heap s = (buffer, n0) :: base ->
  exists q s',
    snapshot_query os (S (S fuel)) buffer bufferSize s = Done q s'
    /\ st_statics s' = st_statics s
    /\ (q = None /\ st_heap s' = base
        /\ st_errors s' = NoMemory :: st_errors s
        /\ (exists n w, fst (malloc os n w) = NULL)
        \/ exists b,
            q = Some (b, 0, R, snap) /\ b <> NULL
            /\ st_heap s' = (b, if R <=? bufferSize then n0 else R) :: base
            /\ st_errors s' = st_errors s).
Proof using R_range query_consistent.
  intros Hb Hheap.
  destruct (Z.leb_spec R bufferSize) as [Hle|Hlt].
  - destruct (snapshot_query_filled (S fuel) buffer bufferSize s Hle)
      as (s' & Hrun & Hp & He & Hs).
    exists (Some (buffer, 0, R, snap)), s'. split; [exact Hrun|].
    split; [exact Hs|]. right. exists buffer. split; [reflexivity|].
    split; [exact Hb|]. split; [congruence|exact He].
  - rewrite snapshot_query_unfold.
    pose proof (query_consistent bufferSize (st_world s)) as Hq.
    destruct (NtQuerySystemInformation os bufferSize (st_world s))
      as [[[status len] sn] w] eqn:E.
    destruct Hq as (Hlen & Hsmall & _). specialize (Hsmall Hlt).
    rewrite (bind_eq _ _ _ _ _ (sys_eq _ _ _ _ E)).
    rewrite Hlen.
    assert (Hretry : (int_of status =? STATUS_BUFFER_TOO_SMALL)
                     || (int_of status =? STATUS_INFO_LENGTH_MISMATCH)
                     = true).
    { destruct Hsmall as [-> | ->]; reflexivity. }
    rewrite Hretry. cbv beta iota.
    destruct (c_free_run buffer (set_world os w s)) as (s1 & Hf & Hp1).
    pose proof (c_free_frame _ _ _ _ Hf) as [He1 Hs1].
    rewrite (bind_eq _ _ _ _ _ Hf).
    apply Z.eqb_neq in Hb. rewrite Hb in Hp1. cbn in Hp1, He1, Hs1.
    rewrite Hheap, remove_block_head in Hp1.
    destruct (c_malloc_run R s1) as (b1 & s2 & Hm & Eb1 & Hp2).
    pose proof (c_malloc_frame _ _ _ _ Hm) as [He2 Hs2].
    rewrite (bind_eq _ _ _ _ _ Hm).
    destruct (Z.eqb_spec b1 NULL) as [Hb1|Hb1].
    + eexists. eexists. split; [reflexivity|]. cbn.
      split; [congruence|]. left. split; [reflexivity|].
      split; [congruence|]. split; [congruence|].
      exists R, (st_world s1). congruence.
    + destruct (snapshot_query_filled fuel b1 R s2 (Z.le_refl R))
        as (s' & Hrun & Hp & He & Hs).
      rewrite Hrun.
      exists (Some (b1, 0, R, snap)), s'. split; [reflexivity|].
      split; [congruence|]. right. exists b1. split; [reflexivity|].
      split; [exact Hb1|]. split; congruence.
Qed.

Hypothesis entry_point_found :
  forall w, fst (GetProcAddress os "NtQuerySystemInformation" w) = true.

Lemma snapshot_acquire_converges fuel s :
  exists hNtDll q s',
    snapshot_acquire os (S (S fuel)) s = Done (hNtDll, q) s'
    /\ st_statics s' = st_statics s
    /\ (q = None /\ st_heap s' = st_heap s
        /\ st_errors s' = NoMemory :: st_errors s
        /\ (exists n w, fst (malloc os n w) = NULL)
        \/ exists b,
            q = Some (b, 0, R, snap) /\ b <> NULL
            /\ st_heap s'
               = (b, Z.max (initialBufferSize (st_statics s)) R) :: st_heap s
            /\ st_errors s' = st_errors s).
Proof using R_range query_consistent entry_point_found.
  unfold snapshot_acquire.
  destruct (LoadLibrary os (st_world s)) as [h w1] eqn:E1.
  rewrite (bind_eq _ _ _ _ _ (sys_eq _ _ _ _ E1)).
  set (s1 := set_world os w1 s).
  pose proof (entry_point_found (st_world s1)) as Hgpa.
  destruct (GetProcAddress os "NtQuerySystemInformation" (st_world s1))
    as [ok w2] eqn:E2.
  cbn [fst] in Hgpa. subst ok.
  rewrite (bind_eq _ _ _ _ _ (sys_eq _ _ _ _ E2)).
  set (s2 := set_world os w2 s1).
  unfold bind at 1.
  change (st_statics s2) with (st_statics s).
  destruct (c_malloc_run (initialBufferSize (st_statics s)) s2)
    as (b & s3 & Hm & Eb & Hp3).
  pose proof (c_malloc_frame _ _ _ _ Hm) as [He3 Hs3].
  rewrite (bind_eq _ _ _ _ _ Hm).
  destruct (Z.eqb_spec b NULL) as [Hb|Hb].
  - exists h. eexists. eexists. split; [reflexivity|]. cbn.
    split; [exact Hs3|]. left. split; [reflexivity|].
    split; [exact Hp3|]. split; [now rewrite He3|].
    exists (initialBufferSize (st_statics s)), (st_world s2). congruence.
  - cbn [negb].
    destruct (snapshot_query_converges fuel b
                (initialBufferSize (st_statics s)) s3 (st_heap s)
                (initialBufferSize (st_statics s)) Hb Hp3)
      as (q & s' & Hrun & Hs & Hcase).
    rewrite (bind_eq _ _ _ _ _ Hrun).
    exists h, q, s'. split; [reflexivity|].
    split; [rewrite Hs, Hs3; reflexivity|].
    destruct Hcase as [(-> & Hp & He & Hf)|(b1 & -> & Hb1 & Hp & He)].
    + left. split; [reflexivity|]. split; [exact Hp|].
      split; [rewrite He, He3; reflexivity|exact Hf].
    + right. exists b1. split; [reflexivity|]. split; [exact Hb1|].
      split; [|rewrite He, He3; reflexivity].
      rewrite Hp. do 2 f_equal.
      destruct (Z.leb_spec R (initialBufferSize (st_statics s))); lia.
Qed.

Lemma snapshot_scan_converges fuel pid retProcess retBuffer s recs :
  chain snap 0 recs ->
  (length recs <= S (S fuel))%nat ->
  exists r s',
    ps__get_proc_info os (S (S fuel)) pid retProcess retBuffer s = Done r s'
    /\ (r = (0, retProcess, retBuffer)
        /\ st_heap s' = st_heap s
        /\ st_errors s' = NoMemory :: st_errors s
        /\ st_statics s' = st_statics s
        /\ (exists n w, fst (malloc os n w) = NULL)
        \/ match find (fun e => same_pid os pid (snd e)) recs with
           | Some process =>
               exists buffer,
                 r = (1, Some process,
                      {| sb_addr := buffer; sb_data := snap |})
                 /\ st_heap s'
                    = (buffer, Z.max (initialBufferSize (st_statics s)) R)
                      :: st_heap s
                 /\ st_errors s' = st_errors s
           | None =>
               r = (0, retProcess, retBuffer)
               /\ st_heap s' = st_heap s
               /\ st_errors s' = NoSuchProcess pid :: st_errors s
           end
           /\ initialBufferSize (st_statics s')
              = (if R <=? 0x20000 then R
                 else initialBufferSize (st_statics s))).
Proof using R_range query_consistent entry_point_found.
  intros Hchain Hfuel.
  destruct (snapshot_acquire_converges fuel s)
    as (h & q & s1 & Hacq & Hs1 & Hcase).
  unfold ps__get_proc_info. rewrite (bind_eq _ _ _ _ _ Hacq).
  destruct Hcase as [(-> & Hp1 & He1 & Hf)|(b & -> & Hb & Hp1 & He1)].
  { unfold get_proc_info_error, bind, sys_, ret. cbn.
    eexists. eexists. split; [reflexivity|]. left. cbn. auto. }
  cbn [Z.eqb negb].
  set (upd := if R <=? 131072
              then fun s0 : state os =>
                     Done tt (set_statics os
                                (set_initialBufferSize R (st_statics s0)) s0)
              else ret tt).
  assert (Hupd : exists s2,
             upd s1 = Done tt s2
             /\ st_heap s2 = st_heap s1 /\ st_errors s2 = st_errors s1
             /\ initialBufferSize (st_statics s2)
                = (if R <=? 0x20000 then R
                   else initialBufferSize (st_statics s))).
  { unfold upd. destruct (R <=? 131072); eexists;
      (split; [reflexivity|]); cbn; rewrite ?Hs1; auto. }
  destruct Hupd as (s2 & Hupd & Hp2 & He2 & Hhint).
  rewrite (bind_eq _ _ _ _ _ Hupd).
  rewrite (bind_eq _ _ _ _ _
             (find_process_chain snap pid 0 recs Hchain (S (S fuel)) s2
                Hfuel)).
  destruct (find (fun e => same_pid os pid (snd e)) recs) as [process|].
  - eexists. eexists. split; [reflexivity|]. right. split; [|exact Hhint].
    exists b. split; [reflexivity|]. split; congruence.
  - unfold get_proc_info_error, ps__no_such_process, raise, bind, sys_,
      c_free, ret.
    apply Z.eqb_neq in Hb. rewrite Hb. cbn [negb].
    eexists. eexists. split; [reflexivity|]. cbn. right.
    split; [|exact Hhint]. split; [reflexivity|].
    rewrite Hp2, Hp1, remove_block_head, He2, He1. auto.
Qed.

End Consistent.

(** X18. Every way [ps__get_proc_info] can end.  It returns 1 or 0 and
    leaves the open handles alone.  With 1, the record handed over lies in
    the buffer handed over, at the offset given, and carries the pid; the
    buffer holds what a query answered with status 0 delivered and is the
    one block added to the heap; no error was raised.  With
    0, the two output parameters are as they were, what was allocated has
    been freed, and exactly one error was raised: NoMemory, the message for
    a failed system call, or NoSuchProcess for the pid. *)
Theorem get_proc_info_every_path :
  forall (os : OS) fuel pid retProcess retBuffer (s : state os)
         code process buf s',
    ps__get_proc_info os fuel pid retProcess retBuffer s
    = Done (code, process, buf) s' ->
    st_handles s' = st_handles s /\
    (code = 1 /\
     (exists o r,
         process = Some (o, r) /\ record_at (sb_data buf) o = Some r
         /\ same_pid os pid r = true) /\
     (exists sz w status0 len w',
         NtQuerySystemInformation os sz w = (status0, len, sb_data buf, w')
         /\ int_of status0 = 0) /\
     sb_addr buf <> NULL /\
     (exists n, st_heap s' = (sb_addr buf, n) :: st_heap s) /\
     st_errors s' = st_errors s
     \/
     code = 0 /\ process = retProcess /\ buf = retBuffer /\
     st_heap s' = st_heap s /\
     exists e,
       st_errors s' = e :: st_errors s /\
       (e = NoMemory
        \/ e = PsError "NtQuerySystemInformation() syscall failed"
        \/ e = NoSuchProcess pid)).
Proof.
  intros os fuel pid retProcess retBuffer s code process buf s' H.
  apply get_proc_info_paths in H.
  destruct H as (Hh & _ & _ & _ & _ & _ & Hcase). auto.
Qed.

Lemma get_proc_info_every_path_witness :
  let s' :=
    set_errors (sim_os sim_native) [NoSuchProcess 77]
      (set_statics (sim_os sim_native)
         (set_initialBufferSize 0x5000 statics0)
         (set_world (sim_os sim_native)
            (0x10000 + 0x4000 + 16 + 0x5000 + 16) (sim_state sim_native))) in
  st_handles s' = st_handles (sim_state sim_native) /\
  (0 = 1 /\
   (exists o r,
       None = Some (o, r)
       /\ record_at (sb_data {| sb_addr := NULL; sb_data := [] |}) o = Some r
       /\ same_pid (sim_os sim_native) 77 r = true) /\
   (exists sz w status0 len w',
       NtQuerySystemInformation (sim_os sim_native) sz w
       = (status0, len, sb_data {| sb_addr := NULL; sb_data := [] |}, w')
       /\ int_of status0 = 0) /\
   sb_addr {| sb_addr := NULL; sb_data := [] |} <> NULL /\
   (exists n,
       st_heap s'
       = (sb_addr {| sb_addr := NULL; sb_data := [] |}, n)
         :: st_heap (sim_state sim_native)) /\
   st_errors s' = st_errors (sim_state sim_native)
   \/
   0 = 0 /\ @None (Z * SYSTEM_PROCESS_INFORMATION) = None /\
   {| sb_addr := NULL; sb_data := [] |} = {| sb_addr := NULL; sb_data := [] |}
   /\ st_heap s' = st_heap (sim_state sim_native) /\
   exists e,
     st_errors s' = e :: st_errors (sim_state sim_native) /\
     (e = NoMemory
      \/ e = PsError "NtQuerySystemInformation() syscall failed"
      \/ e = NoSuchProcess 77)).
Proof.
  intros s'.
  refine (get_proc_info_every_path (sim_os sim_native) 3 77 None
            {| sb_addr := NULL; sb_data := [] |} (sim_state sim_native)
            0 None {| sb_addr := NULL; sb_data := [] |} s' _).
  reflexivity.
Defined.

(** X19. The buffer size [ps__get_proc_info] remembers between calls
    either stays as it is or becomes a size of at most 0x20000, so once it
    is at most 0x20000 it stays so; the entry points looked up by
    [ps__get_process_data] are not touched. *)
Theorem get_proc_info_size_hint :
  forall (os : OS) fuel pid retProcess retBuffer (s : state os) r s',
    ps__get_proc_info os fuel pid retProcess retBuffer s = Done r s' ->
    (initialBufferSize (st_statics s') = initialBufferSize (st_statics s)
     \/ 0 <= initialBufferSize (st_statics s') <= 0x20000) /\
    (initialBufferSize (st_statics s) <= 0x20000 ->
     initialBufferSize (st_statics s') <= 0x20000) /\
    NtQueryInformationProcess_set (st_statics s')
    = NtQueryInformationProcess_set (st_statics s) /\
    NtWow64QueryInformationProcess64_set (st_statics s')
    = NtWow64QueryInformationProcess64_set (st_statics s) /\
    NtWow64ReadVirtualMemory64_set (st_statics s')
    = NtWow64ReadVirtualMemory64_set (st_statics s) /\
    NtWow64QueryVirtualMemory64_set (st_statics s')
    = NtWow64QueryVirtualMemory64_set (st_statics s).
Proof.
  intros os fuel pid retProcess retBuffer s [[code process] buf] s' H.
  apply get_proc_info_paths in H.
  destruct H as (_ & Hhint & H1 & H2 & H3 & H4 & _).
  split; [exact Hhint|]. split; [|auto].
  intros Hle. destruct Hhint as [E|E]; lia.
Qed.

Lemma get_proc_info_size_hint_witness :
  let s' :=
    set_heap (sim_os sim_native) [(0x10000 + 0x4000 + 16, 0x5000)]
      (set_statics (sim_os sim_native)
         (set_initialBufferSize 0x5000 statics0)
         (set_world (sim_os sim_native)
            (0x10000 + 0x4000 + 16 + 0x5000 + 16) (sim_state sim_native))) in
  (initialBufferSize (st_statics s')
   = initialBufferSize (st_statics (sim_state sim_native))
   \/ 0 <= initialBufferSize (st_statics s') <= 0x20000) /\
  (initialBufferSize (st_statics (sim_state sim_native)) <= 0x20000 ->
   initialBufferSize (st_statics s') <= 0x20000) /\
  NtQueryInformationProcess_set (st_statics s')
  = NtQueryInformationProcess_set (st_statics (sim_state sim_native)) /\
  NtWow64QueryInformationProcess64_set (st_statics s')
  = NtWow64QueryInformationProcess64_set
      (st_statics (sim_state sim_native)) /\
  NtWow64ReadVirtualMemory64_set (st_statics s')
  = NtWow64ReadVirtualMemory64_set (st_statics (sim_state sim_native)) /\
  NtWow64QueryVirtualMemory64_set (st_statics s')
  = NtWow64QueryVirtualMemory64_set (st_statics (sim_state sim_native)).
Proof.
  intros s'.
  refine (get_proc_info_size_hint (sim_os sim_native) 3 1234 None
            {| sb_addr := NULL; sb_data := [] |} (sim_state sim_native)
            (1,
             Some (0x280,
                   {| NextEntryOffset := 0; UniqueProcessId := 1234 |}),
             {| sb_addr := 0x10000 + 0x4000 + 16;
                sb_data := sim_snapshot sim_native |})
            s' _).
  reflexivity.
Defined.

(** X20. Against a system that needs [R] bytes for its snapshot (a smaller
    buffer is refused with STATUS_INFO_LENGTH_MISMATCH or
    STATUS_BUFFER_TOO_SMALL and the size needed, a buffer of [R] bytes or
    more is filled), with [NtQuerySystemInformation] found in ntdll.dll and
    the records chained from offset 0, the query loop of
    [ps__get_proc_info] is over after at most two queries: with a budget of
    two rounds that also covers the chain, the call returns.  Unless the
    allocator failed (NoMemory, nothing left allocated), it hands over the
    first record of the chain that carries the pid in a buffer of
    [max (hint, R)] bytes, or raises NoSuchProcess with the buffer freed;
    and the size remembered for the next call is [R] when [R] is at most
    0x20000. *)
Theorem get_proc_info_converges :
  forall (os : OS) (R : Z) (snap : snapshot) recs fuel pid
         retProcess retBuffer (s : state os),
    0 <= R < 2 ^ 32 ->
    (forall size w,
        let '(status, len, sn, _) := NtQuerySystemInformation os size w in
        DWORD_of len = R /\
        (size < R ->
         int_of status = STATUS_INFO_LENGTH_MISMATCH
         \/ int_of status = STATUS_BUFFER_TOO_SMALL) /\
        (R <= size -> int_of status = 0 /\ sn = snap)) ->
    (forall w, fst (GetProcAddress os "NtQuerySystemInformation" w) = true) ->
    chain snap 0 recs ->
    (length recs <= S (S fuel))%nat ->
    exists r s',
      ps__get_proc_info os (S (S fuel)) pid retProcess retBuffer s
      = Done r s'
      /\ (r = (0, retProcess, retBuffer)
          /\ st_heap s' = st_heap s
          /\ st_errors s' = NoMemory :: st_errors s
          /\ st_statics s' = st_statics s
          /\ (exists n w, fst (malloc os n w) = NULL)
          \/ match find (fun e => same_pid os pid (snd e)) recs with
             | Some process =>
                 exists buffer,
                   r = (1, Some process,
                        {| sb_addr := buffer; sb_data := snap |})
                   /\ st_heap s'
                      = (buffer, Z.max (initialBufferSize (st_statics s)) R)
                        :: st_heap s
                   /\ st_errors s' = st_errors s
             | None =>
                 r = (0, retProcess, retBuffer)
                 /\ st_heap s' = st_heap s
                 /\ st_errors s' = NoSuchProcess pid :: st_errors s
             end
             /\ initialBufferSize (st_statics s')
                = (if R <=? 0x20000 then R
                   else initialBufferSize (st_statics s))).
Proof.
  intros os R snap recs fuel pid retProcess retBuffer s HR Hq Hg Hc Hf.
  exact (snapshot_scan_converges R snap HR Hq Hg fuel pid retProcess
           retBuffer s recs Hc Hf).
Qed.

Lemma get_proc_info_converges_witness :
  exists r s',
    ps__get_proc_info (sim_os sim_native) 3 1234 None
      {| sb_addr := NULL; sb_data := [] |} (sim_state sim_native)
    = Done r s'
    /\ (r = (0, None, {| sb_addr := NULL; sb_data := [] |})
        /\ st_heap s' = st_heap (sim_state sim_native)
        /\ st_errors s' = NoMemory :: st_errors (sim_state sim_native)
        /\ st_statics s' = st_statics (sim_state sim_native)
        /\ (exists n w, fst (malloc (sim_os sim_native) n w) = NULL)
        \/ (exists buffer,
               r = (1,
                    Some (0x280,
                          {| NextEntryOffset := 0;
                             UniqueProcessId := 1234 |}),
                    {| sb_addr := buffer;
                       sb_data := sim_snapshot sim_native |})
               /\ st_heap s'
                  = (buffer,
                     Z.max
                       (initialBufferSize
                          (st_statics (sim_state sim_native))) 0x5000)
                    :: st_heap (sim_state sim_native)
               /\ st_errors s' = st_errors (sim_state sim_native))
           /\ initialBufferSize (st_statics s')
              = (if 0x5000 <=? 0x20000 then 0x5000
                 else initialBufferSize
                        (st_statics (sim_state sim_native)))).
Proof.
  refine (get_proc_info_converges (sim_os sim_native) 0x5000
            (sim_snapshot sim_native)
            [(0, {| NextEntryOffset := 0x100; UniqueProcessId := 0 |});
             (0x100, {| NextEntryOffset := 0x180; UniqueProcessId := 4 |});
             (0x280, {| NextEntryOffset := 0; UniqueProcessId := 1234 |})]
            1 1234 None {| sb_addr := NULL; sb_data := [] |}
            (sim_state sim_native) _ _ _ _ _).
  - split; [discriminate|reflexivity].
  - intros size w.
    change (NtQuerySystemInformation (sim_os sim_native) size w)
      with (if size <? 0x5000
            then (0xC0000004, 0x5000, @nil (Z * SYSTEM_PROCESS_INFORMATION), w)
            else (0, 0x5000, sim_snapshot sim_native, w)).
    destruct (Z.ltb_spec size 0x5000).
    + split; [reflexivity|]. split; [intros _; left; reflexivity|].
      intros F. lia.
    + split; [reflexivity|]. split; [intros F; lia|].
      intros _. split; reflexivity.
  - intros w. reflexivity.
  - apply chain_step; [reflexivity|discriminate|].
    apply chain_step; [reflexivity|discriminate|].
    apply chain_end; reflexivity.
  - cbn. lia.
Defined.
